(** * Store order intake and admin dashboard: model and verified properties

    Shallow embedding of
    - [supabase/functions/process-store-order/index.ts] (module [Intake]),
    - [src/components/dashboard/StoreManager.tsx] (module [StoreManager]),
    - the store tables of [supabase/migrations/20250709130918_dark_gate.sql]
      (module [Schema]).

    Conventions.  A count is an integer of [Z], and so is an amount that is
    only passed on or stored (in hundredths where the column is a
    [decimal(10,2)]); the one amount the code computes with, the
    [total_amount] the dashboard adds up, is the IEEE double it is at run
    time.  A string property that may be missing is an [option]; a number
    property of the request document is a [Js.number], which tells
    [undefined] from [null].  The hosted database is a record of tables,
    primary-keyed tables being finite maps from the row id.  Effects
    (database calls, console output, the outbound mail request, exceptions)
    are threaded by the monad [Eff]. *)

From Stdlib Require Import ZArith NArith QArith Ascii String List Bool Lia DecimalString.
From Stdlib Require Import Uint63 PrimFloat FloatOps SpecFloat.
From stdpp Require Import base tactics option strings list gmap sorting.

Set Warnings "-register-all".
Local Open Scope string_scope.
Local Open Scope list_scope.

(** ** Fragments of the JavaScript runtime used by the sources *)

Module Js.

(** JSON values: response bodies and the free-form [billing_address]. *)
Inductive json : Type :=
| JNull
| JBool (b : bool)
| JNum (n : Z)
| JStr (s : string)
| JArr (elems : list json)
| JObj (fields : list (string * json)).

(** Truthiness of a possibly undefined string: [undefined] and the empty
    string are falsy. *)
Definition truthy (v : option string) : bool :=
  match v with
  | Some s => negb (String.eqb s "")
  | None => false
  end.

(** A property declared [number], as read off a parsed JSON object: the
    property is absent ([undefined]), it is [null], or it is a number. *)
Inductive number : Type :=
| Undefined
| Null
| Number (z : Z).

Definition is_number (v : number) : bool :=
  match v with
  | Number _ => true
  | _ => false
  end.

(** [x || 0] on integers. *)
Definition or_zero (x : Z) : Z := if Z.eqb x 0 then 0%Z else x.

(** [x || 0] on doubles: 0, -0 and NaN are falsy. *)
Definition or_zero_double (x : float) : float :=
  if PrimFloat.is_zero x || PrimFloat.is_nan x then PrimFloat.zero else x.

(** The double of an integer (exact below 2^53). *)
Definition double_of_Z (z : Z) : float :=
  match z with
  | Z0 => PrimFloat.zero
  | Zpos _ => PrimFloat.of_uint63 (Uint63.of_Z z)
  | Zneg p => PrimFloat.opp (PrimFloat.of_uint63 (Uint63.of_Z (Zpos p)))
  end.

(** The double a [decimal(10,2)] value arrives as when the client parses
    the JSON answer of the backend: the double nearest to
    [hundredths / 100] (the division of two exactly represented integers is
    correctly rounded). *)
Definition decimal (hundredths : Z) : float :=
  PrimFloat.div (double_of_Z hundredths) (double_of_Z 100).

(** [s.substr(start, len)] for non-negative arguments. *)
Definition substr (start len : nat) (s : string) : string :=
  String.substring start len s.

Definition is_lower (c : ascii) : bool :=
  (97 <=? nat_of_ascii c)%nat && (nat_of_ascii c <=? 122)%nat.
Definition is_upper (c : ascii) : bool :=
  (65 <=? nat_of_ascii c)%nat && (nat_of_ascii c <=? 90)%nat.
Definition is_digit (c : ascii) : bool :=
  (48 <=? nat_of_ascii c)%nat && (nat_of_ascii c <=? 57)%nat.

(** [toUpperCase] on the ASCII range. *)
Definition upper_ascii (c : ascii) : ascii :=
  if is_lower c then ascii_of_nat (nat_of_ascii c - 32) else c.

Fixpoint toUpperCase (s : string) : string :=
  match s with
  | EmptyString => EmptyString
  | String c r => String (upper_ascii c) (toUpperCase r)
  end.

(** Template-literal rendering of a non-negative integer: its decimal
    digits. *)
Definition number_toString (n : N) : string :=
  NilZero.string_of_uint (N.to_uint n).

(** [Math.random().toString(36)], from the base-36 digits of the fraction
    (lower-case, as [toString] prints them).  The number 0 prints as [0],
    without a point; 0.5 has the single digit [i]. *)
Definition random_toString36 (fraction_digits : string) : string :=
  match fraction_digits with
  | EmptyString => "0"
  | _ => "0." ++ fraction_digits
  end.

Fixpoint forallb_string (f : ascii -> bool) (s : string) : bool :=
  match s with
  | EmptyString => true
  | String c r => f c && forallb_string f r
  end.

(** A digit as [toString(36)] prints it: [0-9a-z]. *)
Definition is_base36 (c : ascii) : bool := is_digit c || is_lower c.

End Js.

(** ** The store tables (migration [20250709130918_dark_gate.sql]) *)

Module Schema.

(** [store_addons]: the columns the modelled code reads or writes.  The
    time stamps are left out: [updated_at] is set by a [BEFORE UPDATE]
    trigger whose function, [update_updated_at_column], no migration of the
    repository defines, and nothing modelled reads it.  So a row here is
    the projection of a table row on these five columns. *)
Record addon_row : Type := {
  name : string;
  slug : string;
  price : Z;
  is_published : bool;
  download_count : Z
}.

(** [store_orders]; the key of the table is the [id] column.  A column is
    an option when the statement that fills it may give it no value
    ([None] is SQL [NULL]); the [NOT NULL] constraints are checked by
    [insert_order].  Amounts are in hundredths. *)
Record order_row : Type := {
  order_number : string;
  customer_email : option string;
  customer_name : option string;
  customer_phone : option string;
  institution_name : option string;
  billing_address : option Js.json;
  order_status : string;
  payment_status : string;
  payment_method : option string;
  subtotal : option Z;
  tax_amount : option Z;
  discount_amount : option Z;
  total_amount : option Z;
  currency : string
}.

(** [store_order_items].  [addon_id] is a nullable foreign key; the
    [NOT NULL] constraints on [addon_name], [quantity], [unit_price] and
    [total_price] are checked by [insert_order_items]. *)
Record order_item_row : Type := {
  order_id : string;
  addon_id : option string;
  addon_name : option string;
  addon_description : option string;
  quantity : option Z;
  unit_price : option Z;
  total_price : option Z
}.

Record Database : Type := {
  store_addons : gmap string addon_row;
  store_orders : gmap string order_row;
  store_order_items : list order_item_row
}.

(** The value a column gets from a property of the object given to
    [.insert]: a property that is [undefined] is dropped when the object
    is serialised, so the column takes its default ([None] when it has
    none); [null] is stored as [NULL]. *)
Definition column (default : option Z) (v : Js.number) : option Z :=
  match v with
  | Js.Undefined => default
  | Js.Null => None
  | Js.Number z => Some z
  end.

(** [CHECK (order_status IN (...))] and [CHECK (payment_status IN (...))]. *)
Definition order_status_values : list string :=
  ["pending"; "processing"; "completed"; "cancelled"; "refunded"].
Definition payment_status_values : list string :=
  ["pending"; "paid"; "failed"; "refunded"].

Definition order_status_check (s : string) : bool :=
  existsb (String.eqb s) order_status_values.
Definition payment_status_check (s : string) : bool :=
  existsb (String.eqb s) payment_status_values.

Definition is_some {A} (v : option A) : bool :=
  match v with Some _ => true | None => false end.

(** [order_number text UNIQUE NOT NULL]. *)
Definition order_number_taken (n : string) (db : Database) : bool :=
  existsb (fun kr => String.eqb (order_number (snd kr)) n)
          (map_to_list (store_orders db)).

Definition set_orders (t : gmap string order_row) (db : Database) : Database :=
  {| store_addons := store_addons db;
     store_orders := t;
     store_order_items := store_order_items db |}.
Definition set_addons (t : gmap string addon_row) (db : Database) : Database :=
  {| store_addons := t;
     store_orders := store_orders db;
     store_order_items := store_order_items db |}.
Definition set_items (t : list order_item_row) (db : Database) : Database :=
  {| store_addons := store_addons db;
     store_orders := store_orders db;
     store_order_items := t |}.

(** The [NOT NULL] columns of [store_orders] that a statement can leave
    null: [customer_email], [customer_name], [subtotal], [total_amount]. *)
Definition order_not_null (row : order_row) : bool :=
  is_some (customer_email row) && is_some (customer_name row)
  && is_some (subtotal row) && is_some (total_amount row).

(** [INSERT INTO store_orders]: [new_id] is the value [gen_random_uuid()]
    produces for the row.  The statement is refused on a null in a
    [NOT NULL] column, a violated check constraint, a taken order number or
    a taken primary key. *)
Definition insert_order (new_id : string) (row : order_row) (db : Database)
  : string + Database :=
  if negb (order_not_null row)
  then inl "null value violates not-null constraint"
  else if negb (order_status_check (order_status row)
           && payment_status_check (payment_status row))
  then inl "new row violates check constraint"
  else if order_number_taken (order_number row) db
  then inl "duplicate key value violates unique constraint"
  else match store_orders db !! new_id with
       | Some _ => inl "duplicate key value violates primary key"
       | None => inr (set_orders (<[new_id := row]> (store_orders db)) db)
       end.

(** The [NOT NULL] columns of [store_order_items]. *)
Definition item_not_null (it : order_item_row) : bool :=
  is_some (addon_name it) && is_some (quantity it)
  && is_some (unit_price it) && is_some (total_price it).

(** Foreign keys of an item: [order_id REFERENCES store_orders(id)] and
    [addon_id REFERENCES store_addons(id)]; a null [addon_id] references
    nothing. *)
Definition item_references_ok (db : Database) (it : order_item_row) : bool :=
  match store_orders db !! order_id it with
  | Some _ =>
      match addon_id it with
      | Some a => is_some (store_addons db !! a)
      | None => true
      end
  | None => false
  end.

(** [INSERT INTO store_order_items] of several rows: one statement, all
    rows or none. *)
Definition insert_order_items (rows : list order_item_row) (db : Database)
  : string + Database :=
  if negb (forallb item_not_null rows)
  then inl "null value violates not-null constraint"
  else if forallb (item_references_ok db) rows
  then inr (set_items (store_order_items db ++ rows) db)
  else inl "insert violates foreign key constraint".

(** [DELETE FROM store_orders WHERE id = ...]; the items of the order go
    with it ([ON DELETE CASCADE]). *)
Definition delete_order (id : string) (db : Database) : Database :=
  set_items
    (List.filter (fun it => negb (String.eqb (order_id it) id))
                 (store_order_items db))
    (set_orders (delete id (store_orders db)) db).

(** An item references the add-on [id]. *)
Definition references_addon (id : string) (it : order_item_row) : bool :=
  match addon_id it with
  | Some a => String.eqb a id
  | None => false
  end.

(** [DELETE FROM store_addons WHERE id = ...]: refused while an order item
    still references the add-on (the foreign key has no delete action). *)
Definition delete_addon (id : string) (db : Database) : string + Database :=
  if existsb (references_addon id) (store_order_items db)
  then inl "delete violates foreign key constraint"
  else inr (set_addons (delete id (store_addons db)) db).

Definition with_is_published (b : bool) (a : addon_row) : addon_row :=
  {| name := name a; slug := slug a; price := price a;
     is_published := b; download_count := download_count a |}.

(** [UPDATE store_addons SET is_published = ... WHERE id = ...]. *)
Definition update_is_published (id : string) (b : bool) (db : Database)
  : Database :=
  set_addons (alter (with_is_published b) id (store_addons db)) db.

Definition with_order_status (s : string) (r : order_row) : order_row :=
  {| order_number := order_number r; customer_email := customer_email r;
     customer_name := customer_name r; customer_phone := customer_phone r;
     institution_name := institution_name r;
     billing_address := billing_address r;
     order_status := s; payment_status := payment_status r;
     payment_method := payment_method r; subtotal := subtotal r;
     tax_amount := tax_amount r; discount_amount := discount_amount r;
     total_amount := total_amount r; currency := currency r |}.

(** [UPDATE store_orders SET order_status = ... WHERE id = ...]: refused
    when a row would get a status outside the check constraint. *)
Definition update_order_status (id : string) (s : string) (db : Database)
  : string + Database :=
  match store_orders db !! id with
  | None => inr db
  | Some _ =>
      if order_status_check s
      then inr (set_orders (alter (with_order_status s) id (store_orders db)) db)
      else inl "new row violates check constraint"
  end.

Definition with_download_count (n : Z) (a : addon_row) : addon_row :=
  {| name := name a; slug := slug a; price := price a;
     is_published := is_published a; download_count := n |}.

(** Modelled from the spec: the stored procedure [increment_download_count]
    is called by the intake function but declared in no migration of the
    repository; the spec says it increments a per-addon counter. *)
Definition increment_download_count (id : string) (db : Database) : Database :=
  set_addons
    (alter (fun a => with_download_count (download_count a + 1)%Z a) id
           (store_addons db))
    db.

End Schema.

(** ** Effects

    A handler runs against a [World]: the database and the script of the
    backend's answers.  Every call to the hosted database consumes the next
    entry of the script; [Some msg] makes that call report the error [msg]
    and leave the tables alone, [None] (or an exhausted script) lets the
    statement run against the tables.  What a handler does to the outside is
    recorded as a trace of events, in order. *)

Module Effects.

Inductive outcome (A : Type) : Type :=
| Returned (value : A)
| Thrown (message : string).
Arguments Returned {A} value.
Arguments Thrown {A} message.

(** What the mail provider does with one request: the call rejects (a
    network failure) or it answers, with [response.ok] true or false. *)
Inductive mail_outcome : Type :=
| MailRejected (message : string)
| MailResponded (ok : bool).

(** The dynamic parts of the confirmation mail, in the order the template
    of the intake function interpolates them (the static markup is left
    out). *)
Record mail_item : Type := {
  (** the values interpolated as they are: a missing one prints as
      [undefined] or [null] *)
  mi_addon_name : option string;
  mi_addon_description : option string;
  mi_quantity : Js.number;
  (** the texts [toLocaleString] gives for the two prices *)
  mi_unit_price : string;
  mi_total_price : string
}.

Record mail_html : Type := {
  title_order_number : string;
  header_order_number : string;
  dear : string;
  item_blocks : list mail_item;
  subtotal_line : string;
  tax_line : option string;
  discount_line : option string;
  total_line : string
}.

Record mail_request : Type := {
  authorization : string;
  from_email : string;
  from_name : string;
  to_email : option string;
  to_name : option string;
  subject : string;
  html : mail_html
}.

Inductive event : Type :=
| ConsoleError (label : string) (detail : string)
| InsertOrder (row : Schema.order_row) (result : string + string)
| InsertOrderItems (rows : list Schema.order_item_row) (error : option string)
| DeleteOrder (id : string) (error : option string)
| RpcIncrementDownloadCount (addon_id : option string) (error : option string)
| DeleteAddon (id : string) (error : option string)
| UpdateAddonPublished (id : string) (is_published : bool) (error : option string)
| UpdateOrderStatus (id : string) (order_status : string) (error : option string)
| MailSend (request : mail_request) (result : mail_outcome).

Record World : Type := {
  db : Schema.Database;
  script : list (option string)
}.

Definition Eff (A : Type) : Type := World -> outcome A * World * list event.

Definition ret {A} (a : A) : Eff A := fun w => (Returned a, w, []).

Definition bind {A B} (m : Eff A) (k : A -> Eff B) : Eff B :=
  fun w =>
    match m w with
    | (Returned a, w1, t1) =>
        match k a w1 with
        | (r, w2, t2) => (r, w2, t1 ++ t2)
        end
    | (Thrown e, w1, t1) => (Thrown e, w1, t1)
    end.

Definition throw {A} (e : string) : Eff A := fun w => (Thrown e, w, []).

(** [try { body } catch (error) { handler }]: what the body did before it
    threw stays done. *)
Definition try_catch {A} (body : Eff A) (handler : string -> Eff A) : Eff A :=
  fun w =>
    match body w with
    | (Returned a, w1, t1) => (Returned a, w1, t1)
    | (Thrown e, w1, t1) =>
        match handler e w1 with
        | (r, w2, t2) => (r, w2, t1 ++ t2)
        end
    end.

Definition emit (e : event) : Eff unit := fun w => (Returned tt, w, [e]).

Definition console_error (label detail : string) : Eff unit :=
  emit (ConsoleError label detail).

(** The next answer of the backend. *)
Definition next_answer (w : World) : option string * World :=
  match script w with
  | [] => (None, w)
  | a :: rest => (a, {| db := db w; script := rest |})
  end.

(** A database statement that changes the tables or is refused by a
    constraint; the value is the error the client receives, if any. *)
Definition statement (run : Schema.Database -> string + Schema.Database)
           (log : option string -> event) : Eff (option string) :=
  fun w =>
    let (answer, w1) := next_answer w in
    match answer with
    | Some msg => (Returned (Some msg), w1, [log (Some msg)])
    | None =>
        match run (db w1) with
        | inl msg => (Returned (Some msg), w1, [log (Some msg)])
        | inr db' =>
            (Returned None, {| db := db'; script := script w1 |}, [log None])
        end
    end.

Fixpoint for_each {A} (l : list A) (body : A -> Eff unit) : Eff unit :=
  match l with
  | [] => ret tt
  | x :: rest => bind (body x) (fun _ => for_each rest body)
  end.

Module Notations.
Notation "x <- m ;; k" := (bind m (fun x => k))
  (at level 100, m at next level, right associativity).
Notation "m ;; k" := (bind m (fun _ => k))
  (at level 100, right associativity).
End Notations.

End Effects.


(** ** The order-intake function ([process-store-order/index.ts]) *)

Module Intake.
Import Effects Effects.Notations.

Definition corsHeaders : list (string * string) :=
  [("Access-Control-Allow-Origin", "*");
   ("Access-Control-Allow-Headers",
    "authorization, x-client-info, apikey, content-type");
   ("Access-Control-Allow-Methods", "POST, OPTIONS")].

(** An element of [items] that is an object.  The interfaces of the
    source are erased at run time, so no property is sure to be there: a
    string property is [None] when it is absent or [null] (neither the
    handler nor the tables tell the two apart), a number property is a
    [Js.number].  A property that is present has the type the interface
    declares. *)
Record OrderItem : Type := {
  addon_id : option string;
  addon_name : option string;
  addon_description : option string;
  quantity : Js.number;
  unit_price : Js.number;
  total_price : Js.number
}.

(** A truthy [orderData.items]: an array, whose elements are objects or
    [null] (an element that is a number, a string or a boolean has none of
    the properties and reads as an object without them), or something that
    is not an array (a number, [true], a non-empty string, an object), of
    which the handler only reads whether its [length] is 0. *)
Inductive items_value : Type :=
| ItemsArray (elements : list (option OrderItem))
| ItemsOther (length_is_zero : bool).

(** The request document.  As for an item, no property is sure to be
    there, and one that is present has the type the interface declares.
    [items] is [None] when the property is falsy (absent, [null], [false],
    0 or the empty string).  [other_properties] holds whatever else the
    document carries: [req.json()] keeps it, the interface does not name
    it. *)
Record OrderData : Type := {
  customer_name : option string;
  customer_email : option string;
  customer_phone : option string;
  institution_name : option string;
  billing_address : option Js.json;
  payment_method : option string;
  items : option items_value;
  subtotal : Js.number;
  tax_amount : Js.number;
  discount_amount : Js.number;
  total_amount : Js.number;
  other_properties : list (string * Js.json)
}.

(** What [req.json()] resolves to: the JSON value [null], or a value whose
    properties can be read (a body that parses to a number, a string, a
    boolean or an array has none of the properties the handler reads and
    is a document without them). *)
Inductive json_value : Type :=
| JsonNull
| JsonDocument (orderData : OrderData).

(** One invocation's surroundings. *)
Record Platform : Type := {
  (** [Deno.env] *)
  env : gmap string string;
  (** [Date.now()], milliseconds since the epoch *)
  now : N;
  (** the base-36 digits of the fraction [Math.random()] returns *)
  random_fraction_digits : string;
  (** the id [gen_random_uuid()] gives the order row *)
  gen_random_uuid : string;
  (** the error [createClient(url, key)] of the client library throws for
      these arguments, if any *)
  createClient_error : option string -> option string -> option string;
  (** what the mail provider does with the request *)
  mail_provider : mail_outcome;
  (** [Number.prototype.toLocaleString] in the runtime's locale *)
  toLocaleString : Z -> string
}.

Record Request : Type := {
  method : string;
  (** the parsed body, [None] when the body is not JSON and [req.json()]
      rejects *)
  json_body : option json_value
}.

Record Response : Type := {
  status : nat;
  headers : list (string * string);
  (** the object given to [JSON.stringify], [None] for a [null] body *)
  body : option (list (string * Js.json))
}.

Definition json_response (code : nat) (fields : list (string * Js.json))
  : Response :=
  {| status := code;
     headers := corsHeaders ++ [("Content-Type", "application/json")];
     body := Some fields |}.

(** A computation that gives a value or throws. *)
Definition evaluate {A} (r : string + A) : Eff A :=
  match r with
  | inr a => ret a
  | inl message => throw message
  end.

Definition req_json (req : Request) : Eff json_value :=
  match json_body req with
  | Some v => ret v
  | None => throw "SyntaxError: Unexpected token in JSON"
  end.

(** The first property read of the parsed body, [orderData.customer_name]:
    [null] has no properties and the read throws. *)
Definition properties (v : json_value) : Eff OrderData :=
  match v with
  | JsonDocument orderData => ret orderData
  | JsonNull =>
      throw "TypeError: Cannot read properties of null (reading 'customer_name')"
  end.

(** [!orderData.customer_name || !orderData.customer_email ||
     !orderData.items || orderData.items.length === 0] *)
Definition missing_required_fields (orderData : OrderData) : bool :=
  negb (Js.truthy (customer_name orderData))
  || negb (Js.truthy (customer_email orderData))
  || match items orderData with
     | None => true
     | Some (ItemsArray l) => Nat.eqb (length l) 0
     | Some (ItemsOther length_is_zero) => length_is_zero
     end.

(** The elements of an array as objects, if none of them is [null]. *)
Fixpoint objects (l : list (option OrderItem)) : option (list OrderItem) :=
  match l with
  | [] => Some []
  | Some item :: rest =>
      match objects rest with
      | Some its => Some (item :: its)
      | None => None
      end
  | None :: _ => None
  end.

(** [orderData.items.map(item => ... item.property ...)], as far as it
    can fail: [map] is missing on what is not an array, and the callback
    throws on a [null] element when it reads its first property. *)
Definition items_objects (property : string) (orderData : OrderData)
  : string + list OrderItem :=
  match items orderData with
  | Some (ItemsArray l) =>
      match objects l with
      | Some its => inr its
      | None =>
          inl ("TypeError: Cannot read properties of null (reading '"
               ++ property ++ "')")%string
      end
  | Some (ItemsOther _) => inl "TypeError: orderData.items.map is not a function"
  | None => inl "TypeError: Cannot read properties of undefined (reading 'map')"
  end.

Definition items_array (property : string) (orderData : OrderData)
  : Eff (list OrderItem) :=
  evaluate (items_objects property orderData).

Definition createClient (p : Platform) (url key : option string) : Eff unit :=
  match createClient_error p url key with
  | Some msg => throw msg
  | None => ret tt
  end.

(** [`ORD-${Date.now()}-${Math.random().toString(36).substr(2, 5).toUpperCase()}`] *)
Definition orderNumber (p : Platform) : string :=
  "ORD-" ++ Js.number_toString (now p) ++ "-"
  ++ Js.toUpperCase
       (Js.substr 2 5 (Js.random_toString36 (random_fraction_digits p))).

(** The row described by the object given to [.insert] on [store_orders].
    The four amounts have the column default 0, which a property that is
    [undefined] leaves in place; [currency] is not given and takes its
    default. *)
Definition order_insert (p : Platform) (orderData : OrderData)
  : Schema.order_row :=
  {| Schema.order_number := orderNumber p;
     Schema.customer_name := customer_name orderData;
     Schema.customer_email := customer_email orderData;
     Schema.customer_phone := customer_phone orderData;
     Schema.institution_name := institution_name orderData;
     Schema.billing_address := billing_address orderData;
     Schema.payment_method := payment_method orderData;
     Schema.subtotal := Schema.column (Some 0%Z) (subtotal orderData);
     Schema.tax_amount := Schema.column (Some 0%Z) (tax_amount orderData);
     Schema.discount_amount :=
       Schema.column (Some 0%Z) (discount_amount orderData);
     Schema.total_amount := Schema.column (Some 0%Z) (total_amount orderData);
     Schema.order_status := "pending";
     Schema.payment_status := "pending";
     Schema.currency := "KES" |}.

(** One row of the array given to [.insert] on [store_order_items];
    [quantity] has the column default 1, the two prices have none. *)
Definition order_item_insert (order_id : string) (item : OrderItem)
  : Schema.order_item_row :=
  {| Schema.order_id := order_id;
     Schema.addon_id := addon_id item;
     Schema.addon_name := addon_name item;
     Schema.addon_description := addon_description item;
     Schema.quantity := Schema.column (Some 1%Z) (quantity item);
     Schema.unit_price := Schema.column None (unit_price item);
     Schema.total_price := Schema.column None (total_price item) |}.

(** [supabase.from('store_orders').insert(row).select().single()]: the
    value is the id of the created row, or the error. *)
Definition insert_store_order (p : Platform) (row : Schema.order_row)
  : Eff (string + string) :=
  fun w =>
    let (answer, w1) := next_answer w in
    match answer with
    | Some msg => (Returned (inr msg), w1, [InsertOrder row (inr msg)])
    | None =>
        match Schema.insert_order (gen_random_uuid p) row (db w1) with
        | inl msg => (Returned (inr msg), w1, [InsertOrder row (inr msg)])
        | inr db' =>
            (Returned (inl (gen_random_uuid p)),
             {| db := db'; script := script w1 |},
             [InsertOrder row (inl (gen_random_uuid p))])
        end
    end.

Definition insert_store_order_items (rows : list Schema.order_item_row)
  : Eff (option string) :=
  statement (Schema.insert_order_items rows) (InsertOrderItems rows).

Definition delete_store_order (id : string) : Eff (option string) :=
  statement (fun d => inr (Schema.delete_order id d)) (DeleteOrder id).

(** [supabase.rpc('increment_download_count', { addon_id })]; a call that
    carries no add-on id matches no row. *)
Definition rpc_increment_download_count (addon : option string)
  : Eff (option string) :=
  statement (fun d => inr (match addon with
                           | Some a => Schema.increment_download_count a d
                           | None => d
                           end))
            (RpcIncrementDownloadCount addon).

(** A value interpolated into a template literal. *)
Definition interpolate (v : option string) : string :=
  match v with
  | Some s => s
  | None => "undefined"
  end.

(** [v.toLocaleString()]: the method call throws when [v] is [undefined]
    or [null]. *)
Definition call_toLocaleString (p : Platform) (v : Js.number) : string + string :=
  match v with
  | Js.Number z => inr (toLocaleString p z)
  | Js.Undefined =>
      inl "TypeError: Cannot read properties of undefined (reading 'toLocaleString')"
  | Js.Null =>
      inl "TypeError: Cannot read properties of null (reading 'toLocaleString')"
  end.

(** The block of one item: [unit_price] is rendered before
    [total_price]. *)
Definition item_block (p : Platform) (item : OrderItem) : string + mail_item :=
  match call_toLocaleString p (unit_price item) with
  | inl e => inl e
  | inr unit_text =>
      match call_toLocaleString p (total_price item) with
      | inl e => inl e
      | inr total_text =>
          inr {| mi_addon_name := addon_name item;
                 mi_addon_description := addon_description item;
                 mi_quantity := quantity item;
                 mi_unit_price := unit_text;
                 mi_total_price := total_text |}
      end
  end.

Fixpoint item_blocks_of (p : Platform) (its : list OrderItem)
  : string + list mail_item :=
  match its with
  | [] => inr []
  | item :: rest =>
      match item_block p item with
      | inl e => inl e
      | inr block =>
          match item_blocks_of p rest with
          | inl e => inl e
          | inr blocks => inr (block :: blocks)
          end
      end
  end.

(** [${v > 0 ? `... ${v.toLocaleString()} ...` : ''}]: [undefined]
    converts to NaN and [null] to 0, so neither is greater than 0. *)
Definition amount_line (p : Platform) (v : Js.number) : option string :=
  match v with
  | Js.Number z => if (0 <? z)%Z then Some (toLocaleString p z) else None
  | _ => None
  end.

(** The template of the mail, evaluated in the order of the source: the
    item blocks, then the subtotal, the tax and discount lines, the
    total.  The value is the error thrown, or the content. *)
Definition emailContent (p : Platform) (orderData : OrderData)
           (its : list OrderItem) : string + mail_html :=
  match item_blocks_of p its with
  | inl e => inl e
  | inr blocks =>
      match call_toLocaleString p (subtotal orderData) with
      | inl e => inl e
      | inr subtotal_text =>
          match call_toLocaleString p (total_amount orderData) with
          | inl e => inl e
          | inr total_text =>
              inr {| title_order_number := orderNumber p;
                     header_order_number := orderNumber p;
                     dear := interpolate (customer_name orderData);
                     item_blocks := blocks;
                     subtotal_line := subtotal_text;
                     tax_line := amount_line p (tax_amount orderData);
                     discount_line := amount_line p (discount_amount orderData);
                     total_line := total_text |}
          end
      end
  end.

Definition mail_body (p : Platform) (mailersendApiKey : string)
           (orderData : OrderData) (content : mail_html) : mail_request :=
  {| authorization := "Bearer " ++ mailersendApiKey;
     from_email := "noreply@acadeemia.com";
     from_name := "Acadeemia Store";
     to_email := customer_email orderData;
     to_name := customer_name orderData;
     subject := "Order Confirmation - " ++ orderNumber p;
     html := content |}.

(** [fetch('https://api.mailersend.com/v1/email', ...)]: the value is
    [response.ok]. *)
Definition fetch_mailersend (p : Platform) (r : mail_request) : Eff bool :=
  fun w =>
    match mail_provider p with
    | MailRejected msg => (Thrown msg, w, [MailSend r (MailRejected msg)])
    | MailResponded ok => (Returned ok, w, [MailSend r (MailResponded ok)])
    end.

(** The mail step: [emailSent] after it. *)
Definition send_confirmation (p : Platform) (orderData : OrderData) : Eff bool :=
  match env p !! "MAILERSEND_API_KEY" with
  | Some mailersendApiKey =>
      if Js.truthy (Some mailersendApiKey)
      then try_catch
             (its <- items_array "addon_name" orderData ;;
              content <- evaluate (emailContent p orderData its) ;;
              ok <- fetch_mailersend p
                      (mail_body p mailersendApiKey orderData content) ;;
              ret (if ok then true else false))
             (fun error => console_error "Email sending error:" error ;; ret false)
      else ret false
  | None => ret false
  end.

(** The handler given to [Deno.serve]. *)
Definition serve (p : Platform) (req : Request) : Eff Response :=
  if String.eqb (method req) "OPTIONS"
  then ret {| status := 200; headers := corsHeaders; body := None |}
  else
    try_catch
      (parsed <- req_json req ;;
       orderData <- properties parsed ;;
       if missing_required_fields orderData
       then ret (json_response 400 [("error", Js.JStr "Missing required fields")])
       else
         createClient p (env p !! "SUPABASE_URL")
                        (env p !! "SUPABASE_SERVICE_ROLE_KEY") ;;
         created <- insert_store_order p (order_insert p orderData) ;;
         match created with
         | inr orderError =>
             console_error "Order creation error:" orderError ;;
             ret (json_response 500 [("error", Js.JStr "Failed to create order")])
         | inl order_id =>
             its <- items_array "addon_id" orderData ;;
             let orderItems := map (order_item_insert order_id) its in
             itemsError <- insert_store_order_items orderItems ;;
             match itemsError with
             | Some e =>
                 console_error "Order items creation error:" e ;;
                 delete_store_order order_id ;;
                 ret (json_response 500
                        [("error", Js.JStr "Failed to create order items")])
             | None =>
                 for_each its
                   (fun item =>
                      rpc_increment_download_count (addon_id item) ;; ret tt) ;;
                 emailSent <- send_confirmation p orderData ;;
                 ret (json_response 200
                        [("success", Js.JBool true);
                         ("order_id", Js.JStr order_id);
                         ("order_number", Js.JStr (orderNumber p));
                         ("message", Js.JStr "Order created successfully");
                         ("email_sent", Js.JBool emailSent)])
             end
         end)
      (fun error =>
         console_error "Error processing order:" error ;;
         ret (json_response 500
                [("error", Js.JStr "Internal server error");
                 ("details", Js.JStr error)])).

End Intake.
(** ** The admin dashboard ([StoreManager.tsx]) *)

Module StoreManager.
Import Effects Effects.Notations.

Record Category : Type := {
  category_name : string;
  category_slug : string
}.

(** Decimal columns that the dashboard only shows or copies ([price],
    [rating], the prices of an order item) are counted in hundredths. *)
Module StoreAddon.
Record t : Type := {
  id : string;
  name : string;
  slug : string;
  description : string;
  short_description : string;
  price : Z;
  original_price : option Z;
  currency : string;
  features : list string;
  is_published : bool;
  is_featured : bool;
  is_popular : bool;
  download_count : Z;
  rating : Z;
  review_count : Z;
  category : Category;
  created_at : string
}.

(** [{ ...addon, is_published: b }] *)
Definition with_is_published (b : bool) (addon : t) : t :=
  {| id := id addon; name := name addon; slug := slug addon;
     description := description addon;
     short_description := short_description addon;
     price := price addon; original_price := original_price addon;
     currency := currency addon; features := features addon;
     is_published := b;
     is_featured := is_featured addon; is_popular := is_popular addon;
     download_count := download_count addon; rating := rating addon;
     review_count := review_count addon; category := category addon;
     created_at := created_at addon |}.
End StoreAddon.

Record StoreOrderItem : Type := {
  addon_name : string;
  quantity : Z;
  unit_price : Z;
  total_price : Z
}.

(** [total_amount] is the number the dashboard computes with: the double
    the [decimal(10,2)] column arrives as. *)
Module StoreOrder.
Record t : Type := {
  id : string;
  order_number : string;
  customer_name : string;
  customer_email : string;
  institution_name : string;
  order_status : string;
  payment_status : string;
  total_amount : float;
  currency : string;
  created_at : string;
  items : list StoreOrderItem
}.

(** [{ ...order, order_status: status }] *)
Definition with_order_status (status : string) (order : t) : t :=
  {| id := id order; order_number := order_number order;
     customer_name := customer_name order;
     customer_email := customer_email order;
     institution_name := institution_name order;
     order_status := status;
     payment_status := payment_status order;
     total_amount := total_amount order; currency := currency order;
     created_at := created_at order; items := items order |}.
End StoreOrder.

Record StoreStats : Type := {
  totalAddons : Z;
  publishedAddons : Z;
  totalOrders : Z;
  totalRevenue : float;
  pendingOrders : Z
}.

(** The component state the modelled functions read or set (tab, search
    and modal state are left out). *)
Record State : Type := {
  addons : list StoreAddon.t;
  orders : list StoreOrder.t;
  stats : StoreStats;
  loading : bool
}.

Definition initial_state : State :=
  {| addons := []; orders := [];
     stats := {| totalAddons := 0; publishedAddons := 0; totalOrders := 0;
                 totalRevenue := PrimFloat.zero; pendingOrders := 0 |};
     loading := true |}.

Definition setAddons (l : list StoreAddon.t) (st : State) : State :=
  {| addons := l; orders := orders st; stats := stats st; loading := loading st |}.
Definition setOrders (l : list StoreOrder.t) (st : State) : State :=
  {| addons := addons st; orders := l; stats := stats st; loading := loading st |}.
Definition setStats (s : StoreStats) (st : State) : State :=
  {| addons := addons st; orders := orders st; stats := s; loading := loading st |}.
Definition setLoading (b : bool) (st : State) : State :=
  {| addons := addons st; orders := orders st; stats := stats st; loading := b |}.

(** What a [select] query hands back: [{ data, error }]. *)
Record query_result (A : Type) : Type := {
  data : option A;
  error : option string
}.
Arguments data {A} _.
Arguments error {A} _.

(** [data?.length || 0] *)
Definition length_or_zero {A} (d : option (list A)) : Z :=
  match d with
  | None => 0%Z
  | Some l => Js.or_zero (Z.of_nat (length l))
  end.

(** [ordersData?.reduce((sum, order) => sum + order.total_amount, 0)]:
    double-precision additions, from the left, starting at 0. *)
Definition revenue (orders : list StoreOrder.t) : float :=
  fold_left (fun sum order => PrimFloat.add sum (StoreOrder.total_amount order))
            orders PrimFloat.zero.

(** The five statistics of [fetchStoreData], from the two query results. *)
Definition calculate_stats (addonsData : option (list StoreAddon.t))
           (ordersData : option (list StoreOrder.t)) : StoreStats :=
  {| totalAddons := length_or_zero addonsData;
     publishedAddons :=
       length_or_zero (List.filter StoreAddon.is_published <$> addonsData);
     totalOrders := length_or_zero ordersData;
     totalRevenue :=
       match ordersData with
       | None => PrimFloat.zero
       | Some l => Js.or_zero_double (revenue l)
       end;
     pendingOrders :=
       length_or_zero
         (List.filter
            (fun order => String.eqb (StoreOrder.order_status order) "pending")
            <$> ordersData) |}.

(** [fetchStoreData], given what the two queries answer. *)
Definition fetchStoreData (addonsQuery : query_result (list StoreAddon.t))
           (ordersQuery : query_result (list StoreOrder.t)) (st : State)
  : Eff State :=
  st1 <- try_catch
           (match error addonsQuery with
            | Some addonsError => throw addonsError
            | None =>
                match error ordersQuery with
                | Some ordersError => throw ordersError
                | None =>
                    let addonsData := data addonsQuery in
                    let ordersData := data ordersQuery in
                    ret (setStats (calculate_stats addonsData ordersData)
                           (setOrders (default [] ordersData)
                              (setAddons (default [] addonsData) st)))
                end
            end)
           (fun e => console_error "Error fetching store data:" e ;; ret st) ;;
  ret (setLoading false st1).

Definition delete_store_addon (id : string) : Eff (option string) :=
  statement (Schema.delete_addon id) (DeleteAddon id).

Definition update_addon_is_published (id : string) (b : bool)
  : Eff (option string) :=
  statement (fun d => inr (Schema.update_is_published id b d))
            (UpdateAddonPublished id b).

Definition update_order_status (orderId status : string) : Eff (option string) :=
  statement (Schema.update_order_status orderId status)
            (UpdateOrderStatus orderId status).

(** [handleDeleteAddon]; [confirmed] is the answer to the [confirm] box. *)
Definition handleDeleteAddon (confirmed : bool) (id : string) (st : State)
  : Eff State :=
  if negb confirmed then ret st
  else
    try_catch
      (err <- delete_store_addon id ;;
       match err with
       | Some e => throw e
       | None =>
           ret (setAddons
                  (List.filter
                     (fun addon => negb (String.eqb (StoreAddon.id addon) id))
                     (addons st))
                  st)
       end)
      (fun e => console_error "Error deleting add-on:" e ;; ret st).

Definition handleTogglePublish (id : string) (currentStatus : bool) (st : State)
  : Eff State :=
  try_catch
    (err <- update_addon_is_published id (negb currentStatus) ;;
     match err with
     | Some e => throw e
     | None =>
         ret (setAddons
                (map (fun addon =>
                        if String.eqb (StoreAddon.id addon) id
                        then StoreAddon.with_is_published (negb currentStatus) addon
                        else addon)
                     (addons st))
                st)
     end)
    (fun e => console_error "Error updating add-on status:" e ;; ret st).

Definition handleUpdateOrderStatus (orderId status : string) (st : State)
  : Eff State :=
  try_catch
    (err <- update_order_status orderId status ;;
     match err with
     | Some e => throw e
     | None =>
         ret (setOrders
                (map (fun order =>
                        if String.eqb (StoreOrder.id order) orderId
                        then StoreOrder.with_order_status status order
                        else order)
                     (orders st))
                st)
     end)
    (fun e => console_error "Error updating order status:" e ;; ret st).

(** The publish button of an add-on card:
    [onClick={() => handleTogglePublish(addon.id, addon.is_published)}]. *)
Definition publish_button (addon : StoreAddon.t) (st : State) : Eff State :=
  handleTogglePublish (StoreAddon.id addon) (StoreAddon.is_published addon) st.

(** The options of the status dropdown of an order row. *)
Definition status_options : list string :=
  ["pending"; "processing"; "completed"; "cancelled"].


End StoreManager.

(** ** Statements of the specification, as definitions *)

Module Spec.

Definition is_upper_alnum (c : ascii) : bool := Js.is_digit c || Js.is_upper c.

Fixpoint skip_digits (s : string) : string :=
  match s with
  | EmptyString => EmptyString
  | String c r => if Js.is_digit c then skip_digits r else s
  end.

(** The pattern [ORD-<digits>-<5 uppercase alphanumerics>]: the prefix, one
    or more decimal digits, a hyphen, and exactly five characters of
    [A-Z0-9], then the end. *)
Definition order_number_pattern (s : string) : bool :=
  match s with
  | String "O" (String "R" (String "D" (String "-" rest))) =>
      match rest with
      | EmptyString => false
      | String c _ =>
          Js.is_digit c
          && match skip_digits rest with
             | String "-" suffix =>
                 Nat.eqb (String.length suffix) 5
                 && Js.forallb_string is_upper_alnum suffix
             | _ => false
             end
      end
  | _ => false
  end.

(** A field of a response body. *)
Fixpoint lookup_field (k : string) (fields : list (string * Js.json))
  : option Js.json :=
  match fields with
  | [] => None
  | (k', v) :: rest => if String.eqb k' k then Some v else lookup_field k rest
  end.

Definition field (k : string) (r : Intake.Response) : option Js.json :=
  match Intake.body r with
  | Some fields => lookup_field k fields
  | None => None
  end.

(** The names of the fields of a response body, in order. *)
Definition field_names (r : Intake.Response) : list string :=
  match Intake.body r with
  | Some fields => map fst fields
  | None => []
  end.

(** The rational number a finite double stands for. *)
Definition exact (x : float) : option Q :=
  match Prim2SF x with
  | S754_zero _ => Some 0%Q
  | S754_finite negative m e =>
      Some ((if negative then -1 else 1) * inject_Z (Z.pos m) * Qpower 2 e)%Q
  | _ => None
  end.

(** The sum of a list of finite doubles in exact arithmetic. *)
Fixpoint exact_sum (l : list float) : option Q :=
  match l with
  | [] => Some 0%Q
  | x :: rest =>
      match exact x, exact_sum rest with
      | Some q, Some r => Some (q + r)%Q
      | _, _ => None
      end
  end.

(** The revenue figure of the statistics is the sum of [total_amount] over
    the orders. *)
Definition revenue_is_the_sum (orders : list StoreManager.StoreOrder.t)
           (stats : StoreManager.StoreStats) : Prop :=
  exists q s,
    exact (StoreManager.totalRevenue stats) = Some q
    /\ exact_sum (map StoreManager.StoreOrder.total_amount orders) = Some s
    /\ Qeq q s.

(** Number of elements satisfying a test. *)
Fixpoint count {A} (f : A -> bool) (l : list A) : nat :=
  match l with
  | [] => 0
  | x :: rest => if f x then S (count f rest) else count f rest
  end.

(** The mail key counts as configured when the variable is set to a
    non-empty value. *)
Definition mail_key_configured (p : Intake.Platform) : bool :=
  Js.truthy (Intake.env p !! "MAILERSEND_API_KEY").

End Spec.


(** ** Runs of the intake handler, path by path *)

Module Runs.
Import Effects Intake.

Definition mail_key : string := "MAILERSEND_API_KEY".

(** The content of the confirmation mail as the mail step evaluates it:
    the items are read again, then the template is filled in.  The value
    is the error thrown on the way, or the content. *)
Definition confirmation_content (p : Platform) (d : OrderData)
  : string + mail_html :=
  match items_objects "addon_name" d with
  | inl e => inl e
  | inr its => emailContent p d its
  end.


(** The mail step: the value of [emailSent] and the events it leaves. *)
Inductive mail_step (p : Platform) (d : OrderData) : bool -> list event -> Prop :=
| mail_not_configured :
    Spec.mail_key_configured p = false ->
    mail_step p d false []
| mail_not_built key msg :
    env p !! mail_key = Some key -> Spec.mail_key_configured p = true ->
    confirmation_content p d = inl msg ->
    mail_step p d false [ConsoleError "Email sending error:" msg]
| mail_rejected key content msg :
    env p !! mail_key = Some key -> Spec.mail_key_configured p = true ->
    confirmation_content p d = inr content ->
    mail_provider p = MailRejected msg ->
    mail_step p d false
      [MailSend (mail_body p key d content) (MailRejected msg);
       ConsoleError "Email sending error:" msg]
| mail_responded key content ok :
    env p !! mail_key = Some key -> Spec.mail_key_configured p = true ->
    confirmation_content p d = inr content ->
    mail_provider p = MailResponded ok ->
    mail_step p d ok [MailSend (mail_body p key d content) (MailResponded ok)].

Definition preflight_response : Response :=
  {| status := 200; headers := corsHeaders; body := None |}.

Definition error_response (code : nat) (msg : string) : Response :=
  json_response code [("error", Js.JStr msg)].

Definition internal_error_response (msg : string) : Response :=
  json_response 500
    [("error", Js.JStr "Internal server error"); ("details", Js.JStr msg)].

Definition success_response (p : Platform) (order_id : string) (sent : bool)
  : Response :=
  json_response 200
    [("success", Js.JBool true);
     ("order_id", Js.JStr order_id);
     ("order_number", Js.JStr (orderNumber p));
     ("message", Js.JStr "Order created successfully");
     ("email_sent", Js.JBool sent)].

(** The error thrown by the first property read of a [null] body. *)
Definition null_body_error : string :=
  "TypeError: Cannot read properties of null (reading 'customer_name')".

Definition rpc_loop (its : list OrderItem) : Eff unit :=
  for_each its
    (fun item => bind (rpc_increment_download_count (addon_id item))
                      (fun _ => ret tt)).

Definition is_rpc (e : event) : Prop :=
  match e with
  | RpcIncrementDownloadCount _ _ => True
  | _ => False
  end.

(** What follows the two inserts on the successful path: counter calls,
    the mail request, the console output of the mail step. *)
Definition after_inserts (e : event) : Prop :=
  match e with
  | RpcIncrementDownloadCount _ _ | MailSend _ _ => True
  | ConsoleError label _ => label = "Email sending error:"
  | _ => False
  end.

(** The paths through [serve]. *)
Inductive served (p : Platform) (req : Request) (w : World)
  : outcome Response -> World -> list event -> Prop :=
| served_preflight :
    method req = "OPTIONS" ->
    served p req w (Returned preflight_response) w []
| served_not_json :
    method req <> "OPTIONS" ->
    json_body req = None ->
    served p req w
      (Returned (internal_error_response "SyntaxError: Unexpected token in JSON"))
      w
      [ConsoleError "Error processing order:"
                    "SyntaxError: Unexpected token in JSON"]
| served_null_body :
    method req <> "OPTIONS" ->
    json_body req = Some JsonNull ->
    served p req w (Returned (internal_error_response null_body_error)) w
      [ConsoleError "Error processing order:" null_body_error]
| served_missing d :
    method req <> "OPTIONS" ->
    json_body req = Some (JsonDocument d) ->
    missing_required_fields d = true ->
    served p req w (Returned (error_response 400 "Missing required fields")) w []
| served_no_client d msg :
    method req <> "OPTIONS" ->
    json_body req = Some (JsonDocument d) ->
    missing_required_fields d = false ->
    createClient_error p (env p !! "SUPABASE_URL")
                       (env p !! "SUPABASE_SERVICE_ROLE_KEY") = Some msg ->
    served p req w (Returned (internal_error_response msg)) w
      [ConsoleError "Error processing order:" msg]
| served_order_failed d e w1 :
    method req <> "OPTIONS" ->
    json_body req = Some (JsonDocument d) ->
    missing_required_fields d = false ->
    insert_store_order p (order_insert p d) w
    = (Returned (inr e), w1, [InsertOrder (order_insert p d) (inr e)]) ->
    served p req w (Returned (error_response 500 "Failed to create order")) w1
      [InsertOrder (order_insert p d) (inr e);
       ConsoleError "Order creation error:" e]
| served_items_unreadable d id w1 msg :
    method req <> "OPTIONS" ->
    json_body req = Some (JsonDocument d) ->
    missing_required_fields d = false ->
    insert_store_order p (order_insert p d) w
    = (Returned (inl id), w1, [InsertOrder (order_insert p d) (inl id)]) ->
    items_objects "addon_id" d = inl msg ->
    served p req w (Returned (internal_error_response msg)) w1
      [InsertOrder (order_insert p d) (inl id);
       ConsoleError "Error processing order:" msg]
| served_items_failed d id its w1 e w2 err w3 :
    method req <> "OPTIONS" ->
    json_body req = Some (JsonDocument d) ->
    missing_required_fields d = false ->
    items d = Some (ItemsArray (Some <$> its)) ->
    insert_store_order p (order_insert p d) w
    = (Returned (inl id), w1, [InsertOrder (order_insert p d) (inl id)]) ->
    insert_store_order_items (map (order_item_insert id) its) w1
    = (Returned (Some e), w2,
       [InsertOrderItems (map (order_item_insert id) its) (Some e)]) ->
    delete_store_order id w2 = (Returned err, w3, [DeleteOrder id err]) ->
    served p req w
      (Returned (error_response 500 "Failed to create order items")) w3
      [InsertOrder (order_insert p d) (inl id);
       InsertOrderItems (map (order_item_insert id) its) (Some e);
       ConsoleError "Order items creation error:" e;
       DeleteOrder id err]
| served_created d id its w1 w2 w3 rpcs sent mails :
    method req <> "OPTIONS" ->
    json_body req = Some (JsonDocument d) ->
    missing_required_fields d = false ->
    items d = Some (ItemsArray (Some <$> its)) ->
    insert_store_order p (order_insert p d) w
    = (Returned (inl id), w1, [InsertOrder (order_insert p d) (inl id)]) ->
    insert_store_order_items (map (order_item_insert id) its) w1
    = (Returned None, w2,
       [InsertOrderItems (map (order_item_insert id) its) None]) ->
    rpc_loop its w2 = (Returned tt, w3, rpcs) ->
    mail_step p d sent mails ->
    served p req w (Returned (success_response p id sent)) w3
      (InsertOrder (order_insert p d) (inl id)
       :: InsertOrderItems (map (order_item_insert id) its) None
       :: rpcs ++ mails).

(** The order and its items were stored: both inserts came back without
    an error. *)
Definition stored (tr : list event) : Prop :=
  exists row id rows,
    In (InsertOrder row (inl id)) tr /\ In (InsertOrderItems rows None) tr.

(** Validation failure: the body of a submission parsed to a document that
    the check of the required fields turns down. *)
Definition validation_failure (req : Request) : Prop :=
  method req <> "OPTIONS"
  /\ exists d, json_body req = Some (JsonDocument d)
               /\ missing_required_fields d = true.

(** Server failure: an exception reached the outer [catch], or one of the
    two inserts came back with an error. *)
Definition server_failure (tr : list event) : Prop :=
  (exists message, In (ConsoleError "Error processing order:" message) tr)
  \/ (exists row e, In (InsertOrder row (inr e)) tr)
  \/ (exists rows e, In (InsertOrderItems rows (Some e)) tr).

(** No database call was made. *)
Definition no_database_call (tr : list event) : Prop :=
  forall ev, In ev tr -> exists label detail, ev = ConsoleError label detail.

(** The first testable property on item failure, as the specification
    words it, at one run: the order row is gone and the answer is a 500
    with an error body. *)
Definition order_row_gone_after_item_failure
           (p : Platform) (req : Request) (w : World) : Prop :=
  forall out w' tr row id rows e,
    serve p req w = (out, w', tr) ->
    In (InsertOrder row (inl id)) tr ->
    In (InsertOrderItems rows (Some e)) tr ->
    Schema.store_orders (db w') !! id = None
    /\ exists resp, out = Returned resp /\ status resp = 500
                    /\ is_Some (Spec.field "error" resp).

(** A payload in which [customer_name], [customer_email] or [items] is
    missing, or whose [items] list is empty.  The payload [null] has none
    of the three. *)
Definition lacks_required_field (v : json_value) : Prop :=
  match v with
  | JsonNull => True
  | JsonDocument d =>
      customer_name d = None \/ customer_email d = None
      \/ items d = None \/ items d = Some (ItemsArray [])
  end.

(** The rejection of incomplete payloads, as the specification words it,
    at one run: status 400, an error body and no database call. *)
Definition incomplete_payload_answered_400
           (p : Platform) (req : Request) (w : World) : Prop :=
  forall v out w' tr,
    method req <> "OPTIONS" ->
    json_body req = Some v ->
    lacks_required_field v ->
    serve p req w = (out, w', tr) ->
    (exists resp, out = Returned resp /\ status resp = 400
                  /\ is_Some (Spec.field "error" resp))
    /\ no_database_call tr.


End Runs.

(** ** Concrete inputs *)

Module Sample.
Import Effects.

Definition item : Intake.OrderItem :=
  {| Intake.addon_id := Some "a1";
     Intake.addon_name := Some "QR Attendance";
     Intake.addon_description := Some "Attendance by QR code";
     Intake.quantity := Js.Number 1;
     Intake.unit_price := Js.Number 150000;
     Intake.total_price := Js.Number 150000 |}.

(** An item naming an add-on that is not in the store. *)
Definition unknown_item : Intake.OrderItem :=
  {| Intake.addon_id := Some "a9";
     Intake.addon_name := Some "Unknown";
     Intake.addon_description := Some "not in the store";
     Intake.quantity := Js.Number 1;
     Intake.unit_price := Js.Number 1;
     Intake.total_price := Js.Number 1 |}.

(** A valid order of one item; the document also carries an
    [order_status] of its own. *)
Definition order : Intake.OrderData :=
  {| Intake.customer_name := Some "Ann";
     Intake.customer_email := Some "ann@school.example";
     Intake.customer_phone := None;
     Intake.institution_name := Some "Hill School";
     Intake.billing_address := None;
     Intake.payment_method := Some "mpesa";
     Intake.items := Some (Intake.ItemsArray [Some item]);
     Intake.subtotal := Js.Number 150000;
     Intake.tax_amount := Js.Number 0;
     Intake.discount_amount := Js.Number 0;
     Intake.total_amount := Js.Number 150000;
     Intake.other_properties :=
       [("order_status", Js.JStr "completed");
        ("payment_status", Js.JStr "paid")] |}.

(** The same document with another value of [items]. *)
Definition order_with_items (v : option Intake.items_value) : Intake.OrderData :=
  {| Intake.customer_name := Some "Ann";
     Intake.customer_email := Some "ann@school.example";
     Intake.customer_phone := None;
     Intake.institution_name := Some "Hill School";
     Intake.billing_address := None;
     Intake.payment_method := Some "mpesa";
     Intake.items := v;
     Intake.subtotal := Js.Number 150000;
     Intake.tax_amount := Js.Number 0;
     Intake.discount_amount := Js.Number 0;
     Intake.total_amount := Js.Number 150000;
     Intake.other_properties := [] |}.

Definition order_without_items : Intake.OrderData :=
  order_with_items (Some (Intake.ItemsArray [])).

(** An order for an unknown add-on. *)
Definition order_of_unknown_addon : Intake.OrderData :=
  order_with_items (Some (Intake.ItemsArray [Some unknown_item])).

(** An order whose [items] array holds an unknown add-on and [null]. *)
Definition order_with_null_item : Intake.OrderData :=
  order_with_items (Some (Intake.ItemsArray [Some unknown_item; None])).


Definition post (d : Intake.OrderData) : Intake.Request :=
  {| Intake.method := "POST";
     Intake.json_body := Some (Intake.JsonDocument d) |}.

(** A submission whose body is the JSON text [null]. *)
Definition post_null : Intake.Request :=
  {| Intake.method := "POST"; Intake.json_body := Some Intake.JsonNull |}.

Definition environment : gmap string string :=
  {[ "SUPABASE_URL" := "https://project.supabase.co";
     "SUPABASE_SERVICE_ROLE_KEY" := "service-key";
     "MAILERSEND_API_KEY" := "mail-key" ]}.

(** A platform whose random number has the fraction digits [digits] and
    whose mail provider does [mail]. *)
Definition platform (digits : string) (mail : mail_outcome) : Intake.Platform :=
  {| Intake.env := environment;
     Intake.now := 1752053958123%N;
     Intake.random_fraction_digits := digits;
     Intake.gen_random_uuid := "order-1";
     Intake.createClient_error := fun _ _ => None;
     Intake.mail_provider := mail;
     Intake.toLocaleString := fun z => Js.number_toString (Z.to_N z) |}.

Definition tables : Schema.Database :=
  {| Schema.store_addons :=
       {[ "a1" := {| Schema.name := "QR Attendance";
                     Schema.slug := "qr-attendance";
                     Schema.price := 150000%Z;
                     Schema.is_published := true;
                     Schema.download_count := 0%Z |} ]};
     Schema.store_orders := ∅;
     Schema.store_order_items := [] |}.

(** The backend answers every call without an error. *)
Definition healthy : World := {| db := tables; script := [] |}.

(** The order insert goes through, the items insert is refused, and so is
    the delete that follows. *)
Definition items_and_delete_refused : World :=
  {| db := tables;
     script := [None; Some "connection lost"; Some "connection lost"] |}.

(** The order insert goes through, the items insert is refused, the
    delete goes through. *)
Definition items_refused : World :=
  {| db := tables; script := [None; Some "connection lost"] |}.

End Sample.

Module DashboardSample.
Import Effects StoreManager.

Definition addon : StoreAddon.t :=
  {| StoreAddon.id := "a1";
     StoreAddon.name := "QR Attendance";
     StoreAddon.slug := "qr-attendance";
     StoreAddon.description := "Attendance by QR code";
     StoreAddon.short_description := "QR attendance";
     StoreAddon.price := 150000;
     StoreAddon.original_price := None;
     StoreAddon.currency := "KES";
     StoreAddon.features := ["scan"; "report"];
     StoreAddon.is_published := true;
     StoreAddon.is_featured := false;
     StoreAddon.is_popular := false;
     StoreAddon.download_count := 0;
     StoreAddon.rating := 450;
     StoreAddon.review_count := 2;
     StoreAddon.category :=
       {| category_name := "SaaS Add-ons"; category_slug := "saas-addons" |};
     StoreAddon.created_at := "2025-07-09T13:09:18Z" |}.

Definition order : StoreOrder.t :=
  {| StoreOrder.id := "order-1";
     StoreOrder.order_number := "ORD-1752053958123-4FZYO";
     StoreOrder.customer_name := "Ann";
     StoreOrder.customer_email := "ann@school.example";
     StoreOrder.institution_name := "Hill School";
     StoreOrder.order_status := "completed";
     StoreOrder.payment_status := "paid";
     StoreOrder.total_amount := Js.decimal 150000;
     StoreOrder.currency := "KES";
     StoreOrder.created_at := "2025-07-09T13:39:18Z";
     StoreOrder.items :=
       [{| addon_name := "QR Attendance"; quantity := 1;
           unit_price := 150000; total_price := 150000 |}] |}.

(** An order of the given id whose [total_amount] column holds the given
    number of hundredths. *)
Definition order_of_amount (id : string) (hundredths : Z) : StoreOrder.t :=
  {| StoreOrder.id := id;
     StoreOrder.order_number := "ORD-1752053958123-4FZYO";
     StoreOrder.customer_name := "Ann";
     StoreOrder.customer_email := "ann@school.example";
     StoreOrder.institution_name := "Hill School";
     StoreOrder.order_status := "pending";
     StoreOrder.payment_status := "pending";
     StoreOrder.total_amount := Js.decimal hundredths;
     StoreOrder.currency := "KES";
     StoreOrder.created_at := "2025-07-09T13:39:18Z";
     StoreOrder.items := [] |}.

(** Two orders, of 0.10 and of 0.20. *)
Definition small_orders : list StoreOrder.t :=
  [order_of_amount "order-2" 10; order_of_amount "order-3" 20].

Definition state : State :=
  {| addons := [addon]; orders := [order];
     stats := {| totalAddons := 1; publishedAddons := 1; totalOrders := 1;
                 totalRevenue := Js.decimal 150000; pendingOrders := 0 |};
     loading := false |}.

Definition order_row : Schema.order_row :=
  {| Schema.order_number := "ORD-1752053958123-4FZYO";
     Schema.customer_email := Some "ann@school.example";
     Schema.customer_name := Some "Ann";
     Schema.customer_phone := None;
     Schema.institution_name := Some "Hill School";
     Schema.billing_address := None;
     Schema.order_status := "completed";
     Schema.payment_status := "paid";
     Schema.payment_method := Some "mpesa";
     Schema.subtotal := Some 150000%Z;
     Schema.tax_amount := Some 0%Z;
     Schema.discount_amount := Some 0%Z;
     Schema.total_amount := Some 150000%Z;
     Schema.currency := "KES" |}.

Definition tables : Schema.Database :=
  {| Schema.store_addons := Schema.store_addons Sample.tables;
     Schema.store_orders := {[ "order-1" := order_row ]};
     Schema.store_order_items := [] |}.

Definition healthy : World := {| db := tables; script := [] |}.

Definition refusing : World :=
  {| db := tables; script := [Some "permission denied"] |}.

End DashboardSample.
(** ** The rest of the dashboard: views and the add-on form *)

Module JsText.

(** [toLowerCase] on the ASCII range. *)
Definition lower_ascii (c : ascii) : ascii :=
  if Js.is_upper c then ascii_of_nat (nat_of_ascii c + 32) else c.

Fixpoint toLowerCase (s : string) : string :=
  match s with
  | EmptyString => EmptyString
  | String c r => String (lower_ascii c) (toLowerCase r)
  end.

(** [s.startsWith(p)] *)
Fixpoint startsWith (s p : string) : bool :=
  match p, s with
  | EmptyString, _ => true
  | String _ _, EmptyString => false
  | String a p', String b s' => Ascii.eqb a b && startsWith s' p'
  end.

(** [s.includes(sub)]: [sub] starts at some position of [s]. *)
Fixpoint includes (s sub : string) : bool :=
  startsWith s sub
  || match s with
     | EmptyString => false
     | String _ r => includes r sub
     end.

(** White space and line terminators of the ASCII range: tab, line feed,
    vertical tab, form feed, carriage return, space. *)
Definition is_space (c : ascii) : bool :=
  let n := nat_of_ascii c in
  ((9 <=? n)%nat && (n <=? 13)%nat) || (n =? 32)%nat.

Fixpoint trimStart (s : string) : string :=
  match s with
  | EmptyString => EmptyString
  | String c r => if is_space c then trimStart r else s
  end.

Fixpoint trimEnd (s : string) : string :=
  match s with
  | EmptyString => EmptyString
  | String c r =>
      match trimEnd r with
      | EmptyString => if is_space c then EmptyString else String c EmptyString
      | t => String c t
      end
  end.

(** [s.trim()] *)
Definition trim (s : string) : string := trimEnd (trimStart s).

(** Truthiness of a string. *)
Definition nonempty (s : string) : bool := negb (String.eqb s "").

(** Text of the ASCII range, on which the case mappings and [trim] above
    are those of the runtime. *)
Definition ascii_text (s : string) : bool :=
  Js.forallb_string (fun c => (nat_of_ascii c <? 128)%nat) s.

End JsText.

Module StoreViews.
Import StoreManager.

(** The state of the status filter: ['all' | 'published' | 'draft']. *)
Inductive FilterStatus : Type := FilterAll | FilterPublished | FilterDraft.

Definition matchesSearch (searchTerm : string) (addon : StoreAddon.t) : bool :=
  JsText.includes (JsText.toLowerCase (StoreAddon.name addon))
                  (JsText.toLowerCase searchTerm)
  || JsText.includes (JsText.toLowerCase (StoreAddon.description addon))
                     (JsText.toLowerCase searchTerm).

Definition matchesFilter (filterStatus : FilterStatus) (addon : StoreAddon.t)
  : bool :=
  match filterStatus with
  | FilterAll => true
  | FilterPublished => StoreAddon.is_published addon
  | FilterDraft => negb (StoreAddon.is_published addon)
  end.

(** [filteredAddons]: the add-ons shown on the add-ons tab. *)
Definition filteredAddons (searchTerm : string) (filterStatus : FilterStatus)
           (addons : list StoreAddon.t) : list StoreAddon.t :=
  List.filter
    (fun addon => matchesSearch searchTerm addon && matchesFilter filterStatus addon)
    addons.

Definition getStatusColor (status : string) : string :=
  if String.eqb status "completed" then "text-green-600 bg-green-100"
  else if String.eqb status "processing" then "text-blue-600 bg-blue-100"
  else if String.eqb status "pending" then "text-yellow-600 bg-yellow-100"
  else if String.eqb status "cancelled" then "text-red-600 bg-red-100"
  else "text-gray-600 bg-gray-100".

(** [orders.slice(0, 5)]: the recent orders of the overview tab. *)
Definition recentOrders (orders : list StoreOrder.t) : list StoreOrder.t :=
  firstn 5 orders.

(** [(a, b) => b.download_count - a.download_count] *)
Definition by_downloads (a b : StoreAddon.t) : Z :=
  (StoreAddon.download_count b - StoreAddon.download_count a)%Z.

(** [Array.prototype.sort] with a comparator: a stable sort; [a] stays
    before [b] unless the comparator is positive on them. *)
Fixpoint sort_insert {A} (cmp : A -> A -> Z) (x : A) (l : list A) : list A :=
  match l with
  | [] => [x]
  | y :: rest =>
      if (cmp x y <=? 0)%Z then x :: l else y :: sort_insert cmp x rest
  end.

Fixpoint sort {A} (cmp : A -> A -> Z) (l : list A) : list A :=
  match l with
  | [] => []
  | x :: rest => sort_insert cmp x (sort cmp rest)
  end.

(** The analytics tab: [addons.sort(...).slice(0, 5)].  [sort] works in
    place, so the array held by the state is the sorted one afterwards. *)
Definition topSelling (st : State) : list StoreAddon.t * State :=
  let sorted := sort by_downloads (addons st) in
  (firstn 5 sorted, setAddons sorted st).

End StoreViews.

Module AddonModal.
Import StoreManager.

Record FormData : Type := {
  name : string;
  slug : string;
  description : string;
  short_description : string;
  price : Z;
  features : list string;
  is_published : bool;
  is_featured : bool;
  is_popular : bool
}.

Record ModalState : Type := {
  formData : FormData;
  newFeature : string
}.

(** [s || ''] *)
Definition or_empty (s : string) : string :=
  if JsText.nonempty s then s else "".

(** The initial form: the fields of the add-on being edited, or blanks. *)
Definition initial_formData (addon : option StoreAddon.t) : FormData :=
  match addon with
  | Some a =>
      {| name := or_empty (StoreAddon.name a);
         slug := or_empty (StoreAddon.slug a);
         description := or_empty (StoreAddon.description a);
         short_description := or_empty (StoreAddon.short_description a);
         price := Js.or_zero (StoreAddon.price a);
         features := StoreAddon.features a;
         is_published := StoreAddon.is_published a || false;
         is_featured := StoreAddon.is_featured a || false;
         is_popular := StoreAddon.is_popular a || false |}
  | None =>
      {| name := ""; slug := ""; description := ""; short_description := "";
         price := 0; features := [];
         is_published := false; is_featured := false; is_popular := false |}
  end.

Definition initial_state (addon : option StoreAddon.t) : ModalState :=
  {| formData := initial_formData addon; newFeature := "" |}.

(** [{ ...formData, features: l }] *)
Definition with_features (l : list string) (f : FormData) : FormData :=
  {| name := name f; slug := slug f; description := description f;
     short_description := short_description f; price := price f;
     features := l;
     is_published := is_published f; is_featured := is_featured f;
     is_popular := is_popular f |}.

Definition addFeature (m : ModalState) : ModalState :=
  if JsText.nonempty (JsText.trim (newFeature m))
  then {| formData :=
            with_features
              (features (formData m) ++ [JsText.trim (newFeature m)])
              (formData m);
          newFeature := "" |}
  else m.

(** [features.filter((_, i) => i !== index)] *)
Fixpoint filter_index {A} (index : nat) (i : nat) (l : list A) : list A :=
  match l with
  | [] => []
  | x :: rest =>
      if Nat.eqb i index then filter_index index (S i) rest
      else x :: filter_index index (S i) rest
  end.

Definition removeFeature (index : nat) (m : ModalState) : ModalState :=
  {| formData :=
       with_features (filter_index index 0 (features (formData m))) (formData m);
     newFeature := newFeature m |}.

End AddonModal.

(** ** Invariants of the tables and auxiliary notions *)

Module Invariants.
Import Effects Intake StoreManager.

(** Every item references an existing order, and an existing add-on when
    it names one. *)
Definition references_ok (d : Schema.Database) : Prop :=
  forall it,
    In it (Schema.store_order_items d) ->
    is_Some (Schema.store_orders d !! Schema.order_id it)
    /\ forall a, Schema.addon_id it = Some a ->
                 is_Some (Schema.store_addons d !! a).

(** No two order rows share an order number. *)
Definition order_numbers_unique (d : Schema.Database) : Prop :=
  forall i j r1 r2,
    Schema.store_orders d !! i = Some r1 ->
    Schema.store_orders d !! j = Some r2 ->
    Schema.order_number r1 = Schema.order_number r2 ->
    i = j.

(** The add-on ids the counter procedure was called with, in order. *)
Fixpoint rpc_calls (tr : list event) : list (option string) :=
  match tr with
  | [] => []
  | RpcIncrementDownloadCount addon _ :: rest => addon :: rpc_calls rest
  | _ :: rest => rpc_calls rest
  end.

(** The tables after a run, path by path. *)
Inductive tables_after (p : Platform) (req : Request) (before after : Schema.Database)
  : Prop :=
| tables_untouched : after = before -> tables_after p req before after
| tables_order_left d id d1 :
    json_body req = Some (JsonDocument d) ->
    Schema.insert_order id (order_insert p d) before = inr d1 ->
    after = d1 ->
    tables_after p req before after
| tables_order_deleted d id d1 :
    json_body req = Some (JsonDocument d) ->
    Schema.insert_order id (order_insert p d) before = inr d1 ->
    after = Schema.delete_order id d1 ->
    tables_after p req before after
| tables_order_created d id its d1 d2 :
    json_body req = Some (JsonDocument d) ->
    items d = Some (ItemsArray (Some <$> its)) ->
    Schema.insert_order id (order_insert p d) before = inr d1 ->
    Schema.insert_order_items (map (order_item_insert id) its) d1 = inr d2 ->
    Schema.store_orders after = Schema.store_orders d2 ->
    Schema.store_order_items after = Schema.store_order_items d2 ->
    (forall k, is_Some (Schema.store_addons after !! k)
               <-> is_Some (Schema.store_addons d2 !! k)) ->
    tables_after p req before after.

(** The add-ons of a list other than those with a given id. *)
Definition without_id (id : string) (l : list StoreAddon.t) : list StoreAddon.t :=
  List.filter (fun addon => negb (String.eqb (StoreAddon.id addon) id)) l.

(** Descending by downloads. *)
Definition more_downloads (a b : StoreAddon.t) : Prop :=
  (StoreAddon.download_count b <= StoreAddon.download_count a)%Z.

End Invariants.

(** ** Properties of the JavaScript fragments *)

Example substr_short : Js.substr 2 5 "0.i" = "i".
Proof. reflexivity. Qed.

Example substr_long : Js.substr 2 5 "0.4fzyo82mvyr" = "4fzyo".
Proof. reflexivity. Qed.

Example number_toString_ex : Js.number_toString 1752053958123 = "1752053958123".
Proof. reflexivity. Qed.

Example toUpperCase_ex : Js.toUpperCase "4fzyo" = "4FZYO".
Proof. reflexivity. Qed.

Example pattern_accepts : Spec.order_number_pattern "ORD-1752053958123-4FZYO" = true.
Proof. reflexivity. Qed.

Example pattern_rejects_short : Spec.order_number_pattern "ORD-1752053958123-I" = false.
Proof. reflexivity. Qed.

Example pattern_rejects_lower : Spec.order_number_pattern "ORD-1752053958123-4fzyo" = false.
Proof. reflexivity. Qed.

Section StringFacts.
Import Js.

Lemma forallb_string_app f s t :
  forallb_string f (s ++ t) = forallb_string f s && forallb_string f t.
Proof.
  induction s as [|c s IH]; simpl; [reflexivity|].
  rewrite IH. apply andb_assoc.
Qed.

Lemma uint_digits (u : Decimal.uint) :
  forallb_string is_digit (NilEmpty.string_of_uint u) = true.
Proof. induction u; simpl; auto. Qed.

Lemma number_toString_digits (n : N) :
  forallb_string is_digit (number_toString n) = true.
Proof.
  unfold number_toString, NilZero.string_of_uint.
  destruct (N.to_uint n) eqn:E; try reflexivity;
    rewrite <- E; apply uint_digits.
Qed.

Lemma number_toString_nonempty (n : N) :
  exists c r, number_toString n = String c r.
Proof.
  unfold number_toString, NilZero.string_of_uint.
  destruct (N.to_uint n); simpl; eauto.
Qed.

Lemma skip_digits_stops ds rest :
  forallb_string is_digit ds = true ->
  Spec.skip_digits (ds ++ String "-" rest) = String "-" rest.
Proof.
  induction ds as [|c ds IH]; simpl; [reflexivity|].
  intros [Hc Hds]%andb_true_iff. rewrite Hc. auto.
Qed.

Lemma upper_of_base36 c :
  is_base36 c = true -> Spec.is_upper_alnum (upper_ascii c) = true.
Proof.
  destruct c as [[] [] [] [] [] [] [] []]; vm_compute; congruence.
Qed.

Lemma toUpperCase_length s : String.length (toUpperCase s) = String.length s.
Proof. induction s; simpl; congruence. Qed.

Lemma toUpperCase_base36 s :
  forallb_string is_base36 s = true ->
  forallb_string Spec.is_upper_alnum (toUpperCase s) = true.
Proof.
  induction s as [|c s IH]; simpl; [reflexivity|].
  intros [Hc Hs]%andb_true_iff.
  rewrite upper_of_base36 by exact Hc. auto.
Qed.

Lemma substring_0_length n s :
  String.length (String.substring 0 n s) = Nat.min n (String.length s).
Proof.
  revert s; induction n as [|n IH]; intros [|c s]; simpl; auto.
Qed.

Lemma substring_0_forallb f n s :
  forallb_string f s = true ->
  forallb_string f (String.substring 0 n s) = true.
Proof.
  revert s; induction n as [|n IH]; intros [|c s]; simpl; auto.
  intros [Hc Hs]%andb_true_iff. rewrite Hc. simpl. auto.
Qed.

(** The suffix of an order number: the first five fraction digits, fewer
    when the fraction has fewer. *)
Lemma suffix_of_fraction ds :
  substr 2 5 (random_toString36 ds) = String.substring 0 5 ds.
Proof. destruct ds; reflexivity. Qed.

End StringFacts.

(** ** Properties of the effects and of the tables *)

Section EffectFacts.
Import Effects.

Lemma next_answer_db w : db (next_answer w).2 = db w.
Proof. unfold next_answer. destruct (script w); reflexivity. Qed.

(** A statement returns; it never throws.  Without an error the tables
    are those the statement computes, with one they are untouched. *)
Lemma statement_shape run log w :
  exists err w',
    statement run log w = (Returned err, w', [log err])
    /\ match err with
       | None => run (db w) = inr (db w')
       | Some _ => db w' = db w
       end.
Proof.
  unfold statement. pose proof (next_answer_db w) as Hdb.
  destruct (next_answer w) as [[msg|] w1]; simpl in Hdb.
  - eexists _, _. split; [reflexivity|]. exact Hdb.
  - destruct (run (db w1)) as [msg|db'] eqn:E.
    + eexists _, _. split; [reflexivity|]. exact Hdb.
    + eexists _, _. split; [reflexivity|]. simpl. congruence.
Qed.
End EffectFacts.

Section SchemaFacts.
Import Schema.

Lemma insert_order_inv id row d d' :
  insert_order id row d = inr d' ->
  store_orders d !! id = None
  /\ store_orders d' = <[id := row]> (store_orders d)
  /\ store_addons d' = store_addons d
  /\ store_order_items d' = store_order_items d.
Proof.
  unfold insert_order. repeat case_match; try discriminate.
  intros [= <-]. auto.
Qed.

Lemma insert_order_items_inv rows d d' :
  insert_order_items rows d = inr d' ->
  store_orders d' = store_orders d
  /\ store_addons d' = store_addons d
  /\ store_order_items d' = store_order_items d ++ rows.
Proof.
  unfold insert_order_items. repeat case_match; try discriminate.
  intros [= <-]. auto.
Qed.


(** An accepted order has a value in every [NOT NULL] column. *)
Lemma insert_order_not_null id row d d' :
  insert_order id row d = inr d' -> order_not_null row = true.
Proof.
  unfold insert_order. by destruct (order_not_null row).
Qed.

Lemma delete_order_gone id d : store_orders (delete_order id d) !! id = None.
Proof. simpl. apply lookup_delete_eq. Qed.

Lemma delete_order_other id k d :
  k <> id -> store_orders (delete_order id d) !! k = store_orders d !! k.
Proof. intros. simpl. by apply lookup_delete_ne. Qed.

Lemma increment_download_count_orders id d :
  store_orders (increment_download_count id d) = store_orders d
  /\ store_order_items (increment_download_count id d) = store_order_items d.
Proof. split; reflexivity. Qed.

End SchemaFacts.

Section IntakeFacts.
Import Effects Intake Runs.

Lemma insert_store_order_shape p row w :
  exists res w',
    insert_store_order p row w = (Returned res, w', [InsertOrder row res])
    /\ match res with
       | inl id => id = gen_random_uuid p
                   /\ Schema.insert_order id row (db w) = inr (db w')
       | inr _ => db w' = db w
       end.
Proof.
  unfold insert_store_order. pose proof (next_answer_db w) as Hdb.
  destruct (next_answer w) as [[msg|] w1]; simpl in Hdb.
  - eexists _, _. split; [reflexivity|]. exact Hdb.
  - destruct (Schema.insert_order _ row (db w1)) as [msg|db'] eqn:E.
    + eexists _, _. split; [reflexivity|]. exact Hdb.
    + eexists _, _. split; [reflexivity|]. simpl. split; congruence.
Qed.

(** One counter call returns and leaves the orders and their items
    alone. *)
Lemma rpc_call_shape addon w :
  exists err w',
    rpc_increment_download_count addon w
    = (Returned err, w', [RpcIncrementDownloadCount addon err])
    /\ Schema.store_orders (db w') = Schema.store_orders (db w)
    /\ Schema.store_order_items (db w') = Schema.store_order_items (db w)
    /\ forall k, is_Some (Schema.store_addons (db w') !! k)
                 <-> is_Some (Schema.store_addons (db w) !! k).
Proof.
  unfold rpc_increment_download_count.
  match goal with
  | |- context [statement ?run ?log w] =>
      destruct (statement_shape run log w) as (err & w' & E & Hw)
  end.
  exists err, w'. split; [exact E|].
  destruct err as [e|]; [by rewrite Hw|].
  injection Hw as Hw. rewrite <- Hw.
  destruct addon as [a|]; [|done].
  split; [reflexivity|]. split; [reflexivity|].
  intros k. simpl. by rewrite lookup_alter_is_Some.
Qed.

Lemma rpc_loop_cons item its w :
  rpc_loop (item :: its) w
  = match rpc_increment_download_count (addon_id item) w with
    | (Returned _, w1, t1) =>
        match rpc_loop its w1 with
        | (r, w2, t2) => (r, w2, t1 ++ t2)
        end
    | (Thrown e, w1, t1) => (Thrown e, w1, t1)
    end.
Proof.
  change (rpc_loop (item :: its))
    with (bind (bind (rpc_increment_download_count (addon_id item))
                     (fun _ => ret tt))
               (fun _ => rpc_loop its)).
  unfold bind at 1 2.
  destruct (rpc_increment_download_count (addon_id item) w) as [[[v|e] w1] t1];
    [|reflexivity].
  unfold ret at 1. cbn [fst snd]. rewrite app_nil_r. reflexivity.
Qed.

(** The counter loop returns, leaves the orders and their items alone and
    issues nothing but counter calls. *)
Lemma rpc_loop_shape its w :
  exists w' rpcs,
    rpc_loop its w = (Returned tt, w', rpcs)
    /\ Schema.store_orders (db w') = Schema.store_orders (db w)
    /\ Schema.store_order_items (db w') = Schema.store_order_items (db w)
    /\ Forall is_rpc rpcs.
Proof.
  revert w. induction its as [|item its IH]; intros w.
  - eexists _, _. split; [reflexivity|]. auto.
  - rewrite rpc_loop_cons.
    destruct (rpc_call_shape (addon_id item) w) as (err & w1 & -> & Ho1 & Hi1 & _).
    destruct (IH w1) as (w' & rpcs & -> & Ho & Hi & Hr).
    eexists _, _. split; [reflexivity|].
    repeat split; try congruence.
    constructor; [exact I | exact Hr].
Qed.

Lemma objects_Some l its : objects l = Some its <-> l = Some <$> its.
Proof.
  revert its. induction l as [|[item|] l IH]; intros its; simpl.
  - split; [intros [= <-]; reflexivity|]. by destruct its.
  - destruct (objects l) as [its'|].
    + split.
      * intros [= <-]. simpl. f_equal. by apply IH.
      * destruct its as [|x its]; [discriminate|]. intros [= <- H].
        f_equal. f_equal. apply IH in H. congruence.
    + split; [discriminate|].
      destruct its as [|x its]; [discriminate|]. intros [= <- H].
      apply IH in H. discriminate.
  - split; [discriminate|]. by destruct its.
Qed.

(** Reading the items succeeds exactly on an array of objects, whatever
    property the callback reads first. *)
Lemma items_objects_inr property d its :
  items_objects property d = inr its
  <-> items d = Some (ItemsArray (Some <$> its)).
Proof.
  unfold items_objects.
  destruct (items d) as [[l|z]|]; [|split; discriminate..].
  destruct (objects l) as [its'|] eqn:E.
  - apply objects_Some in E as ->. split.
    + by intros [= ->].
    + intros [= H]. apply (inj (fmap Some)) in H. by subst.
  - split; [discriminate|]. intros [= ->].
    assert (objects (Some <$> its) = Some its) as H by (by apply objects_Some).
    congruence.
Qed.

Lemma send_confirmation_shape p d w :
  exists sent mails,
    send_confirmation p d w = (Returned sent, w, mails)
    /\ mail_step p d sent mails.
Proof.
  unfold send_confirmation.
  destruct (env p !! "MAILERSEND_API_KEY") as [key|] eqn:Ekey.
  2:{ eexists _, _. split; [reflexivity|].
      apply mail_not_configured. unfold Spec.mail_key_configured.
      by rewrite Ekey. }
  destruct (Js.truthy (Some key)) eqn:Et.
  2:{ eexists _, _. split; [reflexivity|].
      apply mail_not_configured. unfold Spec.mail_key_configured.
      by rewrite Ekey. }
  assert (Spec.mail_key_configured p = true) as Hc.
  { unfold Spec.mail_key_configured. by rewrite Ekey. }
  unfold try_catch, bind, items_array, evaluate, fetch_mailersend.
  assert (forall r, match items_objects "addon_name" d with
                    | inl e => inl e
                    | inr its => emailContent p d its
                    end = r -> confirmation_content p d = r) as Hcontent
      by (intros r <-; reflexivity).
  destruct (items_objects "addon_name" d) as [e|its].
  { eexists _, _. split; [reflexivity|].
    eapply mail_not_built; eauto. }
  unfold ret at 1.
  destruct (emailContent p d its) as [e|content].
  { eexists _, _. split; [reflexivity|].
    eapply mail_not_built; eauto. }
  unfold ret at 1.
  destruct (mail_provider p) as [msg|ok] eqn:Em.
  - eexists _, _. split; [reflexivity|]. eapply mail_rejected; eauto.
  - eexists _, _. split; [reflexivity|]. simpl.
    replace (if ok then true else false) with ok by (by destruct ok).
    eapply mail_responded; eauto.
Qed.

Lemma missing_required_fields_items d :
  missing_required_fields d = false -> exists v, items d = Some v.
Proof.
  unfold missing_required_fields.
  destruct (items d); [eauto|].
  rewrite !orb_true_r. discriminate.
Qed.

(** Every run of the handler follows one of the paths of [served]. *)
Lemma serve_run p req w :
  exists out w' tr,
    serve p req w = (out, w', tr) /\ served p req w out w' tr.
Proof.
  unfold serve.
  destruct (String.eqb_spec (method req) "OPTIONS") as [Hm|Hm].
  { eexists _, _, _. split; [reflexivity|]. by apply served_preflight. }
  unfold try_catch, bind at 1, req_json.
  destruct (json_body req) as [[|d]|] eqn:Ebody.
  3:{ eexists _, _, _. split; [reflexivity|]. by apply served_not_json. }
  { eexists _, _, _. split; [reflexivity|]. by apply served_null_body. }
  unfold ret at 1. unfold bind at 1, properties. unfold ret at 1.
  destruct (missing_required_fields d) eqn:Emiss.
  { eexists _, _, _. split; [reflexivity|]. by eapply served_missing. }
  unfold bind at 1, createClient.
  destruct (createClient_error p _ _) as [msg|] eqn:Ecl.
  { eexists _, _, _. split; [reflexivity|]. by eapply served_no_client. }
  unfold ret at 1. unfold bind at 1.
  destruct (insert_store_order_shape p (order_insert p d) w)
    as (res & w1 & Eins & _).
  rewrite Eins. destruct res as [id|e].
  2:{ eexists _, _, _. split; [reflexivity|]. by eapply served_order_failed. }
  unfold bind at 1, items_array, evaluate.
  destruct (items_objects "addon_id" d) as [msg|its] eqn:Eits.
  { eexists _, _, _. split; [reflexivity|].
    by eapply served_items_unreadable. }
  apply items_objects_inr in Eits.
  unfold ret at 1. unfold bind at 1.
  destruct (statement_shape
              (Schema.insert_order_items (map (order_item_insert id) its))
              (InsertOrderItems (map (order_item_insert id) its)) w1)
    as (ierr & w2 & Eitems & _).
  unfold insert_store_order_items at 1. rewrite Eitems.
  destruct ierr as [e|].
  - unfold bind at 1. simpl. unfold bind at 1.
    destruct (statement_shape
                (fun d0 => inr (Schema.delete_order id d0)) (DeleteOrder id) w2)
      as (derr & w3 & Edel & _).
    unfold delete_store_order at 1. rewrite Edel.
    eexists _, _, _. split; [reflexivity|].
    by eapply served_items_failed.
  - unfold bind at 1.
    destruct (rpc_loop_shape its w2) as (w3 & rpcs & Eloop & _).
    unfold rpc_loop in Eloop. rewrite Eloop.
    unfold bind at 1.
    destruct (send_confirmation_shape p d w3) as (sent & mails & Esend & Hmail).
    rewrite Esend.
    eexists _, _, _. split; [simpl; rewrite app_nil_r; reflexivity|].
    by eapply served_created.
Qed.

Lemma serve_inv p req w out w' tr :
  serve p req w = (out, w', tr) -> served p req w out w' tr.
Proof.
  intros E. destruct (serve_run p req w) as (out1 & w1 & tr1 & E1 & H).
  congruence.
Qed.

End IntakeFacts.

(** ** The order-intake handler: verified properties *)

Section IntakeProperties.
Import Effects Intake Runs.

Lemma statement_inv run log w err w' tr :
  statement run log w = (Returned err, w', tr) ->
  match err with
  | None => run (db w) = inr (db w')
  | Some _ => db w' = db w
  end.
Proof.
  destruct (statement_shape run log w) as (err1 & w1 & E & H).
  rewrite E. intros [= <- <- <-]. exact H.
Qed.

Lemma insert_store_order_inv p row w res w' tr :
  insert_store_order p row w = (Returned res, w', tr) ->
  match res with
  | inl id => id = gen_random_uuid p
              /\ Schema.insert_order id row (db w) = inr (db w')
  | inr _ => db w' = db w
  end.
Proof.
  destruct (insert_store_order_shape p row w) as (res1 & w1 & E & H).
  rewrite E. intros [= <- <- <-]. exact H.
Qed.

Lemma mail_step_events p d sent mails :
  mail_step p d sent mails -> Forall after_inserts mails.
Proof. destruct 1; repeat constructor. Qed.

Lemma created_tail p d its w2 w3 rpcs sent mails ev :
  rpc_loop its w2 = (Returned tt, w3, rpcs) ->
  mail_step p d sent mails ->
  In ev (rpcs ++ mails) -> after_inserts ev.
Proof.
  intros Hloop Hmail Hin.
  destruct (rpc_loop_shape its w2) as (w3' & rpcs' & E & _ & _ & Hr).
  rewrite E in Hloop. injection Hloop as <- <-.
  apply in_app_or in Hin as [Hin|Hin].
  - rewrite List.Forall_forall in Hr. apply Hr in Hin.
    destruct ev; simpl in *; tauto.
  - pose proof (mail_step_events _ _ _ _ Hmail) as Hm.
    rewrite List.Forall_forall in Hm. by apply Hm.
Qed.

Lemma rpc_loop_tables its w w' rpcs :
  rpc_loop its w = (Returned tt, w', rpcs) ->
  Schema.store_orders (db w') = Schema.store_orders (db w)
  /\ Schema.store_order_items (db w') = Schema.store_order_items (db w).
Proof.
  destruct (rpc_loop_shape its w) as (w1 & rpcs1 & E & Ho & Hi & _).
  rewrite E. intros [= <- <-]. auto.
Qed.

(** The handler returns a response on every request: nothing escapes the
    outer [catch]. *)
Lemma serve_returns p req w :
  exists resp w' tr, serve p req w = (Returned resp, w', tr).
Proof.
  destruct (serve_run p req w) as (out & w' & tr & E & H).
  destruct H; eauto.
Qed.


Ltac not_after_inserts :=
  match goal with
  | Hl : rpc_loop _ _ = _, Hm : mail_step _ _ _ _, Hin : In _ (_ ++ _) |- _ =>
      apply (created_tail _ _ _ _ _ _ _ _ _ Hl Hm) in Hin; destruct Hin
  end.

(** C1, as stated, fails: when the backend refuses the items insert and
    then the compensating delete as well, the handler answers 500 and the
    order row it created is still in [store_orders]. *)
Lemma order_row_survives_refused_delete :
  ~ order_row_gone_after_item_failure
      (Sample.platform "4fzyo82mvyr" (MailResponded true))
      (Sample.post Sample.order)
      Sample.items_and_delete_refused.
Proof.
  intros H.
  edestruct H as [Hgone _].
  - vm_compute. reflexivity.
  - left. reflexivity.
  - right. left. reflexivity.
  - vm_compute in Hgone. discriminate.
Qed.

(** C1 (amended): on every request whose order insert succeeds and whose
    items insert fails, the handler issues a delete of the order row it
    created, without looking at the result, and answers with status 500
    and an error body; when that delete succeeds the row no longer exists
    afterwards. *)
Theorem item_failure_compensated p req w out w' tr row id rows e :
  serve p req w = (out, w', tr) ->
  In (InsertOrder row (inl id)) tr ->
  In (InsertOrderItems rows (Some e)) tr ->
  (exists resp, out = Returned resp /\ status resp = 500
                /\ is_Some (Spec.field "error" resp))
  /\ exists err, In (DeleteOrder id err) tr
                 /\ (err = None -> Schema.store_orders (db w') !! id = None).
Proof.
  intros Hrun Hins Hitems. apply serve_inv in Hrun.
  destruct Hrun; simpl in Hins, Hitems;
    try (intuition discriminate).
  - (* items insert failed *)
    destruct Hins as [[= <- <-]|Hins]; [|intuition discriminate].
    split.
    + eexists. split; [reflexivity|]. split; [reflexivity|]. by eexists.
    + exists err. split; [simpl; auto|].
      intros ->.
      match goal with
      | Hd : delete_store_order _ _ = _ |- _ =>
          apply statement_inv in Hd; injection Hd as <-
      end.
      apply delete_order_gone.
  - (* both inserts succeeded *)
    destruct Hitems as [?|[?|Hin]]; try discriminate. not_after_inserts.
Qed.

Lemma item_failure_compensated_witness :
  exists resp w', 
    serve (Sample.platform "4fzyo82mvyr" (MailResponded true))
          (Sample.post Sample.order) Sample.items_refused
    = (Returned resp, w',
       [InsertOrder (order_insert (Sample.platform "4fzyo82mvyr" (MailResponded true)) Sample.order) (inl "order-1");
        InsertOrderItems (map (order_item_insert "order-1") [Sample.item]) (Some "connection lost");
        ConsoleError "Order items creation error:" "connection lost";
        DeleteOrder "order-1" None])
    /\ status resp = 500
    /\ Schema.store_orders (db w') !! "order-1" = None.
Proof.
  eexists _, _. split; [vm_compute; reflexivity|].
  edestruct (item_failure_compensated
               (Sample.platform "4fzyo82mvyr" (MailResponded true))
               (Sample.post Sample.order) Sample.items_refused)
    as [(resp & Hout & Hst & _) (err & Hin & Hgone)].
  - vm_compute. reflexivity.
  - left. reflexivity.
  - right. left. reflexivity.
  - injection Hout as <-. split; [exact Hst|].
    apply Hgone.
    destruct Hin as [?|[?|[?|[[= <-]|[]]]]]; try discriminate. reflexivity.
Defined.


(** The order number matches the pattern whenever the random fraction
    prints at least five base-36 digits. *)
Lemma orderNumber_pattern p :
  Js.forallb_string Js.is_base36 (random_fraction_digits p) = true ->
  5 <= String.length (random_fraction_digits p) ->
  Spec.order_number_pattern (orderNumber p) = true.
Proof.
  intros Hdigits Hlen. unfold orderNumber.
  rewrite suffix_of_fraction.
  destruct (number_toString_nonempty (now p)) as (c & r & E).
  pose proof (number_toString_digits (now p)) as Hnum.
  rewrite E in *. simpl in Hnum. apply andb_true_iff in Hnum as [Hc Hr].
  set (suffix := Js.toUpperCase (substring 0 5 (random_fraction_digits p))).
  change (Spec.order_number_pattern
            (String "O" (String "R" (String "D" (String "-"
               (String c (r ++ String "-" suffix)))))) = true).
  cbn [Spec.order_number_pattern Spec.skip_digits]. rewrite Hc.
  rewrite skip_digits_stops by exact Hr.
  subst suffix. rewrite toUpperCase_length, substring_0_length.
  rewrite Nat.min_l by exact Hlen. cbn [Nat.eqb andb].
  apply toUpperCase_base36. by apply substring_0_forallb.
Qed.

(** The suffix never has more than five characters, and has fewer exactly
    when the fraction prints fewer digits. *)
Lemma orderNumber_suffix_length p :
  String.length
    (Js.toUpperCase
       (Js.substr 2 5 (Js.random_toString36 (random_fraction_digits p))))
  = Nat.min 5 (String.length (random_fraction_digits p)).
Proof.
  by rewrite suffix_of_fraction, toUpperCase_length, substring_0_length.
Qed.

(** Every accepted submission is answered with the order number the
    handler computed. *)
Lemma accepted_order_number p req w resp w' tr :
  method req <> "OPTIONS" ->
  serve p req w = (Returned resp, w', tr) ->
  status resp = 200 ->
  Spec.field "order_number" resp = Some (Js.JStr (orderNumber p)).
Proof.
  intros Hm Hrun Hst. apply serve_inv in Hrun.
  inversion Hrun; subst; try discriminate; try contradiction.
  reflexivity.
Qed.

(** C2 at the failing input: [Math.random()] returns 0.5, which
    [toString(36)] prints as [0.i].  The order is accepted with status 200
    and its [order_number] ends in the single character [I], so it does
    not match [ORD-<digits>-<5 uppercase alphanumerics>]. *)
Theorem order_number_short_suffix :
  exists resp w' tr,
    serve (Sample.platform "i" (MailResponded true))
          (Sample.post Sample.order) Sample.healthy
    = (Returned resp, w', tr)
    /\ status resp = 200
    /\ Spec.field "order_number" resp = Some (Js.JStr "ORD-1752053958123-I")
    /\ Spec.order_number_pattern "ORD-1752053958123-I" = false.
Proof.
  eexists _, _, _. split; [vm_compute; reflexivity|].
  repeat split.
Qed.

(** C3, as stated, fails: the body [null] is a JSON payload with no
    customer name, no email and no items, and the handler answers it with
    status 500, not 400: reading [orderData.customer_name] throws, and the
    outer [catch] answers. *)
Lemma null_payload_answered_500 :
  ~ incomplete_payload_answered_400
      (Sample.platform "4fzyo82mvyr" (MailResponded true))
      Sample.post_null
      Sample.healthy.
Proof.
  intros H.
  edestruct (H JsonNull) as [(resp & Hout & Hst & _) _].
  - discriminate.
  - reflexivity.
  - exact I.
  - vm_compute. reflexivity.
  - injection Hout as <-. vm_compute in Hst. discriminate.
Qed.

(** C3 (amended): a submission whose body is a JSON payload that lacks
    [customer_name], [customer_email] or [items], or whose [items] list is
    empty, is answered with an error body, and the handler makes no
    database call for it (the trace holds console output at most) and
    leaves the tables untouched; unless the payload is the JSON value
    [null], the status is 400 and the handler does nothing at all before
    it answers. *)
Theorem missing_fields_rejected p req w v out w' tr :
  method req <> "OPTIONS" ->
  json_body req = Some v ->
  lacks_required_field v ->
  serve p req w = (out, w', tr) ->
  (exists resp, out = Returned resp
                /\ is_Some (Spec.field "error" resp)
                /\ (v <> JsonNull -> status resp = 400))
  /\ no_database_call tr
  /\ (v <> JsonNull -> tr = [])
  /\ w' = w.
Proof.
  intros Hm Hbody Hmissing Hrun.
  assert (forall d, v = JsonDocument d -> missing_required_fields d = true) as Hv.
  { intros d ->. unfold missing_required_fields.
    destruct Hmissing as [-> | [-> | [-> | ->]]]; simpl;
      rewrite ?orb_true_r; reflexivity. }
  apply serve_inv in Hrun.
  destruct Hrun;
    try contradiction;
    try congruence;
    try (match goal with
         | Hb : json_body req = Some (JsonDocument ?d),
           Hf : missing_required_fields ?d = false |- _ =>
             rewrite Hbody in Hb; injection Hb as ->;
             rewrite (Hv _ eq_refl) in Hf; discriminate
         end).
  - (* the body is null *)
    assert (v = JsonNull) as -> by congruence.
    split; [|split; [|split]]; [| |done|done].
    + eexists. split; [reflexivity|]. split; [by eexists|done].
    + intros ev [<-|[]]. by eexists _, _.
  - (* a document without the required fields *)
    assert (v = JsonDocument d) as -> by congruence.
    split; [|split; [|split]]; [| |done|done].
    + eexists. split; [reflexivity|]. split; [by eexists|done].
    + intros ev [].
Qed.

Lemma missing_fields_rejected_witness :
  let p := Sample.platform "4fzyo82mvyr" (MailResponded true) in
  let req := Sample.post Sample.order_without_items in
  let w := Sample.healthy in
  (exists resp, (serve p req w).1.1 = Returned resp /\ status resp = 400
                /\ is_Some (Spec.field "error" resp))
  /\ (serve p req w).2 = [] /\ (serve p req w).1.2 = w.
Proof.
  intros p req w.
  destruct (missing_fields_rejected p req w
              (JsonDocument Sample.order_without_items)
              (serve p req w).1.1 (serve p req w).1.2 (serve p req w).2)
    as ((resp & Hout & Herror & Hstatus) & _ & Htr & Hw).
  - discriminate.
  - reflexivity.
  - right. right. right. reflexivity.
  - by destruct (serve p req w) as [[? ?] ?].
  - split; [|split; [by apply Htr|exact Hw]].
    exists resp. split; [exact Hout|]. split; [by apply Hstatus|exact Herror].
Defined.

(** On the path that stores the order, nothing after the two inserts is a
    sign of a server failure. *)
Lemma created_tail_no_failure p d its w2 w3 rpcs sent mails :
  rpc_loop its w2 = (Returned tt, w3, rpcs) ->
  mail_step p d sent mails ->
  ~ server_failure (rpcs ++ mails).
Proof.
  intros Hloop Hmail Hfail.
  pose proof (fun ev => created_tail _ _ _ _ _ _ _ _ ev Hloop Hmail) as Htail.
  destruct Hfail as [[msg Hin]|[(row & e & Hin)|(rows & e & Hin)]];
    apply Htail in Hin; simpl in Hin; [discriminate|done|done].
Qed.

Lemma server_failure_cons ev tr :
  server_failure (ev :: tr)
  <-> server_failure [ev] \/ server_failure tr.
Proof.
  unfold server_failure. simpl. split.
  - intros [[m [H|H]]|[(r & e & [H|H])|(r & e & [H|H])]]; eauto 10.
  - intros [[[m [H|[]]]|[(r & e & [H|[]])|(r & e & [H|[]])]]
           |[[m H]|[(r & e & H)|(r & e & H)]]]; eauto 10.
Qed.

(** C4: the handler always returns a response.  When the order insert and
    the items insert both succeed it has status 200 and a body with
    exactly the fields [success], [order_id], [order_number], [message] and
    [email_sent]; on a validation failure it has status 400 and a body
    that is exactly an [error] field; on a server failure (an exception
    caught by the outer [catch], or an insert that came back with an
    error) it has status 500 and a body with an [error] field.  Every
    request that is not a preflight is one of the three, and a response
    with status 400 or 500 always has an [error] field. *)
Theorem response_bodies p req w out w' tr :
  serve p req w = (out, w', tr) ->
  exists resp,
    out = Returned resp
    /\ ((exists row id rows,
            In (InsertOrder row (inl id)) tr
            /\ In (InsertOrderItems rows None) tr) ->
        status resp = 200
        /\ Spec.field_names resp
           = ["success"; "order_id"; "order_number"; "message"; "email_sent"])
    /\ (validation_failure req ->
        status resp = 400 /\ Spec.field_names resp = ["error"])
    /\ (server_failure tr ->
        status resp = 500 /\ is_Some (Spec.field "error" resp))
    /\ (method req = "OPTIONS" \/ stored tr \/ validation_failure req
        \/ server_failure tr)
    /\ (status resp = 400 \/ status resp = 500 ->
        is_Some (Spec.field "error" resp)).
Proof.
  intros Hrun. apply serve_inv in Hrun.
  assert (forall d, json_body req = Some (JsonDocument d) ->
                    missing_required_fields d = false ->
                    ~ validation_failure req) as Hvalid.
  { intros d Hb Hf (_ & d' & Hb' & Hmiss). congruence. }
  destruct Hrun; eexists; (split; [reflexivity|]); split_and!.
  (* the response with status 400 or 500 has an error field *)
  all: try (intros [?|?]; try discriminate; by eexists).
  (* a validation failure where the document was accepted, or no document
     was read *)
  all: try (intros Hv; exfalso; by eapply Hvalid).
  all: try (intros (? & ? & ? & ?); congruence).
  (* stored *)
  all: try (intros (row & oid & rows & Hins & Hitems); simpl in Hins, Hitems;
            exfalso; intuition discriminate).
  all: try (intros _; split; reflexivity).
  (* which of the cases the request is *)
  all: try (left; assumption).
  all: try (right; right; left; split; [assumption|by eexists]).
  all: try (right; right; right; left; eexists; left; reflexivity).
  all: try (right; right; right; left; eexists; right; left; reflexivity).
  all: try (right; right; right; right; left; eexists _, _; left; reflexivity).
  all: try (right; right; right; right; right; eexists _, _; right; left;
            reflexivity).
  all: try (intros _; split; [reflexivity|by eexists]).
  (* a server failure *)
  - intros [[m []]|[(r & e & [])|(r & e & [])]].
  - intros [[m []]|[(r & e & [])|(r & e & [])]].
  - intros Hfail. exfalso.
    apply server_failure_cons in Hfail as [Hfail|Hfail].
    { destruct Hfail as [[m [?|[]]]|[(r & e & [?|[]])|(r & e & [?|[]])]];
        discriminate. }
    apply server_failure_cons in Hfail as [Hfail|Hfail].
    { destruct Hfail as [[m [?|[]]]|[(r & e & [?|[]])|(r & e & [?|[]])]];
        discriminate. }
    by eapply created_tail_no_failure.
  - right. left. eexists _, _, _. split; [left; reflexivity|].
    right. left. reflexivity.
Qed.

Lemma response_bodies_witness :
  (exists resp,
      (serve (Sample.platform "4fzyo82mvyr" (MailResponded true))
             (Sample.post Sample.order) Sample.healthy).1.1 = Returned resp
      /\ status resp = 200
      /\ Spec.field_names resp
         = ["success"; "order_id"; "order_number"; "message"; "email_sent"])
  /\ (exists resp,
         (serve (Sample.platform "4fzyo82mvyr" (MailResponded true))
                (Sample.post Sample.order_without_items) Sample.healthy).1.1
         = Returned resp
         /\ status resp = 400 /\ Spec.field_names resp = ["error"])
  /\ (exists resp,
         (serve (Sample.platform "4fzyo82mvyr" (MailResponded true))
                (Sample.post Sample.order) Sample.items_refused).1.1
         = Returned resp
         /\ status resp = 500 /\ is_Some (Spec.field "error" resp)).
Proof.
  set (p := Sample.platform "4fzyo82mvyr" (MailResponded true)).
  split; [|split].
  - destruct (response_bodies p (Sample.post Sample.order) Sample.healthy
                (serve p (Sample.post Sample.order) Sample.healthy).1.1
                (serve p (Sample.post Sample.order) Sample.healthy).1.2
                (serve p (Sample.post Sample.order) Sample.healthy).2)
      as (resp & Hout & Hok & _).
    + by destruct (serve p (Sample.post Sample.order) Sample.healthy) as [[? ?] ?].
    + exists resp. split; [exact Hout|]. apply Hok.
      eexists _, _, _. split; [left; vm_compute; reflexivity|].
      right; left. vm_compute. reflexivity.
  - destruct (response_bodies p (Sample.post Sample.order_without_items)
                Sample.healthy
                (serve p (Sample.post Sample.order_without_items) Sample.healthy).1.1
                (serve p (Sample.post Sample.order_without_items) Sample.healthy).1.2
                (serve p (Sample.post Sample.order_without_items) Sample.healthy).2)
      as (resp & Hout & _ & Hinvalid & _).
    + by destruct (serve p (Sample.post Sample.order_without_items)
                         Sample.healthy) as [[? ?] ?].
    + exists resp. split; [exact Hout|]. apply Hinvalid.
      split; [discriminate|]. eexists. split; reflexivity.
  - destruct (response_bodies p (Sample.post Sample.order) Sample.items_refused
                (serve p (Sample.post Sample.order) Sample.items_refused).1.1
                (serve p (Sample.post Sample.order) Sample.items_refused).1.2
                (serve p (Sample.post Sample.order) Sample.items_refused).2)
      as (resp & Hout & _ & _ & Hfailed & _).
    + by destruct (serve p (Sample.post Sample.order) Sample.items_refused)
        as [[? ?] ?].
    + exists resp. split; [exact Hout|]. apply Hfailed.
      right. right. eexists _, _. right. left. vm_compute. reflexivity.
Defined.

(** A mail request is only ever sent with the key configured, on any
    request. *)
Lemma mail_only_with_key p req w out w' tr r res :
  serve p req w = (out, w', tr) ->
  In (MailSend r res) tr -> Spec.mail_key_configured p = true.
Proof.
  intros Hrun Hin. apply serve_inv in Hrun.
  destruct Hrun; simpl in Hin; try (exfalso; intuition discriminate).
  destruct Hin as [?|[?|Hin]]; try discriminate.
  apply in_app_or in Hin as [Hin|Hin].
  - match goal with
    | Hl : rpc_loop _ _ = _ |- _ =>
        destruct (rpc_loop_shape its w2) as (? & ? & E & _ & _ & Hr);
        rewrite E in Hl; injection Hl as <- <-
    end.
    rewrite List.Forall_forall in Hr. apply Hr in Hin. destruct Hin.
  - match goal with
    | Hm : mail_step _ _ _ _ |- _ => destruct Hm; simpl in Hin; intuition
    end.
Qed.


Lemma item_blocks_length p its blocks :
  item_blocks_of p its = inr blocks -> length blocks = length its.
Proof.
  revert blocks. induction its as [|item its IH]; intros blocks; simpl.
  - by intros [= <-].
  - destruct (item_block p item); [discriminate|].
    destruct (item_blocks_of p its); [discriminate|].
    intros [= <-]. simpl. f_equal. by apply IH.
Qed.

Lemma emailContent_inr p d its content :
  emailContent p d its = inr content ->
  Js.is_number (subtotal d) = true /\ Js.is_number (total_amount d) = true
  /\ title_order_number content = orderNumber p
  /\ length (item_blocks content) = length its.
Proof.
  unfold emailContent.
  destruct (item_blocks_of p its) as [|blocks] eqn:Eb; [discriminate|].
  destruct (subtotal d); try discriminate.
  destruct (total_amount d); try discriminate.
  simpl. intros [= <-]. simpl.
  split; [done|]. split; [done|]. split; [done|].
  by eapply item_blocks_length.
Qed.







(** C9: whatever the request document carries, every order row the
    handler gives to the insert has [order_status] and [payment_status]
    [pending], and every row of [store_orders] that was not there before
    the request has them too. *)
Theorem orders_created_pending p req w out w' tr :
  serve p req w = (out, w', tr) ->
  (forall row res,
      In (InsertOrder row res) tr ->
      Schema.order_status row = "pending"
      /\ Schema.payment_status row = "pending")
  /\ (forall id r,
         Schema.store_orders (db w') !! id = Some r ->
         Schema.store_orders (db w) !! id = Some r
         \/ (Schema.order_status r = "pending"
             /\ Schema.payment_status r = "pending")).
Proof.
  intros Hrun. apply serve_inv in Hrun.
  destruct Hrun.
  1-5: split; [intros row res Hin; simpl in Hin; intuition discriminate
              |intros k r Hk; by left].
  - (* the order insert failed *)
    match goal with
    | Hi : insert_store_order _ _ _ = _ |- _ =>
        apply insert_store_order_inv in Hi; rename Hi into Hdb
    end.
    split.
    + intros row res [[= <- <-]|[?|[]]]; [auto|discriminate].
    + intros k r Hk. left. by rewrite Hdb in Hk.
  - (* the items cannot be read: the order stays *)
    match goal with
    | Hi : insert_store_order _ _ _ = _ |- _ =>
        apply insert_store_order_inv in Hi; destruct Hi as [_ Hi];
        apply insert_order_inv in Hi; destruct Hi as (_ & Ho1 & _ & _)
    end.
    split.
    + intros row res [[= <- <-]|[?|[]]]; [auto|discriminate].
    + intros k r Hk. rewrite Ho1 in Hk.
      destruct (decide (id = k)) as [->|Hne].
      * rewrite lookup_insert_eq in Hk. injection Hk as <-. by right.
      * rewrite lookup_insert_ne in Hk by exact Hne. by left.
  - (* the items insert failed *)
    repeat match goal with
    | Hi : insert_store_order _ _ _ = _ |- _ =>
        apply insert_store_order_inv in Hi; destruct Hi as [_ Hi];
        apply insert_order_inv in Hi; destruct Hi as (_ & Ho1 & _ & _)
    | Hi : insert_store_order_items _ _ = _ |- _ =>
        apply statement_inv in Hi; rename Hi into Hdb2
    | Hi : delete_store_order _ _ = _ |- _ =>
        apply statement_inv in Hi; rename Hi into Hdb3
    end.
    split.
    + intros row res [[= <- <-]|[?|[?|[?|[]]]]]; try discriminate. auto.
    + intros k r Hk. cbn in Hdb2. destruct err as [derr|]; cbn in Hdb3.
      * rewrite Hdb3 in Hk. rewrite Hdb2 in Hk. rewrite Ho1 in Hk.
        destruct (decide (id = k)) as [->|Hne].
        -- rewrite lookup_insert_eq in Hk. injection Hk as <-. by right.
        -- rewrite lookup_insert_ne in Hk by exact Hne. by left.
      * injection Hdb3 as Hdb3. rewrite <- Hdb3 in Hk.
        destruct (decide (k = id)) as [->|Hne].
        -- by rewrite delete_order_gone in Hk.
        -- rewrite delete_order_other in Hk by exact Hne.
           rewrite Hdb2 in Hk. rewrite Ho1 in Hk.
           rewrite lookup_insert_ne in Hk by congruence. by left.
  - (* both inserts succeeded *)
    match goal with
    | Hl : rpc_loop _ _ = _ |- _ =>
        pose proof (rpc_loop_tables _ _ _ _ Hl) as [Ho3 _]
    end.
    split.
    + intros row res [[= <- <-]|[?|Hin]]; [auto|discriminate|].
      not_after_inserts.
    + repeat match goal with
      | Hi : insert_store_order _ _ _ = _ |- _ =>
          apply insert_store_order_inv in Hi; destruct Hi as [_ Hi];
          apply insert_order_inv in Hi; destruct Hi as (_ & Ho1 & _ & _)
      | Hi : insert_store_order_items _ _ = _ |- _ =>
          apply statement_inv in Hi;
          apply insert_order_items_inv in Hi; destruct Hi as (Ho2 & _ & _)
      end.
      intros k r Hk. rewrite Ho3 in Hk. rewrite Ho2 in Hk. rewrite Ho1 in Hk.
      destruct (decide (id = k)) as [->|Hne].
      * rewrite lookup_insert_eq in Hk. injection Hk as <-. by right.
      * rewrite lookup_insert_ne in Hk by exact Hne. by left.
Qed.

Lemma orders_created_pending_witness :
  let p := Sample.platform "4fzyo82mvyr" (MailResponded true) in
  let run := serve p (Sample.post Sample.order) Sample.healthy in
  exists r, Schema.store_orders (db run.1.2) !! "order-1" = Some r
            /\ Schema.order_status r = "pending"
            /\ Schema.payment_status r = "pending".
Proof.
  intros p run.
  destruct (orders_created_pending p (Sample.post Sample.order) Sample.healthy
              run.1.1 run.1.2 run.2) as [_ Hrows].
  - subst run. by destruct (serve p _ _) as [[? ?] ?].
  - exists (order_insert p Sample.order).
    assert (Schema.store_orders (db run.1.2) !! "order-1"
            = Some (order_insert p Sample.order)) as Hk
        by (vm_compute; reflexivity).
    split; [exact Hk|].
    destruct (Hrows _ _ Hk) as [Hold|Hpending]; [|exact Hpending].
    vm_compute in Hold. discriminate.
Defined.

End IntakeProperties.
(** ** The admin dashboard: verified properties *)

Section DashboardProperties.
Import Effects StoreManager.

Lemma or_zero_id x : Js.or_zero x = x.
Proof. unfold Js.or_zero. destruct (Z.eqb_spec x 0); congruence. Qed.

Lemma filter_length_count {A} (f : A -> bool) l :
  length (List.filter f l) = Spec.count f l.
Proof.
  induction l as [|x l IH]; simpl; [reflexivity|].
  destruct (f x); simpl; congruence.
Qed.

(** The revenue is accumulated from the left: the figure for one more
    order is the figure so far plus its amount, in one rounded addition. *)
Lemma revenue_snoc (l : list StoreOrder.t) (order : StoreOrder.t) :
  revenue (l ++ [order])
  = PrimFloat.add (revenue l) (StoreOrder.total_amount order).
Proof. unfold revenue. by rewrite fold_left_app. Qed.

(** [x || 0] keeps every double but -0 and NaN. *)
Lemma or_zero_double_keeps x :
  Js.or_zero_double x = x
  \/ (Js.or_zero_double x = PrimFloat.zero
      /\ PrimFloat.is_zero x || PrimFloat.is_nan x = true).
Proof.
  unfold Js.or_zero_double.
  destruct (PrimFloat.is_zero x || PrimFloat.is_nan x); auto.
Qed.

(** C8, as stated, fails on amounts with cents.  For two orders of 0.10
    and 0.20 the revenue figure is the double 0.30000000000000004: it is
    not the sum of the two amounts in exact arithmetic, and it is not the
    double 0.3 either, which is what the sum 0.30 of the two column values
    arrives as. *)
Lemma revenue_of_small_orders_is_rounded :
  exists st',
    fetchStoreData {| data := Some [DashboardSample.addon]; error := None |}
                   {| data := Some DashboardSample.small_orders; error := None |}
                   initial_state DashboardSample.healthy
    = (Returned st', DashboardSample.healthy, [])
    /\ ~ Spec.revenue_is_the_sum DashboardSample.small_orders (stats st')
    /\ totalRevenue (stats st') <> Js.decimal 30.
Proof.
  eexists. split; [reflexivity|]. split.
  - intros (q & s & Hq & Hs & Heq).
    vm_compute in Hq. vm_compute in Hs.
    injection Hq as <-. injection Hs as <-.
    vm_compute in Heq. discriminate.
  - intros Heq.
    pose proof (f_equal (fun x => PrimFloat.eqb x (Js.decimal 30)) Heq) as E.
    vm_compute in E. discriminate.
Qed.

(** C8 (amended): after [fetchStoreData] has received the add-ons and the
    orders, [totalAddons] is the number of add-ons, [publishedAddons] the
    number of those with [is_published], [totalOrders] the number of
    orders and [pendingOrders] the number of orders whose [order_status]
    is [pending]; [totalRevenue] is the double-precision sum of
    [total_amount] over all orders, whatever their status, accumulated
    from 0 in the order of the list, each addition rounded (and 0 should
    that sum be -0 or not a number). *)
Theorem stats_of_fetched_data (fetched_addons : list StoreAddon.t)
        (fetched_orders : list StoreOrder.t) (st : State) (w : World) :
  exists st',
    fetchStoreData {| data := Some fetched_addons; error := None |}
                   {| data := Some fetched_orders; error := None |} st w
    = (Returned st', w, [])
    /\ addons st' = fetched_addons
    /\ orders st' = fetched_orders
    /\ totalAddons (stats st') = Z.of_nat (length fetched_addons)
    /\ publishedAddons (stats st')
       = Z.of_nat (Spec.count StoreAddon.is_published fetched_addons)
    /\ totalOrders (stats st') = Z.of_nat (length fetched_orders)
    /\ totalRevenue (stats st')
       = Js.or_zero_double
           (fold_left
              (fun sum order => PrimFloat.add sum (StoreOrder.total_amount order))
              fetched_orders PrimFloat.zero)
    /\ pendingOrders (stats st')
       = Z.of_nat
           (Spec.count
              (fun order => String.eqb (StoreOrder.order_status order) "pending")
              fetched_orders).
Proof.
  eexists. split; [reflexivity|]. simpl.
  rewrite !or_zero_id, !filter_length_count.
  repeat split; reflexivity.
Qed.

(** The three mutation handlers, by the answer of the database. *)
Lemma handleDeleteAddon_run id st w :
  exists err w',
    delete_store_addon id w = (Returned err, w', [DeleteAddon id err])
    /\ handleDeleteAddon true id st w
       = match err with
         | None =>
             (Returned
                (setAddons
                   (List.filter
                      (fun addon => negb (String.eqb (StoreAddon.id addon) id))
                      (addons st))
                   st),
              w', [DeleteAddon id None])
         | Some e =>
             (Returned st, w',
              [DeleteAddon id (Some e);
               ConsoleError "Error deleting add-on:" e])
         end.
Proof.
  unfold handleDeleteAddon, delete_store_addon. simpl.
  destruct (statement_shape (Schema.delete_addon id) (DeleteAddon id) w)
    as (err & w' & E & _).
  exists err, w'. split; [exact E|].
  unfold try_catch, bind. rewrite E. by destruct err.
Qed.

Lemma handleTogglePublish_run id currentStatus st w :
  exists err w',
    update_addon_is_published id (negb currentStatus) w
    = (Returned err, w', [UpdateAddonPublished id (negb currentStatus) err])
    /\ handleTogglePublish id currentStatus st w
       = match err with
         | None =>
             (Returned
                (setAddons
                   (map (fun addon =>
                           if String.eqb (StoreAddon.id addon) id
                           then StoreAddon.with_is_published
                                  (negb currentStatus) addon
                           else addon)
                        (addons st))
                   st),
              w', [UpdateAddonPublished id (negb currentStatus) None])
         | Some e =>
             (Returned st, w',
              [UpdateAddonPublished id (negb currentStatus) (Some e);
               ConsoleError "Error updating add-on status:" e])
         end.
Proof.
  unfold handleTogglePublish, update_addon_is_published.
  destruct (statement_shape
              (fun d => inr (Schema.update_is_published id (negb currentStatus) d))
              (UpdateAddonPublished id (negb currentStatus)) w)
    as (err & w' & E & _).
  exists err, w'. split; [exact E|].
  unfold try_catch, bind. rewrite E. by destruct err.
Qed.

Lemma handleUpdateOrderStatus_run orderId status st w :
  exists err w',
    update_order_status orderId status w
    = (Returned err, w', [UpdateOrderStatus orderId status err])
    /\ handleUpdateOrderStatus orderId status st w
       = match err with
         | None =>
             (Returned
                (setOrders
                   (map (fun order =>
                           if String.eqb (StoreOrder.id order) orderId
                           then StoreOrder.with_order_status status order
                           else order)
                        (orders st))
                   st),
              w', [UpdateOrderStatus orderId status None])
         | Some e =>
             (Returned st, w',
              [UpdateOrderStatus orderId status (Some e);
               ConsoleError "Error updating order status:" e])
         end.
Proof.
  unfold handleUpdateOrderStatus, update_order_status.
  destruct (statement_shape (Schema.update_order_status orderId status)
              (UpdateOrderStatus orderId status) w)
    as (err & w' & E & _).
  exists err, w'. split; [exact E|].
  unfold try_catch, bind. rewrite E. by destruct err.
Qed.


(** C10: each of the three mutation handlers returns, and when the
    database call reports an error the local state is left as it was;
    the local state differs from the one before only when the call was
    made and came back without an error. *)
Theorem local_state_follows_database :
  (forall confirmed id st w out w' tr,
      handleDeleteAddon confirmed id st w = (out, w', tr) ->
      exists st', out = Returned st'
                  /\ ((exists e, In (DeleteAddon id (Some e)) tr) -> st' = st)
                  /\ (st' <> st -> tr = [DeleteAddon id None]))
  /\ (forall id currentStatus st w out w' tr,
         handleTogglePublish id currentStatus st w = (out, w', tr) ->
         exists st', out = Returned st'
                     /\ ((exists b e, In (UpdateAddonPublished id b (Some e)) tr)
                         -> st' = st)
                     /\ (st' <> st ->
                         tr = [UpdateAddonPublished id (negb currentStatus) None]))
  /\ (forall orderId status st w out w' tr,
         handleUpdateOrderStatus orderId status st w = (out, w', tr) ->
         exists st', out = Returned st'
                     /\ ((exists s e, In (UpdateOrderStatus orderId s (Some e)) tr)
                         -> st' = st)
                     /\ (st' <> st ->
                         tr = [UpdateOrderStatus orderId status None])).
Proof.
  split; [|split].
  - intros [] id st w out w' tr; simpl.
    + destruct (handleDeleteAddon_run id st w) as (err & w1 & _ & E).
      rewrite E. destruct err as [e|]; intros [= <- <- <-]; eexists;
        (split; [reflexivity|]); split; try done.
      intros (e & [?|[]]). discriminate.
    + intros [= <- <- <-]. eexists. split; [reflexivity|]. split; [done|].
      by intros [].
  - intros id cur st w out w' tr.
    destruct (handleTogglePublish_run id cur st w) as (err & w1 & _ & E).
    rewrite E. destruct err as [e|]; intros [= <- <- <-]; eexists;
      (split; [reflexivity|]); split; try done.
    intros (b & e & [?|[]]). discriminate.
  - intros id s st w out w' tr.
    destruct (handleUpdateOrderStatus_run id s st w) as (err & w1 & _ & E).
    rewrite E. destruct err as [e|]; intros [= <- <- <-]; eexists;
      (split; [reflexivity|]); split; try done.
    intros (b & e & [?|[]]). discriminate.
Qed.

Lemma local_state_follows_database_witness :
  (handleDeleteAddon true "a1" DashboardSample.state DashboardSample.refusing).1.1
  = Returned DashboardSample.state
  /\ (handleTogglePublish "a1" true DashboardSample.state
                          DashboardSample.refusing).1.1
     = Returned DashboardSample.state
  /\ (handleUpdateOrderStatus "order-1" "pending" DashboardSample.state
                              DashboardSample.refusing).1.1
     = Returned DashboardSample.state.
Proof.
  destruct local_state_follows_database as (Hdel & Htoggle & Hstatus).
  split; [|split].
  - edestruct (Hdel true "a1" DashboardSample.state DashboardSample.refusing)
      as (st' & Hout & Hsame & _); [vm_compute; reflexivity|].
    rewrite <- Hsame.
    + vm_compute in Hout. injection Hout as <-. reflexivity.
    + eexists. left. reflexivity.
  - edestruct (Htoggle "a1" true DashboardSample.state DashboardSample.refusing)
      as (st' & Hout & Hsame & _); [vm_compute; reflexivity|].
    rewrite <- Hsame.
    + vm_compute in Hout. injection Hout as <-. reflexivity.
    + eexists _, _. left. reflexivity.
  - edestruct (Hstatus "order-1" "pending" DashboardSample.state
                       DashboardSample.refusing)
      as (st' & Hout & Hsame & _); [vm_compute; reflexivity|].
    rewrite <- Hsame.
    + vm_compute in Hout. injection Hout as <-. reflexivity.
    + eexists _, _. left. reflexivity.
Defined.


Lemma with_is_published_twice (addon : StoreAddon.t) :
  StoreAddon.with_is_published (StoreAddon.is_published addon)
    (StoreAddon.with_is_published (negb (StoreAddon.is_published addon)) addon)
  = addon.
Proof. by destruct addon. Qed.

Lemma update_is_published_lookup id b d (row : Schema.addon_row) :
  Schema.store_addons d !! id = Some row ->
  Schema.store_addons (Schema.update_is_published id b d) !! id
  = Some (Schema.with_is_published b row).
Proof. intros H. simpl. by rewrite lookup_alter_eq, H. Qed.

(** One successful press of the publish button. *)
Lemma publish_button_ok addon st w st1 w1 t1 :
  publish_button addon st w = (Returned st1, w1, t1) ->
  In (UpdateAddonPublished (StoreAddon.id addon)
                           (negb (StoreAddon.is_published addon)) None) t1 ->
  t1 = [UpdateAddonPublished (StoreAddon.id addon)
                             (negb (StoreAddon.is_published addon)) None]
  /\ db w1 = Schema.update_is_published (StoreAddon.id addon)
               (negb (StoreAddon.is_published addon)) (db w)
  /\ addons st1
     = map (fun x =>
              if String.eqb (StoreAddon.id x) (StoreAddon.id addon)
              then StoreAddon.with_is_published
                     (negb (StoreAddon.is_published addon)) x
              else x)
           (addons st).
Proof.
  unfold publish_button. intros Hrun Hin.
  destruct (handleTogglePublish_run (StoreAddon.id addon)
              (StoreAddon.is_published addon) st w) as (err & w' & Hdb & E).
  rewrite E in Hrun. destruct err as [e|].
  - injection Hrun as <- <- <-.
    destruct Hin as [?|[?|[]]]; discriminate.
  - injection Hrun as <- <- <-.
    apply statement_inv in Hdb. injection Hdb as Hdb.
    auto.
Qed.

(** C6: pressing the publish button of an add-on twice, both updates
    succeeding, writes the negated flag and then the original flag to the
    database, and leaves the add-on in the dashboard state as it was; the
    database row of the add-on ends with the flag the dashboard showed at
    the start, and is the row it was if it had that flag. *)
Theorem toggle_publish_twice (addon addon1 : StoreAddon.t) (i : nat)
        (st st1 st2 : State) (w w1 w2 : World) (t1 t2 : list event) :
  addons st !! i = Some addon ->
  publish_button addon st w = (Returned st1, w1, t1) ->
  In (UpdateAddonPublished (StoreAddon.id addon)
                           (negb (StoreAddon.is_published addon)) None) t1 ->
  addons st1 !! i = Some addon1 ->
  publish_button addon1 st1 w1 = (Returned st2, w2, t2) ->
  In (UpdateAddonPublished (StoreAddon.id addon1)
                           (negb (StoreAddon.is_published addon1)) None) t2 ->
  t1 ++ t2
  = [UpdateAddonPublished (StoreAddon.id addon)
                          (negb (StoreAddon.is_published addon)) None;
     UpdateAddonPublished (StoreAddon.id addon)
                          (StoreAddon.is_published addon) None]
  /\ addons st2 !! i = Some addon
  /\ forall row,
      Schema.store_addons (db w) !! StoreAddon.id addon = Some row ->
      exists row2,
        Schema.store_addons (db w2) !! StoreAddon.id addon = Some row2
        /\ Schema.is_published row2 = StoreAddon.is_published addon
        /\ (Schema.is_published row = StoreAddon.is_published addon ->
            row2 = row).
Proof.
  intros Hi Hrun1 Hok1 Hi1 Hrun2 Hok2.
  destruct (publish_button_ok _ _ _ _ _ _ Hrun1 Hok1) as (-> & Hdb1 & Hl1).
  destruct (publish_button_ok _ _ _ _ _ _ Hrun2 Hok2) as (-> & Hdb2 & Hl2).
  assert (addon1 = StoreAddon.with_is_published
                     (negb (StoreAddon.is_published addon)) addon) as ->.
  { rewrite Hl1, list_lookup_fmap, Hi in Hi1. simpl in Hi1.
    rewrite String.eqb_refl in Hi1. congruence. }
  simpl in *. rewrite negb_involutive in *.
  split; [reflexivity|]. split.
  - rewrite Hl2, list_lookup_fmap, Hi1. simpl.
    rewrite String.eqb_refl.
    f_equal. apply with_is_published_twice.
  - intros row Hrow. rewrite Hdb2, Hdb1.
    erewrite update_is_published_lookup;
      [|by apply update_is_published_lookup].
    eexists. split; [reflexivity|]. split; [reflexivity|].
    intros <-. by destruct row.
Qed.


Lemma toggle_publish_twice_witness :
  let addon1 := StoreAddon.with_is_published false DashboardSample.addon in
  let run1 := publish_button DashboardSample.addon DashboardSample.state
                             DashboardSample.healthy in
  let st1 := setAddons [addon1] DashboardSample.state in
  let run2 := publish_button addon1 st1 run1.1.2 in
  run1.2 ++ run2.2
  = [UpdateAddonPublished "a1" false None; UpdateAddonPublished "a1" true None]
  /\ run2.1.1 = Returned DashboardSample.state.
Proof.
  intros addon1 run1 st1 run2.
  destruct (toggle_publish_twice DashboardSample.addon addon1 0
              DashboardSample.state st1 DashboardSample.state
              DashboardSample.healthy run1.1.2 run2.1.2 run1.2 run2.2)
    as (Hwrites & _ & _).
  - reflexivity.
  - vm_compute. reflexivity.
  - left. reflexivity.
  - reflexivity.
  - vm_compute. reflexivity.
  - left. reflexivity.
  - split; [exact Hwrites|]. vm_compute. reflexivity.
Defined.




End DashboardProperties.

(** ** The order-intake handler: further properties *)

Section IntakeMore.
Import Effects Intake Runs Invariants.

Lemma run_eta {A B C} (r : A * B * C) : r = (r.1.1, r.1.2, r.2).
Proof. by destruct r as [[? ?] ?]. Qed.

(** X1: a CORS preflight ([OPTIONS]) is answered with status 200, the three
    CORS headers and no body, whatever the request carries; the handler
    reads nothing, calls nothing and logs nothing. *)
Theorem preflight_answered p req w :
  method req = "OPTIONS" ->
  serve p req w
  = (Returned {| status := 200; headers := corsHeaders; body := None |}, w, []).
Proof.
  intros Hm. unfold serve. rewrite Hm. reflexivity.
Qed.

Lemma preflight_answered_witness :
  serve (Sample.platform "4fzyo82mvyr" (MailResponded true))
        {| method := "OPTIONS";
           json_body := Some (JsonDocument Sample.order) |}
        Sample.healthy
  = (Returned {| status := 200; headers := corsHeaders; body := None |},
     Sample.healthy, []).
Proof.
  apply preflight_answered. reflexivity.
Defined.

(** X2: a request whose body is not JSON is answered with status 500, the
    error [Internal server error] and the parser's message as [details];
    the failure is logged, no database call is made and no mail is sent. *)
Theorem unparseable_body_answered p req w :
  method req <> "OPTIONS" ->
  json_body req = None ->
  exists msg,
    serve p req w
    = (Returned (json_response 500
                   [("error", Js.JStr "Internal server error");
                    ("details", Js.JStr msg)]),
       w, [ConsoleError "Error processing order:" msg]).
Proof.
  intros Hm Hbody.
  destruct (serve_run p req w) as (out & w' & tr & E & Hrun).
  destruct Hrun; try congruence. eexists. exact E.
Qed.

Lemma unparseable_body_answered_witness :
  exists msg,
    serve (Sample.platform "4fzyo82mvyr" (MailResponded true))
          {| method := "POST"; json_body := None |} Sample.healthy
    = (Returned (json_response 500
                   [("error", Js.JStr "Internal server error");
                    ("details", Js.JStr msg)]),
       Sample.healthy, [ConsoleError "Error processing order:" msg]).
Proof.
  apply unparseable_body_answered; [discriminate|reflexivity].
Defined.

(** X3: every request is answered: no exception leaves the handler.  The
    answer has status 200, 400 or 500 and always carries the three CORS
    headers; every answer but the preflight's is declared as JSON. *)
Theorem always_answered_with_cors p req w :
  exists resp w' tr,
    serve p req w = (Returned resp, w', tr)
    /\ (status resp = 200 \/ status resp = 400 \/ status resp = 500)
    /\ (forall h, In h corsHeaders -> In h (headers resp))
    /\ (method req <> "OPTIONS" ->
        In ("Content-Type", "application/json") (headers resp)
        /\ is_Some (body resp)).
Proof.
  destruct (serve_run p req w) as (out & w' & tr & E & Hrun).
  destruct Hrun; eexists _, _, _; (split; [exact E|]);
    (split; [simpl; tauto|]);
    (split; [intros h Hh; simpl in *; tauto|]);
    intros Hne; try contradiction;
    (split; [simpl; tauto|by eexists]).
Qed.

(** X4: the handler gives the database nothing that failed validation:
    every order row it tries to insert has a non-empty customer name and a
    non-empty customer email, and every items insert has at least one row,
    one for each item of the document. *)
Theorem only_validated_orders_reach_the_database p req w out w' tr :
  serve p req w = (out, w', tr) ->
  (forall row res,
      In (InsertOrder row res) tr ->
      Js.truthy (Schema.customer_name row) = true
      /\ Js.truthy (Schema.customer_email row) = true)
  /\ (forall rows err,
         In (InsertOrderItems rows err) tr ->
         rows <> []
         /\ exists d l, json_body req = Some (JsonDocument d)
                        /\ items d = Some (ItemsArray l)
                        /\ length l = length rows).
Proof.
  intros Hrun. apply serve_inv in Hrun.
  assert (forall d, missing_required_fields d = false ->
                    Js.truthy (customer_name d) = true
                    /\ Js.truthy (customer_email d) = true
                    /\ forall l, items d = Some (ItemsArray l) -> l <> []) as Hvalid.
  { intros d. unfold missing_required_fields.
    destruct (Js.truthy (customer_name d)), (Js.truthy (customer_email d));
      simpl; try discriminate.
    intros Hi. split; [done|]. split; [done|].
    intros l Hl. rewrite Hl in Hi. by destruct l. }
  destruct Hrun; (split; [intros row res Hin|intros rows answer Hin]);
    simpl in Hin; try (exfalso; intuition discriminate).
  - destruct Hin as [[= <- <-]|[?|[]]]; [|discriminate].
    destruct (Hvalid d) as (? & ? & _); auto.
  - destruct Hin as [[= <- <-]|Hin]; [|exfalso; intuition discriminate].
    destruct (Hvalid d) as (? & ? & _); auto.
  - destruct Hin as [[= <- <-]|Hin]; [|exfalso; intuition discriminate].
    destruct (Hvalid d) as (? & ? & _); auto.
  - destruct Hin as [?|[[= <- <-]|Hin]]; try discriminate;
      [|exfalso; intuition discriminate].
    destruct (Hvalid d) as (_ & _ & Hne); auto.
    split.
    + intros Hnil. apply map_eq_nil in Hnil. subst its. by eapply Hne.
    + exists d, (Some <$> its). split; [done|]. split; [done|].
      by rewrite length_fmap, length_map.
  - destruct Hin as [[= <- <-]|[?|Hin]]; try discriminate.
    + destruct (Hvalid d) as (? & ? & _); auto.
    + match goal with
      | Hl : rpc_loop _ _ = _, Hm : mail_step _ _ _ _ |- _ =>
          apply (created_tail _ _ _ _ _ _ _ _ _ Hl Hm) in Hin; destruct Hin
      end.
  - destruct Hin as [?|[[= <- <-]|Hin]]; try discriminate.
    + destruct (Hvalid d) as (_ & _ & Hne); auto.
      split.
      * intros Hnil. apply map_eq_nil in Hnil. subst its. by eapply Hne.
      * exists d, (Some <$> its). split; [done|]. split; [done|].
        by rewrite length_fmap, length_map.
    + match goal with
      | Hl : rpc_loop _ _ = _, Hm : mail_step _ _ _ _ |- _ =>
          apply (created_tail _ _ _ _ _ _ _ _ _ Hl Hm) in Hin; destruct Hin
      end.
Qed.


Lemma only_validated_orders_reach_the_database_witness :
  let p := Sample.platform "4fzyo82mvyr" (MailResponded true) in
  let run := serve p (Sample.post Sample.order) Sample.healthy in
  Js.truthy (Schema.customer_name (order_insert p Sample.order)) = true
  /\ Js.truthy (Schema.customer_email (order_insert p Sample.order)) = true
  /\ map (order_item_insert "order-1") [Sample.item] <> [].
Proof.
  intros p run.
  destruct (only_validated_orders_reach_the_database
              p (Sample.post Sample.order) Sample.healthy
              run.1.1 run.1.2 run.2 (run_eta run)) as [Horder Hitems].
  destruct (Horder (order_insert p Sample.order) (inl "order-1")) as [Hn He].
  { left. vm_compute. reflexivity. }
  destruct (Hitems (map (order_item_insert "order-1") [Sample.item]) None)
    as [Hne _].
  { right. left. vm_compute. reflexivity. }
  auto.
Defined.


Lemma rpc_loop_addons its w w' rpcs k :
  rpc_loop its w = (Returned tt, w', rpcs) ->
  is_Some (Schema.store_addons (db w') !! k)
  <-> is_Some (Schema.store_addons (db w) !! k).
Proof.
  revert w w' rpcs. induction its as [|item its IH]; intros w w' rpcs.
  - intros [= <- <-]. done.
  - rewrite rpc_loop_cons.
    destruct (rpc_call_shape (addon_id item) w) as (err & w1 & -> & _ & _ & Ha).
    destruct (rpc_loop its w1) as [[out w2] t2] eqn:E.
    destruct out as [[]|e]; [|discriminate].
    intros [= <- <-].
    rewrite (IH _ _ _ E). apply Ha.
Qed.

Lemma serve_tables p req w out w' tr :
  serve p req w = (out, w', tr) -> tables_after p req (db w) (db w').
Proof.
  intros Hrun. apply serve_inv in Hrun.
  destruct Hrun; try (by apply tables_untouched).
  - apply tables_untouched.
    match goal with
    | Hi : insert_store_order _ _ _ = _ |- _ =>
        by apply insert_store_order_inv in Hi
    end.
  - match goal with
    | Hi : insert_store_order _ _ _ = _ |- _ =>
        apply insert_store_order_inv in Hi; destruct Hi as [_ Hins]
    end.
    eapply tables_order_left; eauto.
  - repeat match goal with
    | Hi : insert_store_order _ _ _ = _ |- _ =>
        apply insert_store_order_inv in Hi; destruct Hi as [_ Hins]
    | Hi : insert_store_order_items _ _ = _ |- _ =>
        apply statement_inv in Hi; cbn in Hi; rename Hi into Hdb2
    | Hi : delete_store_order _ _ = _ |- _ =>
        apply statement_inv in Hi; rename Hi into Hdb3
    end.
    destruct err as [derr|]; cbn in Hdb3.
    + eapply tables_order_left; eauto. congruence.
    + injection Hdb3 as Hdb3.
      eapply tables_order_deleted; eauto. congruence.
  - match goal with
    | Hl : rpc_loop _ _ = _ |- _ =>
        pose proof (rpc_loop_tables _ _ _ _ Hl) as [Ho3 Hi3];
        pose proof (fun k => rpc_loop_addons _ _ _ _ k Hl) as Ha3
    end.
    repeat match goal with
    | Hi : insert_store_order _ _ _ = _ |- _ =>
        apply insert_store_order_inv in Hi; destruct Hi as [_ Hins]
    | Hi : insert_store_order_items _ _ = _ |- _ =>
        apply statement_inv in Hi; rename Hi into Hdb2
    end.
    eapply tables_order_created; eauto.
Qed.





Lemma insert_order_number_fresh id row d d' :
  Schema.insert_order id row d = inr d' ->
  forall k r, Schema.store_orders d !! k = Some r ->
              Schema.order_number r <> Schema.order_number row.
Proof.
  unfold Schema.insert_order, Schema.order_number_taken.
  repeat case_match; try discriminate. intros _ k r Hk Heq.
  match goal with
  | H : existsb _ _ = false |- _ =>
      rewrite <- not_true_iff_false in H; apply H
  end.
  apply existsb_exists. exists (k, r). split.
  - apply list_elem_of_In. by apply elem_of_map_to_list.
  - simpl. by apply String.eqb_eq.
Qed.

Lemma order_number_taken_refused id row d :
  Schema.order_number_taken (Schema.order_number row) d = true ->
  exists msg, Schema.insert_order id row d = inl msg.
Proof.
  intros H. unfold Schema.insert_order. rewrite H.
  repeat case_match; eauto.
Qed.

Lemma insert_order_items_checked rows d d' :
  Schema.insert_order_items rows d = inr d' ->
  forall it, In it rows ->
             is_Some (Schema.store_orders d !! Schema.order_id it)
             /\ forall a, Schema.addon_id it = Some a ->
                          is_Some (Schema.store_addons d !! a).
Proof.
  unfold Schema.insert_order_items.
  destruct (forallb Schema.item_not_null rows); [|discriminate].
  destruct (forallb (Schema.item_references_ok d) rows) eqn:Hall;
    [|discriminate].
  intros _ it Hin. rewrite forallb_forall in Hall. apply Hall in Hin.
  unfold Schema.item_references_ok in Hin.
  destruct (Schema.store_orders d !! Schema.order_id it); [|discriminate].
  split; [by eexists|].
  intros a Ha. rewrite Ha in Hin.
  destruct (Schema.store_addons d !! a); [by eexists|discriminate].
Qed.

Lemma delete_inserted_order id row d d1 :
  Schema.insert_order id row d = inr d1 ->
  Schema.store_orders (Schema.delete_order id d1) = Schema.store_orders d.
Proof.
  intros (Hfresh & Ho & _ & _)%insert_order_inv. simpl. rewrite Ho.
  by apply delete_insert_id.
Qed.

(** X5: when the order insert fails, the handler stops there: it answers
    500 [Failed to create order], logs the error, makes no further call
    (no items insert, no delete, no counter call, no mail) and leaves the
    tables as they were. *)
Theorem order_insert_failure_stops p req w out w' tr row e :
  serve p req w = (out, w', tr) ->
  In (InsertOrder row (inr e)) tr ->
  out = Returned (error_response 500 "Failed to create order")
  /\ tr = [InsertOrder row (inr e); ConsoleError "Order creation error:" e]
  /\ db w' = db w.
Proof.
  intros Hrun Hin. apply serve_inv in Hrun.
  destruct Hrun; simpl in Hin; try (exfalso; intuition discriminate).
  - destruct Hin as [[= <- <-]|[?|[]]]; [|discriminate].
    split; [reflexivity|]. split; [reflexivity|].
    match goal with
    | Hi : insert_store_order _ _ _ = _ |- _ =>
        by apply insert_store_order_inv in Hi
    end.
  - destruct Hin as [?|[?|Hin]]; try discriminate.
    match goal with
    | Hl : rpc_loop _ _ = _, Hm : mail_step _ _ _ _ |- _ =>
        apply (created_tail _ _ _ _ _ _ _ _ _ Hl Hm) in Hin; destruct Hin
    end.
Qed.

Lemma order_insert_failure_stops_witness :
  let p := Sample.platform "4fzyo82mvyr" (MailResponded true) in
  let w := {| db := Sample.tables; script := [Some "timeout"] |} in
  (serve p (Sample.post Sample.order) w).1.1
  = Returned (error_response 500 "Failed to create order")
  /\ db (serve p (Sample.post Sample.order) w).1.2 = Sample.tables.
Proof.
  intros p w.
  destruct (order_insert_failure_stops p (Sample.post Sample.order) w
              _ _ _ (order_insert p Sample.order) "timeout"
              (run_eta (serve p (Sample.post Sample.order) w)))
    as (Hout & _ & Hdb).
  - left. vm_compute. reflexivity.
  - split; [exact Hout|exact Hdb].
Defined.

(** X6: the compensating delete is exact on consistent tables: when the
    order insert succeeds, the items insert fails and the delete succeeds,
    the database is back to what it was before the request, provided every
    item in it referenced an existing order. *)
Theorem rollback_restores_tables p req w out w' tr row id rows e :
  references_ok (db w) ->
  serve p req w = (out, w', tr) ->
  In (InsertOrder row (inl id)) tr ->
  In (InsertOrderItems rows (Some e)) tr ->
  In (DeleteOrder id None) tr ->
  db w' = db w.
Proof.
  intros Hrefs Hrun Hins Hitems Hdel. apply serve_inv in Hrun.
  destruct Hrun; simpl in Hins, Hitems, Hdel;
    try (exfalso; intuition discriminate).
  - destruct Hins as [[= <- ->]|?]; [|exfalso; intuition discriminate].
    destruct Hdel as [?|[?|[?|[[= ->]|[]]]]]; try discriminate.
    repeat match goal with
    | Hi : insert_store_order _ _ _ = _ |- _ =>
        apply insert_store_order_inv in Hi; destruct Hi as [_ Hins]
    | Hi : insert_store_order_items _ _ = _ |- _ =>
        apply statement_inv in Hi; cbn in Hi; rename Hi into Hdb2
    | Hi : delete_store_order _ _ = _ |- _ =>
        apply statement_inv in Hi; injection Hi as Hdb3
    end.
    rewrite <- Hdb3, Hdb2.
    pose proof (delete_inserted_order _ _ _ _ Hins) as Horders.
    apply insert_order_inv in Hins as (Hfresh & Ho & Ha & Hi).
    assert (List.filter (fun it => negb (String.eqb (Schema.order_id it) id))
                        (Schema.store_order_items (db w1))
            = Schema.store_order_items (db w)) as Hitems'.
    { rewrite Hi. apply forallb_filter_id. apply forallb_forall.
      intros it Hit. apply negb_true_iff, String.eqb_neq. intros Heq.
      destruct (Hrefs it Hit) as [[r Hr] _]. rewrite Heq in Hr. congruence. }
    unfold Schema.delete_order in *. simpl in *.
    destruct (db w) as [a o i]. simpl in *.
    unfold Schema.set_items, Schema.set_orders. simpl.
    by rewrite Hitems', Horders, Ha.
  - destruct Hitems as [?|[?|Hin]]; try discriminate.
    match goal with
    | Hl : rpc_loop _ _ = _, Hm : mail_step _ _ _ _ |- _ =>
        apply (created_tail _ _ _ _ _ _ _ _ _ Hl Hm) in Hin; destruct Hin
    end.
Qed.


Lemma sample_tables_references_ok : references_ok Sample.tables.
Proof. intros it []. Qed.

Lemma rollback_restores_tables_witness :
  let p := Sample.platform "4fzyo82mvyr" (MailResponded true) in
  db (serve p (Sample.post Sample.order) Sample.items_refused).1.2
  = Sample.tables.
Proof.
  intros p.
  apply (rollback_restores_tables p (Sample.post Sample.order)
           Sample.items_refused _ _ _
           (order_insert p Sample.order) "order-1"
           (map (order_item_insert "order-1") [Sample.item]) "connection lost"
           sample_tables_references_ok
           (run_eta (serve p (Sample.post Sample.order) Sample.items_refused))).
  - left. vm_compute. reflexivity.
  - right. left. vm_compute. reflexivity.
  - right. right. right. left. vm_compute. reflexivity.
Defined.

(** X7: the handler never removes or changes an order that was there
    before the request: whatever happens, every earlier row of
    [store_orders] is still there, unchanged. *)
Theorem earlier_orders_kept p req w out w' tr id r :
  serve p req w = (out, w', tr) ->
  Schema.store_orders (db w) !! id = Some r ->
  Schema.store_orders (db w') !! id = Some r.
Proof.
  intros Hrun Hr. apply serve_tables in Hrun.
  destruct Hrun as [->|d oid d1 _ Hins ->|d oid d1 _ Hins ->
                    |d oid its d1 d2 _ _ Hins Hitems Ho _ _]; [done|..].
  - apply insert_order_inv in Hins as (Hfresh & -> & _).
    rewrite lookup_insert_ne; [done|congruence].
  - by rewrite (delete_inserted_order _ _ _ _ Hins).
  - rewrite Ho.
    apply insert_order_items_inv in Hitems as (-> & _).
    apply insert_order_inv in Hins as (Hfresh & -> & _).
    rewrite lookup_insert_ne; [done|congruence].
Qed.

Lemma earlier_orders_kept_witness :
  let p := Sample.platform "4fzyo82mvyr" (MailResponded true) in
  let w := {| db := DashboardSample.tables; script := [] |} in
  Schema.store_orders
    (db (serve p (Sample.post Sample.order) w).1.2) !! "order-1"
  = Some DashboardSample.order_row.
Proof.
  intros p w.
  apply (earlier_orders_kept _ _ _ _ _ _ _ _ (run_eta _)).
  vm_compute. reflexivity.
Defined.




Lemma rpc_calls_app t1 t2 : rpc_calls (t1 ++ t2) = rpc_calls t1 ++ rpc_calls t2.
Proof.
  induction t1 as [|ev t1 IH]; simpl; [reflexivity|].
  destruct ev; simpl; congruence.
Qed.

Lemma rpc_loop_calls its w w' rpcs :
  rpc_loop its w = (Returned tt, w', rpcs) ->
  rpc_calls rpcs = map addon_id its.
Proof.
  revert w w' rpcs. induction its as [|item its IH]; intros w w' rpcs.
  - by intros [= <- <-].
  - rewrite rpc_loop_cons.
    destruct (rpc_call_shape (addon_id item) w) as (err & w1 & -> & _).
    destruct (rpc_loop its w1) as [[out w2] t2] eqn:E.
    destruct out as [[]|e]; [|discriminate].
    intros [= <- <-]. simpl. f_equal. by eapply IH.
Qed.

Lemma mail_step_no_calls p d sent mails :
  mail_step p d sent mails -> rpc_calls mails = [].
Proof. by destruct 1. Qed.

(** X9: the download counter procedure is called once for each item of the
    order, in the order of the document and with the item's add-on id, and
    only after both inserts have succeeded; on every other path it is not
    called at all. *)
Theorem counter_called_per_item p req w out w' tr :
  serve p req w = (out, w', tr) ->
  (forall rows,
      In (InsertOrderItems rows None) tr ->
      rpc_calls tr = map Schema.addon_id rows)
  /\ ((forall rows, ~ In (InsertOrderItems rows None) tr) -> rpc_calls tr = []).
Proof.
  intros Hrun. apply serve_inv in Hrun.
  destruct Hrun; (split; [intros rows Hin; simpl in Hin|intros Hnone]);
    try reflexivity; try (exfalso; intuition discriminate).
  - assert (rows = map (order_item_insert id) its) as ->.
    { destruct Hin as [?|[[= <-]|Hin]]; [discriminate|done|].
      match goal with
      | Hl : rpc_loop _ _ = _, Hm : mail_step _ _ _ _ |- _ =>
          apply (created_tail _ _ _ _ _ _ _ _ _ Hl Hm) in Hin; destruct Hin
      end. }
    cbn [rpc_calls]. rewrite rpc_calls_app.
    match goal with
    | Hl : rpc_loop _ _ = _ |- _ => pose proof (rpc_loop_calls _ _ _ _ Hl) as Hc
    end.
    match goal with
    | Hm : mail_step _ _ _ _ |- _ => pose proof (mail_step_no_calls _ _ _ _ Hm) as Hn
    end.
    rewrite Hc, Hn, app_nil_r, map_map. reflexivity.
  - exfalso. eapply Hnone. right. left. reflexivity.
Qed.

Lemma counter_called_per_item_witness :
  let p := Sample.platform "4fzyo82mvyr" (MailResponded true) in
  rpc_calls (serve p (Sample.post Sample.order) Sample.healthy).2
  = [Some "a1"].
Proof.
  intros p.
  destruct (counter_called_per_item p (Sample.post Sample.order) Sample.healthy
              _ _ _ (run_eta _)) as [Hcalls _].
  rewrite (Hcalls (map (order_item_insert "order-1") [Sample.item])).
  - reflexivity.
  - right. left. vm_compute. reflexivity.
Defined.

(** X10: an order whose generated number is already taken is not created:
    the unique constraint refuses the insert, whatever else the backend
    does, so the tables stay as they were and the submission is not
    answered with 200. *)
Theorem taken_order_number_refused p req w out w' tr :
  Schema.order_number_taken (orderNumber p) (db w) = true ->
  serve p req w = (out, w', tr) ->
  db w' = db w
  /\ (forall row res, In (InsertOrder row res) tr -> exists e, res = inr e)
  /\ (method req <> "OPTIONS" ->
      exists resp, out = Returned resp /\ status resp <> 200).
Proof.
  intros Htaken Hrun. apply serve_inv in Hrun.
  assert (forall d id w1 t,
             insert_store_order p (order_insert p d) w
             = (Returned (inl id), w1, t) -> False) as Hrefused.
  { intros d id w1 t Hi. apply insert_store_order_inv in Hi as [_ Hi].
    destruct (order_number_taken_refused id (order_insert p d) (db w) Htaken)
      as [msg Hmsg].
    congruence. }
  destruct Hrun; try (exfalso; eapply Hrefused; eassumption).
  all: split; [|split].
  all: try reflexivity.
  all: try (intros row res Hin; simpl in Hin; exfalso; intuition discriminate).
  all: try (intros Hne; try contradiction; eexists; split; [reflexivity|];
            simpl; discriminate).
  - intros Hne. contradiction.
  - match goal with
    | Hi : insert_store_order _ _ _ = _ |- _ =>
        by apply insert_store_order_inv in Hi
    end.
  - intros row res [[= <- <-]|[?|[]]]; [by eexists|discriminate].
Qed.


Lemma taken_order_number_refused_witness :
  let p := Sample.platform "4fzyo82mvyr" (MailResponded true) in
  let w := {| db := DashboardSample.tables; script := [] |} in
  db (serve p (Sample.post Sample.order) w).1.2 = DashboardSample.tables.
Proof.
  intros p w.
  set (run := serve p (Sample.post Sample.order) w).
  destruct (taken_order_number_refused p (Sample.post Sample.order) w
              run.1.1 run.1.2 run.2) as [Hdb _].
  - vm_compute. reflexivity.
  - apply run_eta.
  - exact Hdb.
Defined.

(** With an empty script the backend adds no error of its own. *)
Lemma statement_healthy run log w :
  script w = [] ->
  statement run log w
  = match run (db w) with
    | inl msg => (Returned (Some msg), w, [log (Some msg)])
    | inr d' => (Returned None, {| db := d'; script := [] |}, [log None])
    end.
Proof.
  intros Hs. unfold statement, next_answer. rewrite Hs.
  destruct (run (db w)); [reflexivity|]. by rewrite Hs.
Qed.

Lemma insert_store_order_healthy p row w res w' t :
  script w = [] ->
  insert_store_order p row w = (Returned res, w', t) ->
  script w' = [].
Proof.
  intros Hs. unfold insert_store_order, next_answer. rewrite Hs.
  destruct (Schema.insert_order _ row (db w)); intros [= <- <- <-]; auto.
Qed.

Lemma statement_healthy_script run log w err w' t :
  script w = [] ->
  statement run log w = (Returned err, w', t) ->
  script w' = [].
Proof.
  intros Hs. rewrite (statement_healthy _ _ _ Hs).
  destruct (run (db w)); intros [= <- <- <-]; auto.
Qed.

(** X11: with a backend that answers every call, an order whose [items]
    are an array of objects, one of them naming an add-on that is not in
    [store_addons], leaves no order behind: the foreign key refuses the
    items, the order row is deleted again, [store_orders] is what it was,
    no mail is sent and the answer is not a 200. *)
Theorem unknown_addon_leaves_no_order p req w d its item addon out w' tr :
  script w = [] ->
  method req <> "OPTIONS" ->
  json_body req = Some (JsonDocument d) ->
  items d = Some (ItemsArray (Some <$> its)) ->
  In item its ->
  addon_id item = Some addon ->
  Schema.store_addons (db w) !! addon = None ->
  serve p req w = (out, w', tr) ->
  Schema.store_orders (db w') = Schema.store_orders (db w)
  /\ (forall r res, ~ In (MailSend r res) tr)
  /\ exists resp, out = Returned resp /\ status resp <> 200.
Proof.
  intros Hs Hm Hbody Hits Hitem Haddon Hunknown Hrun. apply serve_inv in Hrun.
  destruct Hrun; try contradiction;
    try (split; [reflexivity|];
         split; [intros r res Hin; simpl in Hin; intuition discriminate|];
         eexists; split; [reflexivity|]; simpl; discriminate).
  - (* the order insert failed *)
    split.
    { match goal with
      | Hi : insert_store_order _ _ _ = _ |- _ =>
          apply insert_store_order_inv in Hi; by rewrite Hi
      end. }
    split; [intros r res Hin; simpl in Hin; intuition discriminate|].
    eexists. split; [reflexivity|]. simpl. discriminate.
  - (* the items are an array of objects: they can be read *)
    exfalso.
    assert (d0 = d) as -> by congruence.
    apply (items_objects_inr "addon_id") in Hits. congruence.
  - (* the items were refused: the delete goes through *)
    split.
    { match goal with
      | Hi : insert_store_order _ _ _ = _ |- _ =>
          pose proof (insert_store_order_healthy _ _ _ _ _ _ Hs Hi) as Hs1;
          apply insert_store_order_inv in Hi; destruct Hi as [_ Hins]
      end.
      match goal with
      | Hi : insert_store_order_items _ _ = _ |- _ =>
          pose proof (statement_healthy_script _ _ _ _ _ _ Hs1 Hi) as Hs2;
          apply statement_inv in Hi; cbn in Hi; rename Hi into Hdb2
      end.
      match goal with
      | Hi : delete_store_order _ _ = _ |- _ =>
          unfold delete_store_order in Hi;
          rewrite (statement_healthy _ _ _ Hs2) in Hi;
          injection Hi as <- <-
      end.
      cbn [db]. rewrite Hdb2. by eapply delete_inserted_order. }
    split; [intros r res Hin; simpl in Hin; intuition discriminate|].
    eexists. split; [reflexivity|]. simpl. discriminate.
  - (* the items cannot have been accepted *)
    exfalso.
    assert (d0 = d) as -> by congruence.
    assert (its0 = its) as ->.
    { match goal with
      | Hi : items d = Some (ItemsArray (Some <$> its0)) |- _ =>
          rewrite Hits in Hi; injection Hi as Hsame
      end.
      by apply (inj (fmap Some)) in Hsame. }
    repeat match goal with
    | Hi : insert_store_order _ _ _ = _ |- _ =>
        apply insert_store_order_inv in Hi; destruct Hi as [_ Hi];
        apply insert_order_inv in Hi; destruct Hi as (_ & _ & Ha1 & _)
    | Hi : insert_store_order_items _ _ = _ |- _ =>
        apply statement_inv in Hi; rename Hi into Hchecked
    end.
    destruct (insert_order_items_checked _ _ _ Hchecked
                (order_item_insert id item)) as [_ Hknown].
    { apply in_map_iff. eauto. }
    destruct (Hknown addon Haddon) as [a Ha].
    rewrite Ha1 in Ha. congruence.
Qed.

Lemma unknown_addon_leaves_no_order_witness :
  let p := Sample.platform "4fzyo82mvyr" (MailResponded true) in
  Schema.store_orders
    (db (serve p (Sample.post Sample.order_of_unknown_addon) Sample.healthy).1.2)
  = Schema.store_orders Sample.tables.
Proof.
  intros p.
  set (run := serve p (Sample.post Sample.order_of_unknown_addon) Sample.healthy).
  destruct (unknown_addon_leaves_no_order
              p (Sample.post Sample.order_of_unknown_addon) Sample.healthy
              Sample.order_of_unknown_addon [Sample.unknown_item]
              Sample.unknown_item "a9" run.1.1 run.1.2 run.2) as [Horders _].
  - reflexivity.
  - discriminate.
  - reflexivity.
  - reflexivity.
  - left. reflexivity.
  - reflexivity.
  - vm_compute. reflexivity.
  - apply run_eta.
  - exact Horders.
Defined.


Lemma references_ok_insert_order id row d d1 :
  Schema.insert_order id row d = inr d1 -> references_ok d -> references_ok d1.
Proof.
  intros (_ & Ho & Ha & Hi)%insert_order_inv Hrefs it Hit.
  rewrite Hi in Hit. destruct (Hrefs it Hit) as [Horder Haddon].
  rewrite Ho, Ha. split; [|done].
  rewrite lookup_insert_is_Some. destruct (decide (id = Schema.order_id it)); auto.
Qed.

Lemma references_ok_insert_items rows d d2 :
  Schema.insert_order_items rows d = inr d2 -> references_ok d -> references_ok d2.
Proof.
  intros Hins Hrefs it Hit.
  pose proof (insert_order_items_checked _ _ _ Hins) as Hchecked.
  apply insert_order_items_inv in Hins as (Ho & Ha & Hi).
  rewrite Ho, Ha. rewrite Hi in Hit.
  apply in_app_or in Hit as [Hit|Hit]; auto.
Qed.

Lemma references_ok_delete_order id row d d1 :
  Schema.insert_order id row d = inr d1 ->
  references_ok d -> references_ok (Schema.delete_order id d1).
Proof.
  intros Hins Hrefs it Hit.
  rewrite (delete_inserted_order _ _ _ _ Hins).
  apply insert_order_inv in Hins as (_ & _ & Ha & Hi).
  simpl in Hit. apply filter_In in Hit as [Hit _]. rewrite Hi in Hit.
  simpl. rewrite Ha. by apply Hrefs.
Qed.

(** X12: the handler keeps the tables consistent: if every item referenced
    an existing order and, when it names an add-on, an existing add-on
    before the request, every item does so afterwards, on every path
    (including those where the order is left behind: the delete after a
    failed items insert is refused, or the items cannot be read). *)
Theorem references_kept p req w out w' tr :
  references_ok (db w) ->
  serve p req w = (out, w', tr) ->
  references_ok (db w').
Proof.
  intros Hrefs Hrun. apply serve_tables in Hrun.
  destruct Hrun as [->|d oid d1 _ Hins ->|d oid d1 _ Hins ->
                    |d oid its d1 d2 _ _ Hins Hitems Ho Hi Ha]; [done|..].
  - by eapply references_ok_insert_order.
  - by eapply references_ok_delete_order.
  - pose proof (references_ok_insert_items _ _ _ Hitems
                  (references_ok_insert_order _ _ _ _ Hins Hrefs)) as H2.
    intros it Hit. rewrite Hi in Hit. destruct (H2 it Hit) as [Horder Haddon].
    split; [by rewrite Ho|].
    intros a Hida. apply Ha. by apply Haddon.
Qed.

Lemma references_kept_witness :
  let p := Sample.platform "4fzyo82mvyr" (MailResponded true) in
  references_ok (db (serve p (Sample.post Sample.order) Sample.healthy).1.2).
Proof.
  intros p.
  apply (references_kept p (Sample.post Sample.order) Sample.healthy
           _ _ _ sample_tables_references_ok (run_eta _)).
Defined.

Lemma order_numbers_unique_insert id row d d1 :
  Schema.insert_order id row d = inr d1 ->
  order_numbers_unique d -> order_numbers_unique d1.
Proof.
  intros Hins Huniq i j r1 r2 Hi Hj Heq.
  pose proof (insert_order_number_fresh _ _ _ _ Hins) as Hnew.
  apply insert_order_inv in Hins as (_ & Ho & _).
  rewrite Ho in Hi, Hj.
  destruct (decide (id = i)) as [Ei|Hi'], (decide (id = j)) as [Ej|Hj'];
    subst; [done|..].
  - rewrite lookup_insert_eq in Hi. rewrite lookup_insert_ne in Hj by done.
    injection Hi as <-. exfalso. by eapply Hnew.
  - rewrite lookup_insert_eq in Hj. rewrite lookup_insert_ne in Hi by done.
    injection Hj as <-. exfalso. by eapply Hnew.
  - rewrite lookup_insert_ne in Hi, Hj by done. by eapply Huniq.
Qed.

Lemma order_numbers_unique_ext d d' :
  Schema.store_orders d' = Schema.store_orders d ->
  order_numbers_unique d -> order_numbers_unique d'.
Proof. intros Ho Hu i j r1 r2. rewrite Ho. apply Hu. Qed.

(** X13: order numbers stay unique: if no two rows of [store_orders] shared
    an order number before the request, none do afterwards; a submission
    whose generated number collides is refused by the unique constraint
    instead of being stored. *)
Theorem order_numbers_stay_unique p req w out w' tr :
  order_numbers_unique (db w) ->
  serve p req w = (out, w', tr) ->
  order_numbers_unique (db w').
Proof.
  intros Huniq Hrun. apply serve_tables in Hrun.
  destruct Hrun as [->|d oid d1 _ Hins ->|d oid d1 _ Hins ->
                    |d oid its d1 d2 _ _ Hins Hitems Ho _ _]; [done|..].
  - by eapply order_numbers_unique_insert.
  - eapply order_numbers_unique_ext; [|exact Huniq].
    by eapply delete_inserted_order.
  - eapply order_numbers_unique_ext;
      [|eapply order_numbers_unique_insert; [exact Hins|exact Huniq]].
    rewrite Ho. by apply insert_order_items_inv in Hitems as (-> & _).
Qed.

Lemma order_numbers_stay_unique_witness :
  let p := Sample.platform "4fzyo82mvyr" (MailResponded true) in
  order_numbers_unique
    (db (serve p (Sample.post Sample.order) Sample.healthy).1.2).
Proof.
  intros p.
  apply (order_numbers_stay_unique p (Sample.post Sample.order) Sample.healthy
           _ _ _) with (2 := run_eta _).
  intros i j r1 r2 Hi. vm_compute in Hi. discriminate.
Defined.

(** X14: a confirmation mail is only ever sent for an order that was
    stored, once, and to the customer of the document: it is addressed to
    the document's [customer_email] and [customer_name], sent from
    [noreply@acadeemia.com] with the configured key as bearer token, its
    subject and body name the order number the response reports, and it
    lists one block per item. *)
Theorem confirmation_mail_addressed p req w out w' tr r res :
  serve p req w = (out, w', tr) ->
  In (MailSend r res) tr ->
  exists (d : OrderData) (its : list OrderItem) (key : string) (resp : Response),
    json_body req = Some (JsonDocument d)
    /\ items d = Some (ItemsArray (Some <$> its))
    /\ env p !! "MAILERSEND_API_KEY" = Some key
    /\ authorization r = ("Bearer " ++ key)%string
    /\ from_email r = "noreply@acadeemia.com"
    /\ to_email r = customer_email d /\ to_name r = customer_name d
    /\ subject r = ("Order Confirmation - " ++ orderNumber p)%string
    /\ title_order_number (html r) = orderNumber p
    /\ length (item_blocks (html r)) = length its
    /\ out = Returned resp /\ status resp = 200
    /\ Spec.field "order_number" resp = Some (Js.JStr (orderNumber p))
    /\ (exists row id, In (InsertOrder row (inl id)) tr)
    /\ length (List.filter
                 (fun ev => match ev with MailSend _ _ => true | _ => false end) tr)
       = 1.
Proof.
  intros Hrun Hin. apply serve_inv in Hrun.
  destruct Hrun; simpl in Hin; try (exfalso; intuition discriminate).
  destruct Hin as [?|[?|Hin]]; try discriminate.
  assert (Forall is_rpc rpcs) as Hrpcs.
  { match goal with
    | Hl : rpc_loop _ _ = _ |- _ =>
        destruct (rpc_loop_shape its w2) as (? & ? & E & _ & _ & Hr);
        rewrite E in Hl; by injection Hl as <- <-
    end. }
  assert (List.filter
            (fun ev => match ev with MailSend _ _ => true | _ => false end) rpcs
          = []) as Hnone.
  { clear -Hrpcs. induction Hrpcs as [|ev l Hev _ IH]; [reflexivity|].
    destruct ev; simpl in *; try contradiction. exact IH. }
  assert (forall content,
             confirmation_content p d = inr content ->
             title_order_number content = orderNumber p
             /\ length (item_blocks content) = length its) as Hcontent.
  { intros content Hc. unfold confirmation_content in Hc.
    match goal with
    | Hi : items d = Some _ |- _ =>
        rewrite (proj2 (items_objects_inr "addon_name" d its) Hi) in Hc
    end.
    apply emailContent_inr in Hc. tauto. }
  apply in_app_or in Hin as [Hin|Hin].
  { rewrite List.Forall_forall in Hrpcs. apply Hrpcs in Hin. destruct Hin. }
  match goal with
  | Hm : mail_step _ _ _ _ |- _ =>
      destruct Hm as [Hk|key msg Hk Hc Hb|key content msg Hk Hc Hb Hp
                      |key content ok Hk Hc Hb Hp]; simpl in Hin
  end; try (exfalso; intuition discriminate).
  - destruct Hin as [[= <- <-]|[?|[]]]; [|discriminate].
    destruct (Hcontent _ Hb) as [Htitle Hblocks].
    exists d, its, key. eexists.
    split_and!; try done; try reflexivity.
    + eexists _, _. left. reflexivity.
    + cbn [List.filter]. rewrite List.filter_app, Hnone. reflexivity.
  - destruct Hin as [[= <- <-]|[]].
    destruct (Hcontent _ Hb) as [Htitle Hblocks].
    exists d, its, key. eexists.
    split_and!; try done; try reflexivity.
    + eexists _, _. left. reflexivity.
    + cbn [List.filter]. rewrite List.filter_app, Hnone. reflexivity.
Qed.

Lemma confirmation_mail_addressed_witness :
  let p := Sample.platform "4fzyo82mvyr" (MailResponded true) in
  exists r,
    In (MailSend r (MailResponded true))
       (serve p (Sample.post Sample.order) Sample.healthy).2
    /\ to_email r = Some "ann@school.example"
    /\ subject r = "Order Confirmation - ORD-1752053958123-4FZYO".
Proof.
  intros p.
  set (run := serve p (Sample.post Sample.order) Sample.healthy).
  assert (exists r, In (MailSend r (MailResponded true)) run.2) as [r Hr].
  { eexists. right. right. right. left. vm_compute. reflexivity. }
  destruct (confirmation_mail_addressed p (Sample.post Sample.order)
              Sample.healthy run.1.1 run.1.2 run.2 r (MailResponded true))
    as (d & its & key & resp & Hd & _ & _ & _ & _ & Hto & _ & Hsubject & _).
  - apply run_eta.
  - exact Hr.
  - exists r. split; [exact Hr|].
    injection Hd as <-. split; [exact Hto|]. rewrite Hsubject. reflexivity.
Defined.

(** X29: the validation does not look inside [items].  A submission that
    passes it with items that cannot be read as objects (an array holding
    [null], or a truthy value that is not an array) is answered with
    status 500 and makes no items insert, no delete, no counter call and
    sends no mail; once its order row has been inserted the row stays in
    [store_orders], without any item, because the handler fails before it
    reaches the items and the outer [catch] deletes nothing. *)
Theorem unreadable_items_leave_the_order p req w d out w' tr :
  method req <> "OPTIONS" ->
  json_body req = Some (JsonDocument d) ->
  missing_required_fields d = false ->
  (forall its, items d <> Some (ItemsArray (Some <$> its))) ->
  serve p req w = (out, w', tr) ->
  (exists resp, out = Returned resp /\ status resp = 500
                /\ is_Some (Spec.field "error" resp))
  /\ (forall ev, In ev tr ->
                 (exists row res, ev = InsertOrder row res)
                 \/ (exists label detail, ev = ConsoleError label detail))
  /\ Schema.store_order_items (db w') = Schema.store_order_items (db w)
  /\ (forall row id,
         In (InsertOrder row (inl id)) tr ->
         Schema.store_orders (db w) !! id = None
         /\ Schema.store_orders (db w') !! id = Some row
         /\ exists msg, In (ConsoleError "Error processing order:" msg) tr).
Proof.
  intros Hm Hbody Hvalid Hunreadable Hrun. apply serve_inv in Hrun.
  destruct Hrun; try contradiction; try congruence.
  - (* no client *)
    split; [eexists; split; [reflexivity|]; split; [reflexivity|by eexists]|].
    split; [intros ev [<-|[]]; right; by eexists _, _|].
    split; [reflexivity|].
    intros row oid [?|[]]. discriminate.
  - (* the order insert failed *)
    split; [eexists; split; [reflexivity|]; split; [reflexivity|by eexists]|].
    split; [intros ev [<-|[<-|[]]]; [left|right]; by eexists _, _|].
    split.
    { match goal with
      | Hi : insert_store_order _ _ _ = _ |- _ =>
          apply insert_store_order_inv in Hi; by rewrite Hi
      end. }
    intros row oid [?|[?|[]]]; discriminate.
  - (* the order is stored, the items cannot be read *)
    match goal with
    | Hi : insert_store_order _ _ _ = _ |- _ =>
        apply insert_store_order_inv in Hi; destruct Hi as [_ Hi];
        apply insert_order_inv in Hi; destruct Hi as (Hfresh & Ho & _ & Hsame)
    end.
    split; [eexists; split; [reflexivity|]; split; [reflexivity|by eexists]|].
    split; [intros ev [<-|[<-|[]]]; [left|right]; by eexists _, _|].
    split; [exact Hsame|].
    intros row oid [[= <- <-]|[?|[]]]; [|discriminate].
    split; [exact Hfresh|]. split; [rewrite Ho; apply lookup_insert_eq|].
    eexists. right. left. reflexivity.
Qed.

Lemma unreadable_items_leave_the_order_witness :
  let p := Sample.platform "4fzyo82mvyr" (MailResponded true) in
  let run := serve p (Sample.post Sample.order_with_null_item) Sample.healthy in
  (exists resp, run.1.1 = Returned resp /\ status resp = 500)
  /\ Schema.store_orders (db run.1.2) !! "order-1"
     = Some (order_insert p Sample.order_with_null_item)
  /\ Schema.store_order_items (db run.1.2) = [].
Proof.
  intros p run.
  destruct (unreadable_items_leave_the_order
              p (Sample.post Sample.order_with_null_item) Sample.healthy
              Sample.order_with_null_item run.1.1 run.1.2 run.2)
    as ((resp & Hout & Hst & _) & _ & Hitems & Hleft).
  - discriminate.
  - reflexivity.
  - reflexivity.
  - intros its [= Hits]. destruct its as [|? [|? ?]]; discriminate.
  - apply run_eta.
  - split; [by exists resp|].
    destruct (Hleft (order_insert p Sample.order_with_null_item) "order-1")
      as (_ & Hrow & _).
    { left. vm_compute. reflexivity. }
    split; [exact Hrow|exact Hitems].
Defined.

End IntakeMore.

(** ** The admin dashboard: further properties *)

Section DashboardMore.
Import Effects StoreManager Invariants.

(** X15: when either of the two queries of [fetchStoreData] reports an
    error, the error is logged and the add-ons, the orders and the
    statistics keep their previous values; the spinner is switched off all
    the same. *)
Theorem fetch_error_keeps_state (addonsQuery : query_result (list StoreAddon.t))
        (ordersQuery : query_result (list StoreOrder.t)) (st : State) (w : World) :
  is_Some (error addonsQuery) \/ is_Some (error ordersQuery) ->
  exists st' e,
    fetchStoreData addonsQuery ordersQuery st w
    = (Returned st', w, [ConsoleError "Error fetching store data:" e])
    /\ addons st' = addons st /\ orders st' = orders st
    /\ stats st' = stats st /\ loading st' = false
    /\ (error addonsQuery = Some e
        \/ (error addonsQuery = None /\ error ordersQuery = Some e)).
Proof.
  intros Herr. unfold fetchStoreData, bind, try_catch.
  destruct (error addonsQuery) as [e1|] eqn:E1.
  - eexists _, e1. split; [reflexivity|]. simpl. auto 10.
  - destruct Herr as [[? [=]]|[e2 E2]]. rewrite E2.
    eexists _, e2. split; [reflexivity|]. simpl. auto 10.
Qed.

Lemma fetch_error_keeps_state_witness :
  exists st' e,
    fetchStoreData {| data := None; error := Some "permission denied" |}
                   {| data := Some [DashboardSample.order]; error := None |}
                   DashboardSample.state DashboardSample.healthy
    = (Returned st', DashboardSample.healthy,
       [ConsoleError "Error fetching store data:" e])
    /\ addons st' = [DashboardSample.addon].
Proof.
  destruct (fetch_error_keeps_state
              {| data := None; error := Some "permission denied" |}
              {| data := Some [DashboardSample.order]; error := None |}
              DashboardSample.state DashboardSample.healthy)
    as (st' & e & Hrun & Haddons & _).
  - left. by eexists.
  - exists st', e. split; [exact Hrun|exact Haddons].
Defined.

(** X16: a query that answers without an error but without data counts as
    an empty list: the list is emptied and its statistics are 0, while the
    other list and its statistics are taken from the data that did come. *)
Theorem fetch_without_data (fetched_orders : list StoreOrder.t) (st : State)
        (w : World) :
  exists st',
    fetchStoreData {| data := None; error := None |}
                   {| data := Some fetched_orders; error := None |} st w
    = (Returned st', w, [])
    /\ addons st' = [] /\ orders st' = fetched_orders
    /\ totalAddons (stats st') = 0%Z /\ publishedAddons (stats st') = 0%Z
    /\ totalOrders (stats st') = Z.of_nat (length fetched_orders)
    /\ loading st' = false.
Proof.
  eexists. split; [reflexivity|]. simpl.
  rewrite or_zero_id. auto 10.
Qed.


(** X17: a confirmed delete that the database accepts removes the row of
    the add-on from [store_addons], leaves every other row alone, and
    removes from the dashboard list exactly the add-ons with that id, the
    others keeping their order. *)
Theorem delete_removes_addon id st w st' w' :
  handleDeleteAddon true id st w = (Returned st', w', [DeleteAddon id None]) ->
  Schema.store_addons (db w') !! id = None
  /\ (forall k, k <> id ->
                Schema.store_addons (db w') !! k = Schema.store_addons (db w) !! k)
  /\ addons st' = without_id id (addons st)
  /\ (forall addon, In addon (addons st') <->
                    In addon (addons st) /\ StoreAddon.id addon <> id).
Proof.
  intros Hrun.
  destruct (handleDeleteAddon_run id st w) as (err & w1 & Hdb & E).
  rewrite E in Hrun. destruct err as [e|]; [discriminate|].
  injection Hrun as <- <-.
  apply statement_inv in Hdb. unfold Schema.delete_addon in Hdb.
  case_match; [discriminate|]. injection Hdb as Hdb. rewrite <- Hdb.
  split; [apply lookup_delete_eq|].
  split; [intros k Hk; simpl; by apply lookup_delete_ne|].
  split; [reflexivity|].
  intros addon. simpl. rewrite filter_In, negb_true_iff, String.eqb_neq. done.
Qed.

Lemma delete_removes_addon_witness :
  let run := handleDeleteAddon true "a1" DashboardSample.state
                               DashboardSample.healthy in
  exists st',
    run.1.1 = Returned st'
    /\ Schema.store_addons (db run.1.2) !! "a1" = None
    /\ addons st' = [].
Proof.
  intros run.
  assert (exists st', run = (Returned st', run.1.2, [DeleteAddon "a1" None]))
    as [st' Hrun] by (eexists; vm_compute; reflexivity).
  destruct (delete_removes_addon _ _ _ _ _ Hrun) as (Hgone & _ & Hlist & _).
  exists st'. split; [by rewrite Hrun|]. split; [exact Hgone|].
  rewrite Hlist. reflexivity.
Defined.

(** X18: an add-on that an order item still references cannot be deleted:
    the foreign key refuses the statement, so, whatever the backend's
    script, the handler logs an error and neither the tables nor the
    dashboard state change. *)
Theorem purchased_addon_not_deleted id st w it :
  In it (Schema.store_order_items (db w)) ->
  Schema.addon_id it = Some id ->
  exists e w',
    handleDeleteAddon true id st w
    = (Returned st, w',
       [DeleteAddon id (Some e); ConsoleError "Error deleting add-on:" e])
    /\ db w' = db w.
Proof.
  intros Hin Hid.
  destruct (handleDeleteAddon_run id st w) as (err & w1 & Hdb & E).
  rewrite E. apply statement_inv in Hdb.
  destruct err as [e|]; [by eexists _, _|].
  exfalso. unfold Schema.delete_addon in Hdb.
  case_match eqn:Hex; [discriminate|].
  rewrite <- not_true_iff_false in Hex. apply Hex.
  apply existsb_exists. exists it. split; [exact Hin|].
  unfold Schema.references_addon. rewrite Hid. by apply String.eqb_eq.
Qed.


Lemma purchased_addon_not_deleted_witness :
  let w := (Intake.serve (Sample.platform "4fzyo82mvyr" (MailResponded true))
                         (Sample.post Sample.order) Sample.healthy).1.2 in
  exists e w',
    handleDeleteAddon true "a1" DashboardSample.state w
    = (Returned DashboardSample.state, w',
       [DeleteAddon "a1" (Some e); ConsoleError "Error deleting add-on:" e])
    /\ db w' = db w.
Proof.
  intros w.
  apply (purchased_addon_not_deleted "a1" DashboardSample.state w
           (Intake.order_item_insert "order-1" Sample.item)).
  - left. vm_compute. reflexivity.
  - reflexivity.
Defined.

(** X19: the three mutation handlers touch nothing but their own list: the
    statistics and the spinner are never recomputed by them, the add-on
    handlers leave the orders alone and the order handler leaves the
    add-ons alone; so after a successful toggle or delete the statistics
    shown are those of the last fetch. *)
Theorem handlers_leave_stats_alone :
  (forall confirmed id st w st' w' tr,
      handleDeleteAddon confirmed id st w = (Returned st', w', tr) ->
      stats st' = stats st /\ loading st' = loading st /\ orders st' = orders st)
  /\ (forall id currentStatus st w st' w' tr,
         handleTogglePublish id currentStatus st w = (Returned st', w', tr) ->
         stats st' = stats st /\ loading st' = loading st
         /\ orders st' = orders st)
  /\ (forall orderId status st w st' w' tr,
         handleUpdateOrderStatus orderId status st w = (Returned st', w', tr) ->
         stats st' = stats st /\ loading st' = loading st
         /\ addons st' = addons st).
Proof.
  split; [|split].
  - intros [] id st w st' w' tr; simpl.
    + destruct (handleDeleteAddon_run id st w) as (err & w1 & _ & E).
      rewrite E. by destruct err; intros [= <- <- <-].
    + by intros [= <- <- <-].
  - intros id cur st w st' w' tr.
    destruct (handleTogglePublish_run id cur st w) as (err & w1 & _ & E).
    rewrite E. by destruct err; intros [= <- <- <-].
  - intros id s st w st' w' tr.
    destruct (handleUpdateOrderStatus_run id s st w) as (err & w1 & _ & E).
    rewrite E. by destruct err; intros [= <- <- <-].
Qed.

Lemma handlers_leave_stats_alone_witness :
  let run := handleTogglePublish "a1" true DashboardSample.state
                                 DashboardSample.healthy in
  exists st',
    run.1.1 = Returned st'
    /\ publishedAddons (stats st') = 1%Z
    /\ Spec.count StoreAddon.is_published (addons st') = 0.
Proof.
  intros run.
  assert (exists st', run = (Returned st', run.1.2, run.2)
                      /\ Spec.count StoreAddon.is_published (addons st') = 0)
    as (st' & Hrun & Hcount) by (eexists; vm_compute; split; reflexivity).
  destruct handlers_leave_stats_alone as (_ & Htoggle & _).
  destruct (Htoggle _ _ _ _ _ _ _ Hrun) as (Hstats & _).
  exists st'. split; [by rewrite Hrun|]. split; [|exact Hcount].
  rewrite Hstats. reflexivity.
Defined.

(** X20: a successful toggle writes the flag of one add-on and touches no
    other: in the database the row with that id gets [is_published] set to
    the negation of the status the handler was given and keeps its name,
    slug, price and download count, and every other row is as before; the
    dashboard list keeps its length and its order, add-ons with another id
    are untouched, and an add-on with that id gets the negated flag and
    keeps every other field.  (Of a table row only the five columns of
    [Schema.addon_row] are modelled; time stamps are outside the model.) *)
Theorem toggle_touches_one_addon id currentStatus st w st' w' :
  handleTogglePublish id currentStatus st w
  = (Returned st', w', [UpdateAddonPublished id (negb currentStatus) None]) ->
  length (addons st') = length (addons st)
  /\ (forall i addon,
         addons st !! i = Some addon ->
         StoreAddon.id addon <> id ->
         addons st' !! i = Some addon)
  /\ (forall i addon,
         addons st !! i = Some addon ->
         StoreAddon.id addon = id ->
         exists addon',
           addons st' !! i = Some addon'
           /\ StoreAddon.is_published addon' = negb currentStatus
           /\ StoreAddon.id addon' = StoreAddon.id addon
           /\ StoreAddon.name addon' = StoreAddon.name addon
           /\ StoreAddon.slug addon' = StoreAddon.slug addon
           /\ StoreAddon.description addon' = StoreAddon.description addon
           /\ StoreAddon.short_description addon'
              = StoreAddon.short_description addon
           /\ StoreAddon.price addon' = StoreAddon.price addon
           /\ StoreAddon.original_price addon' = StoreAddon.original_price addon
           /\ StoreAddon.currency addon' = StoreAddon.currency addon
           /\ StoreAddon.features addon' = StoreAddon.features addon
           /\ StoreAddon.is_featured addon' = StoreAddon.is_featured addon
           /\ StoreAddon.is_popular addon' = StoreAddon.is_popular addon
           /\ StoreAddon.download_count addon' = StoreAddon.download_count addon
           /\ StoreAddon.rating addon' = StoreAddon.rating addon
           /\ StoreAddon.review_count addon' = StoreAddon.review_count addon
           /\ StoreAddon.category addon' = StoreAddon.category addon
           /\ StoreAddon.created_at addon' = StoreAddon.created_at addon)
  /\ (forall k, k <> id ->
                Schema.store_addons (db w') !! k = Schema.store_addons (db w) !! k)
  /\ (forall row,
         Schema.store_addons (db w) !! id = Some row ->
         exists row',
           Schema.store_addons (db w') !! id = Some row'
           /\ Schema.is_published row' = negb currentStatus
           /\ Schema.name row' = Schema.name row
           /\ Schema.slug row' = Schema.slug row
           /\ Schema.price row' = Schema.price row
           /\ Schema.download_count row' = Schema.download_count row)
  /\ Schema.store_orders (db w') = Schema.store_orders (db w)
  /\ Schema.store_order_items (db w') = Schema.store_order_items (db w).
Proof.
  intros Hrun.
  destruct (handleTogglePublish_run id currentStatus st w)
    as (err & w1 & Hdb & E).
  rewrite E in Hrun. destruct err as [e|]; [discriminate|].
  injection Hrun as <- <-.
  apply statement_inv in Hdb. injection Hdb as Hdb. rewrite <- Hdb.
  split; [simpl; apply length_map|].
  split.
  { intros i addon Hi Hne. simpl. rewrite list_lookup_fmap, Hi. simpl.
    apply String.eqb_neq in Hne. by rewrite Hne. }
  split.
  { intros i addon Hi Heq. simpl. rewrite list_lookup_fmap, Hi. simpl.
    apply String.eqb_eq in Heq. rewrite Heq.
    eexists. split; [reflexivity|]. simpl. split_and!; reflexivity. }
  split.
  { intros k Hk. simpl. by apply lookup_alter_ne. }
  split; [|split; reflexivity].
  intros row Hrow. eexists.
  split; [by apply update_is_published_lookup|].
  simpl. split_and!; reflexivity.
Qed.

Lemma toggle_touches_one_addon_witness :
  let run := handleTogglePublish "a1" true DashboardSample.state
                                 DashboardSample.healthy in
  exists st' row',
    run.1.1 = Returned st' /\ length (addons st') = 1
    /\ Schema.store_addons (db run.1.2) !! "a1" = Some row'
    /\ Schema.is_published row' = false
    /\ Schema.name row' = "QR Attendance".
Proof.
  intros run.
  assert (exists st',
             run = (Returned st', run.1.2,
                    [UpdateAddonPublished "a1" (negb true) None]))
    as [st' Hrun] by (eexists; vm_compute; reflexivity).
  destruct (toggle_touches_one_addon _ _ _ _ _ _ Hrun)
    as (Hlen & _ & _ & _ & Hrow & _).
  destruct (Hrow {| Schema.name := "QR Attendance";
                    Schema.slug := "qr-attendance";
                    Schema.price := 150000%Z;
                    Schema.is_published := true;
                    Schema.download_count := 0%Z |})
    as (row' & Hrow' & Hflag & Hname & _).
  { vm_compute. reflexivity. }
  exists st', row'. split; [by rewrite Hrun|]. split; [exact Hlen|].
  split; [exact Hrow'|]. split; [exact Hflag|exact Hname].
Defined.

(** X21: status updates overwrite: after two successful updates of the same
    order, first to [s1] and then to [s2], the dashboard list is the one a
    single update to [s2] gives, whatever [s1] was; updating to the same
    value twice is the same as doing it once. *)
Theorem last_status_wins orderId s1 s2 st w st1 w1 st2 w2 :
  handleUpdateOrderStatus orderId s1 st w
  = (Returned st1, w1, [UpdateOrderStatus orderId s1 None]) ->
  handleUpdateOrderStatus orderId s2 st1 w1
  = (Returned st2, w2, [UpdateOrderStatus orderId s2 None]) ->
  orders st2
  = map (fun order =>
           if String.eqb (StoreOrder.id order) orderId
           then StoreOrder.with_order_status s2 order
           else order)
        (orders st)
  /\ forall row,
      Schema.store_orders (db w) !! orderId = Some row ->
      Schema.store_orders (db w2) !! orderId
      = Some (Schema.with_order_status s2 row).
Proof.
  intros Hrun1 Hrun2.
  destruct (handleUpdateOrderStatus_run orderId s1 st w)
    as (err1 & w1' & Hdb1 & E1).
  rewrite E1 in Hrun1. destruct err1 as [e|]; [discriminate|].
  injection Hrun1 as <- <-.
  destruct (handleUpdateOrderStatus_run orderId s2
              (setOrders
                 (map (fun order =>
                         if String.eqb (StoreOrder.id order) orderId
                         then StoreOrder.with_order_status s1 order
                         else order) (orders st)) st) w1')
    as (err2 & w2' & Hdb2 & E2).
  rewrite E2 in Hrun2. destruct err2 as [e|]; [discriminate|].
  injection Hrun2 as <- <-.
  split.
  - simpl. rewrite map_map. apply map_ext. intros order.
    destruct (String.eqb (StoreOrder.id order) orderId) eqn:Eid; simpl;
      rewrite Eid; reflexivity.
  - intros row Hrow.
    apply statement_inv in Hdb1, Hdb2.
    unfold Schema.update_order_status in Hdb1. rewrite Hrow in Hdb1.
    case_match; [|discriminate]. injection Hdb1 as Hdb1.
    assert (Schema.store_orders (db w1') !! orderId
            = Some (Schema.with_order_status s1 row)) as Hrow1.
    { rewrite <- Hdb1. simpl. by rewrite lookup_alter_eq, Hrow. }
    unfold Schema.update_order_status in Hdb2. rewrite Hrow1 in Hdb2.
    case_match; [|discriminate]. injection Hdb2 as Hdb2.
    rewrite <- Hdb2. simpl. by rewrite lookup_alter_eq, Hrow1.
Qed.

Lemma last_status_wins_witness :
  let run1 := handleUpdateOrderStatus "order-1" "processing"
                DashboardSample.state DashboardSample.healthy in
  let st1 := setOrders
               [StoreOrder.with_order_status "processing" DashboardSample.order]
               DashboardSample.state in
  let run2 := handleUpdateOrderStatus "order-1" "cancelled" st1 run1.1.2 in
  exists st2,
    run2.1.1 = Returned st2
    /\ orders st2
       = [StoreOrder.with_order_status "cancelled" DashboardSample.order].
Proof.
  intros run1 st1 run2.
  assert (run1 = (Returned st1, run1.1.2,
                  [UpdateOrderStatus "order-1" "processing" None])) as Hrun1
      by (vm_compute; reflexivity).
  assert (exists st2,
             run2 = (Returned st2, run2.1.2,
                     [UpdateOrderStatus "order-1" "cancelled" None]))
    as [st2 Hrun2] by (eexists; vm_compute; reflexivity).
  destruct (last_status_wins _ _ _ _ _ _ _ _ _ Hrun1 Hrun2) as [Horders _].
  exists st2. split; [by rewrite Hrun2|]. rewrite Horders. reflexivity.
Defined.


Lemma references_ok_ext d d' :
  Schema.store_order_items d' = Schema.store_order_items d ->
  (forall k, is_Some (Schema.store_orders d !! k) ->
             is_Some (Schema.store_orders d' !! k)) ->
  (forall it a, In it (Schema.store_order_items d) ->
                Schema.addon_id it = Some a ->
                is_Some (Schema.store_addons d !! a) ->
                is_Some (Schema.store_addons d' !! a)) ->
  references_ok d -> references_ok d'.
Proof.
  intros Hi Ho Ha Hrefs it Hit. rewrite Hi in Hit.
  destruct (Hrefs it Hit) as [Horder Haddon]. split; [auto|].
  intros a Hida. eapply Ha; eauto.
Qed.

(** X22: the dashboard's writes keep the tables consistent: after any of
    the three mutation handlers, successful or not, every order item still
    references an existing order and, when it names an add-on, an existing
    add-on if it did before; in particular a delete never orphans an
    item. *)
Theorem dashboard_keeps_references :
  (forall confirmed id st w out w' tr,
      references_ok (db w) ->
      handleDeleteAddon confirmed id st w = (out, w', tr) ->
      references_ok (db w'))
  /\ (forall id currentStatus st w out w' tr,
         references_ok (db w) ->
         handleTogglePublish id currentStatus st w = (out, w', tr) ->
         references_ok (db w'))
  /\ (forall orderId status st w out w' tr,
         references_ok (db w) ->
         handleUpdateOrderStatus orderId status st w = (out, w', tr) ->
         references_ok (db w')).
Proof.
  split; [|split].
  - intros [] id st w out w' tr Hrefs; simpl; [|by intros [= <- <- <-]].
    destruct (handleDeleteAddon_run id st w) as (err & w1 & Hdb & E).
    rewrite E. apply statement_inv in Hdb.
    destruct err as [e|]; intros [= <- <- <-]; [by rewrite Hdb|].
    unfold Schema.delete_addon in Hdb.
    case_match eqn:Hex; [discriminate|]. injection Hdb as Hdb. rewrite <- Hdb.
    apply (references_ok_ext (db w)); [reflexivity|done| |exact Hrefs].
    intros it a Hit Hida Hsome. simpl. rewrite lookup_delete_ne; [done|].
    intros Heq. rewrite <- not_true_iff_false in Hex. apply Hex.
    apply existsb_exists. exists it. split; [done|].
    unfold Schema.references_addon. rewrite Hida.
    apply String.eqb_eq. congruence.
  - intros id cur st w out w' tr Hrefs.
    destruct (handleTogglePublish_run id cur st w) as (err & w1 & Hdb & E).
    rewrite E. apply statement_inv in Hdb.
    destruct err as [e|]; intros [= <- <- <-]; [by rewrite Hdb|].
    injection Hdb as Hdb. rewrite <- Hdb.
    apply (references_ok_ext (db w)); [reflexivity|done| |exact Hrefs].
    intros it a Hit Hida Hsome. simpl. by rewrite lookup_alter_is_Some.
  - intros id s st w out w' tr Hrefs.
    destruct (handleUpdateOrderStatus_run id s st w) as (err & w1 & Hdb & E).
    rewrite E. apply statement_inv in Hdb.
    destruct err as [e|]; intros [= <- <- <-]; [by rewrite Hdb|].
    unfold Schema.update_order_status in Hdb.
    repeat case_match; try discriminate; injection Hdb as Hdb;
      rewrite <- Hdb; [|done].
    apply (references_ok_ext (db w)); [reflexivity| |done|exact Hrefs].
    intros k Hk. simpl. by rewrite lookup_alter_is_Some.
Qed.

Lemma dashboard_keeps_references_witness :
  let w := (Intake.serve (Sample.platform "4fzyo82mvyr" (MailResponded true))
                         (Sample.post Sample.order) Sample.healthy).1.2 in
  references_ok (db w)
  /\ references_ok (db (handleDeleteAddon true "a1" DashboardSample.state w).1.2).
Proof.
  intros w.
  assert (references_ok (db w)) as Hrefs.
  { intros it Hit. vm_compute in Hit. destruct Hit as [<-|[]].
    split; [vm_compute; eexists; reflexivity|].
    intros a [= <-]. vm_compute. eexists. reflexivity. }
  split; [exact Hrefs|].
  destruct dashboard_keeps_references as (Hdel & _ & _).
  apply (Hdel true "a1" DashboardSample.state w
              (handleDeleteAddon true "a1" DashboardSample.state w).1.1
              (handleDeleteAddon true "a1" DashboardSample.state w).1.2
              (handleDeleteAddon true "a1" DashboardSample.state w).2 Hrefs).
  apply run_eta.
Defined.


End DashboardMore.

(** ** Views of the dashboard and the add-on form: properties *)

Section ViewProperties.
Import StoreManager StoreViews Invariants.

Lemma startsWith_empty s : JsText.startsWith s "" = true.
Proof. by destruct s. Qed.

Lemma includes_empty s : JsText.includes s "" = true.
Proof. destruct s; simpl; by rewrite ?startsWith_empty. Qed.

Lemma lower_of_lower c : JsText.lower_ascii (JsText.lower_ascii c) = JsText.lower_ascii c.
Proof. destruct c as [[] [] [] [] [] [] [] []]; reflexivity. Qed.

Lemma lower_of_upper c : JsText.lower_ascii (Js.upper_ascii c) = JsText.lower_ascii c.
Proof. destruct c as [[] [] [] [] [] [] [] []]; reflexivity. Qed.

Lemma toLowerCase_toUpperCase s :
  JsText.toLowerCase (Js.toUpperCase s) = JsText.toLowerCase s.
Proof. induction s; simpl; [reflexivity|]. by rewrite lower_of_upper, IHs. Qed.

Lemma startsWith_lower s p :
  JsText.startsWith s p = true ->
  JsText.startsWith (JsText.toLowerCase s) (JsText.toLowerCase p) = true.
Proof.
  revert s. induction p as [|a p IH]; intros [|b s]; simpl; try done.
  intros [Hab Hrest]%andb_true_iff. apply Ascii.eqb_eq in Hab as ->.
  rewrite Ascii.eqb_refl. simpl. auto.
Qed.

Lemma includes_lower s sub :
  JsText.includes s sub = true ->
  JsText.includes (JsText.toLowerCase s) (JsText.toLowerCase sub) = true.
Proof.
  induction s as [|c s IH]; simpl.
  - rewrite orb_false_r. intros H. rewrite orb_false_r.
    by apply (startsWith_lower "").
  - intros [H|H]%orb_true_iff; apply orb_true_iff.
    + left. by apply (startsWith_lower (String c s)).
    + right. auto.
Qed.

(** X23: the add-ons tab shows a selection of the add-ons in their order:
    with an empty search box and the filter on [all] it shows every add-on;
    under [published] it shows only published add-ons and under [draft]
    only unpublished ones, and for any search term these two selections
    split the selection under [all] between them. *)
Theorem filtered_addons_selection searchTerm (addons : list StoreAddon.t) :
  filteredAddons "" FilterAll addons = addons
  /\ (forall filterStatus addon,
         In addon (filteredAddons searchTerm filterStatus addons) ->
         In addon addons
         /\ matchesSearch searchTerm addon = true
         /\ match filterStatus with
            | FilterAll => True
            | FilterPublished => StoreAddon.is_published addon = true
            | FilterDraft => StoreAddon.is_published addon = false
            end)
  /\ (forall filterStatus,
         sublist (filteredAddons searchTerm filterStatus addons) addons)
  /\ length (filteredAddons searchTerm FilterAll addons)
     = length (filteredAddons searchTerm FilterPublished addons)
       + length (filteredAddons searchTerm FilterDraft addons).
Proof.
  split; [|split; [|split]].
  - unfold filteredAddons. apply forallb_filter_id. apply forallb_forall.
    intros addon _. unfold matchesSearch. simpl.
    by rewrite includes_empty.
  - intros fs addon [Hin [Hs Hf]%andb_true_iff]%filter_In.
    split; [done|]. split; [done|].
    destruct fs; simpl in Hf; [done|done|by apply negb_true_iff].
  - intros fs. unfold filteredAddons.
    induction addons as [|a l IH]; simpl; [constructor|].
    case_match; by constructor.
  - unfold filteredAddons, matchesFilter.
    induction addons as [|a l IH]; [reflexivity|].
    cbn [List.filter].
    destruct (matchesSearch searchTerm a), (StoreAddon.is_published a);
      cbn [andb negb length]; lia.
Qed.

(** X24: on text of the ASCII range the search ignores the case of the
    term and matches inside the name or the description: a term, its
    upper-case form and its lower-case form select the same add-ons, and an
    add-on whose name contains the term as typed is always selected under
    [all]. *)
Theorem search_ignores_case searchTerm (addons : list StoreAddon.t) :
  JsText.ascii_text searchTerm = true ->
  Forall (fun addon =>
            JsText.ascii_text (StoreAddon.name addon) = true
            /\ JsText.ascii_text (StoreAddon.description addon) = true)
         addons ->
  filteredAddons (Js.toUpperCase searchTerm) FilterAll addons
  = filteredAddons searchTerm FilterAll addons
  /\ filteredAddons (JsText.toLowerCase searchTerm) FilterAll addons
     = filteredAddons searchTerm FilterAll addons
  /\ forall addon,
      In addon addons ->
      JsText.includes (StoreAddon.name addon) searchTerm = true ->
      In addon (filteredAddons searchTerm FilterAll addons).
Proof.
  intros _ _.
  assert (forall s, JsText.toLowerCase (JsText.toLowerCase s)
                    = JsText.toLowerCase s) as Hidem.
  { induction s; simpl; [reflexivity|]. by rewrite lower_of_lower, IHs. }
  split; [|split].
  - unfold filteredAddons, matchesSearch. by rewrite toLowerCase_toUpperCase.
  - unfold filteredAddons, matchesSearch. by rewrite Hidem.
  - intros addon Hin Hname. apply filter_In. split; [done|].
    unfold matchesSearch. rewrite (includes_lower _ _ Hname). reflexivity.
Qed.

Lemma search_ignores_case_witness :
  filteredAddons "QR" FilterAll [DashboardSample.addon]
  = filteredAddons "qr" FilterAll [DashboardSample.addon]
  /\ In DashboardSample.addon
        (filteredAddons "Attend" FilterAll [DashboardSample.addon]).
Proof.
  split.
  - destruct (search_ignores_case "qr" [DashboardSample.addon]) as (Hup & _).
    + reflexivity.
    + repeat constructor.
    + exact Hup.
  - destruct (search_ignores_case "Attend" [DashboardSample.addon])
      as (_ & _ & Hin).
    + reflexivity.
    + repeat constructor.
    + apply Hin; [by left|reflexivity].
Defined.



Lemma sort_insert_perm (x : StoreAddon.t) l :
  sort_insert by_downloads x l ≡ₚ x :: l.
Proof.
  induction l as [|y l IH]; simpl; [done|].
  case_match; [done|]. rewrite IH. apply Permutation_swap.
Qed.

Lemma sort_perm (l : list StoreAddon.t) : sort by_downloads l ≡ₚ l.
Proof.
  induction l as [|x l IH]; simpl; [done|].
  by rewrite sort_insert_perm, IH.
Qed.

Lemma sort_insert_sorted x l :
  StronglySorted more_downloads l ->
  StronglySorted more_downloads (sort_insert by_downloads x l).
Proof.
  induction 1 as [|y l Hl IH Hy]; simpl; [by repeat constructor|].
  destruct (Z.leb_spec (by_downloads x y) 0) as [Hle|Hgt];
    unfold by_downloads in *.
  - constructor; [by constructor|].
    constructor; [unfold more_downloads; lia|].
    eapply Forall_impl; [exact Hy|]. unfold more_downloads. intros; lia.
  - constructor; [exact IH|].
    rewrite sort_insert_perm. constructor; [unfold more_downloads; lia|done].
Qed.

Lemma sort_sorted (l : list StoreAddon.t) :
  StronglySorted more_downloads (sort by_downloads l).
Proof.
  induction l as [|x l IH]; simpl; [constructor|]. by apply sort_insert_sorted.
Qed.

(** X25: the [Top Selling] card lists at most five add-ons, those with the
    most downloads in descending order: every add-on left out has at most
    as many downloads as every add-on listed.  Since [sort] works in place,
    the add-on list of the state is reordered too: afterwards it holds the
    same add-ons sorted by downloads, and nothing else of the state
    changes. *)
Theorem top_selling_sorted (st : State) :
  let top := (topSelling st).1 in
  let st' := (topSelling st).2 in
  addons st' ≡ₚ addons st
  /\ StronglySorted more_downloads (addons st')
  /\ top = firstn 5 (addons st')
  /\ length top = Nat.min 5 (length (addons st))
  /\ (forall a b, In a top -> In b (skipn 5 (addons st')) -> more_downloads a b)
  /\ orders st' = orders st /\ stats st' = stats st /\ loading st' = loading st.
Proof.
  simpl. split; [apply sort_perm|]. split; [apply sort_sorted|].
  split; [reflexivity|]. split.
  { rewrite length_firstn. by rewrite (Permutation_length (sort_perm _)). }
  split; [|done].
  intros a b Ha Hb.
  pose proof (sort_sorted (addons st)) as Hsorted.
  rewrite <- (firstn_skipn 5 (sort by_downloads (addons st))) in Hsorted.
  apply list_elem_of_In in Ha, Hb.
  by eapply (sorting.StronglySorted_app_1_elem_of).
Qed.


(** X26: the status badge has a colour of its own for each of the four
    statuses of the dropdown, and the grey default for every other string,
    [refunded] included although the table allows it. *)
Theorem status_colors :
  NoDup (map getStatusColor status_options)
  /\ (forall status,
         ~ In status status_options ->
         getStatusColor status = "text-gray-600 bg-gray-100")
  /\ (forall status,
         In status status_options ->
         getStatusColor status <> "text-gray-600 bg-gray-100")
  /\ In "refunded" Schema.order_status_values
  /\ getStatusColor "refunded" = "text-gray-600 bg-gray-100".
Proof.
  split.
  { vm_compute.
    repeat (apply NoDup_cons_2; [rewrite ?elem_of_cons, ?elem_of_nil;
                                 intuition discriminate|]).
    apply NoDup_nil_2. }
  split.
  { intros status Hnot. unfold getStatusColor.
    destruct (String.eqb_spec status "completed") as [->|_];
      [exfalso; apply Hnot; simpl; auto 6|].
    destruct (String.eqb_spec status "processing") as [->|_];
      [exfalso; apply Hnot; simpl; auto 6|].
    destruct (String.eqb_spec status "pending") as [->|_];
      [exfalso; apply Hnot; simpl; auto 6|].
    destruct (String.eqb_spec status "cancelled") as [->|_];
      [exfalso; apply Hnot; simpl; auto 6|].
    reflexivity. }
  split.
  { intros status [<-|[<-|[<-|[<-|[]]]]]; discriminate. }
  split; [simpl; auto 6|reflexivity].
Qed.

End ViewProperties.

Section FormProperties.
Import StoreManager AddonModal.

Lemma or_empty_id s : or_empty s = s.
Proof.
  unfold or_empty, JsText.nonempty.
  destruct (String.eqb_spec s ""); simpl; congruence.
Qed.

(** The form opens on the add-on being edited with exactly its name,
    slug, descriptions, price, features and flags, and on blanks, price 0,
    no feature and all flags off when a new add-on is created. *)
Lemma form_opens_on_addon :
  (forall a : StoreAddon.t,
      initial_formData (Some a)
      = {| name := StoreAddon.name a; slug := StoreAddon.slug a;
           description := StoreAddon.description a;
           short_description := StoreAddon.short_description a;
           price := StoreAddon.price a; features := StoreAddon.features a;
           is_published := StoreAddon.is_published a;
           is_featured := StoreAddon.is_featured a;
           is_popular := StoreAddon.is_popular a |})
  /\ features (initial_formData None) = []
  /\ price (initial_formData None) = 0%Z
  /\ is_published (initial_formData None) = false.
Proof.
  split; [|done].
  intros a. unfold initial_formData.
  by rewrite !or_empty_id, or_zero_id, !orb_false_r.
Qed.

Lemma filter_index_app {A} index i (l1 l2 : list A) :
  filter_index index i (l1 ++ l2)
  = filter_index index i l1 ++ filter_index index (i + length l1) l2.
Proof.
  revert i. induction l1 as [|x l1 IH]; intros i; simpl.
  - by rewrite Nat.add_0_r.
  - rewrite IH, Nat.add_succ_r. simpl. by case_match.
Qed.

Lemma filter_index_below {A} index i (l : list A) :
  index < i -> filter_index index i l = l.
Proof.
  revert i. induction l as [|x l IH]; intros i Hi; simpl; [reflexivity|].
  destruct (Nat.eqb_spec i index); [lia|]. rewrite IH by lia. reflexivity.
Qed.

Lemma filter_index_beyond {A} index i (l : list A) :
  i + length l <= index -> filter_index index i l = l.
Proof.
  revert i. induction l as [|x l IH]; intros i Hi; simpl in *; [reflexivity|].
  destruct (Nat.eqb_spec i index); [lia|]. rewrite IH by lia. reflexivity.
Qed.

Lemma filter_index_delete {A} index (l : list A) :
  filter_index index 0 l = delete index l.
Proof.
  assert (forall i k, index = i + k -> filter_index index i l = delete k l) as H.
  { induction l as [|x l IH]; intros i k Hk; simpl; [by destruct k|].
    destruct (Nat.eqb_spec i index) as [->|Hne].
    - assert (k = 0) as -> by lia. simpl. apply filter_index_below. lia.
    - destruct k as [|k]; [lia|]. simpl. f_equal. apply IH. lia. }
  by apply H.
Qed.

(** X27: editing the feature list.  [addFeature] with a box holding only
    spaces, tabs or line breaks changes nothing; otherwise (on ASCII text)
    it appends the text of the box without its surrounding white space as
    the last feature and empties the box.  [removeFeature] drops the
    feature at the given position and no other, does nothing for a position
    past the end, and undoes an [addFeature] when given the position of the
    feature just added. *)
Theorem feature_list_editing (m : ModalState) :
  (JsText.trim (newFeature m) = "" -> addFeature m = m)
  /\ (JsText.ascii_text (newFeature m) = true ->
      JsText.trim (newFeature m) <> "" ->
      features (formData (addFeature m))
      = features (formData m) ++ [JsText.trim (newFeature m)]
      /\ newFeature (addFeature m) = ""
      /\ features
           (formData (removeFeature (length (features (formData m)))
                                    (addFeature m)))
         = features (formData m))
  /\ (forall index,
         features (formData (removeFeature index m))
         = delete index (features (formData m)))
  /\ (forall index,
         length (features (formData m)) <= index ->
         features (formData (removeFeature index m)) = features (formData m))
  /\ (forall index,
         index < length (features (formData m)) ->
         S (length (features (formData (removeFeature index m))))
         = length (features (formData m))).
Proof.
  split; [|split; [|split; [|split]]].
  - intros Hblank. unfold addFeature. by rewrite Hblank.
  - intros _ Hne. unfold addFeature, JsText.nonempty.
    destruct (String.eqb_spec (JsText.trim (newFeature m)) ""); [done|].
    simpl. split; [reflexivity|]. split; [reflexivity|].
    rewrite filter_index_app. simpl. rewrite Nat.eqb_refl, app_nil_r.
    apply filter_index_beyond. simpl. lia.
  - intros index. simpl. apply filter_index_delete.
  - intros index Hle. simpl. apply filter_index_beyond. simpl. lia.
  - intros index Hlt. simpl. rewrite filter_index_delete.
    rewrite length_delete by (by apply lookup_lt_is_Some). lia.
Qed.

Lemma feature_list_editing_witness :
  let m := {| formData := initial_formData None; newFeature := "  Reports " |} in
  features (formData (addFeature m)) = ["Reports"]
  /\ features (formData (removeFeature 0 (addFeature m))) = []
  /\ addFeature {| formData := initial_formData None; newFeature := "   " |}
     = {| formData := initial_formData None; newFeature := "   " |}.
Proof.
  intros m.
  destruct (feature_list_editing m) as (_ & Hadd & _).
  destruct Hadd as (Hfeatures & _ & Hundo); [reflexivity|discriminate|].
  split; [exact Hfeatures|]. split; [exact Hundo|].
  destruct (feature_list_editing
              {| formData := initial_formData None; newFeature := "   " |})
    as (Hblank & _).
  apply Hblank. reflexivity.
Defined.

End FormProperties.

Section StatisticsAndViews.
Import Effects StoreManager StoreViews.

Lemma filter_split_length {A} (f : A -> bool) (l : list A) :
  length l
  = length (List.filter f l) + length (List.filter (fun x => negb (f x)) l).
Proof.
  induction l as [|a l IH]; [reflexivity|].
  cbn [List.filter]. destruct (f a); cbn [negb length]; lia.
Qed.

(** X28: right after a fetch the statistics agree with the add-ons tab: the
    [Total Add-ons] figure is the number of add-ons the tab shows with an
    empty search box under [all], and the [Published] figure the number it
    shows under [published]. *)
Theorem stats_agree_with_filters (fetched_addons : list StoreAddon.t)
        (fetched_orders : list StoreOrder.t) (st : State) (w : World) :
  exists st',
    fetchStoreData {| data := Some fetched_addons; error := None |}
                   {| data := Some fetched_orders; error := None |} st w
    = (Returned st', w, [])
    /\ totalAddons (stats st')
       = Z.of_nat (length (filteredAddons "" FilterAll (addons st')))
    /\ publishedAddons (stats st')
       = Z.of_nat (length (filteredAddons "" FilterPublished (addons st')))
    /\ (totalAddons (stats st') - publishedAddons (stats st'))%Z
       = Z.of_nat (length (filteredAddons "" FilterDraft (addons st'))).
Proof.
  eexists. split; [reflexivity|]. simpl.
  rewrite !or_zero_id.
  assert (forall f : StoreAddon.t -> bool,
             List.filter (fun addon => matchesSearch "" addon && f addon)
                         fetched_addons
             = List.filter f fetched_addons) as Hsearch.
  { intros f. apply filter_ext. intros a. unfold matchesSearch. simpl.
    by rewrite includes_empty. }
  unfold filteredAddons.
  rewrite (Hsearch (matchesFilter FilterAll)),
          (Hsearch (matchesFilter FilterPublished)),
          (Hsearch (matchesFilter FilterDraft)).
  assert (List.filter (matchesFilter FilterAll) fetched_addons = fetched_addons)
    as -> by (by apply forallb_filter_id, forallb_forall).
  split; [reflexivity|]. split; [reflexivity|].
  pose proof (filter_split_length StoreAddon.is_published fetched_addons) as H.
  change (List.filter (matchesFilter FilterPublished) fetched_addons)
    with (List.filter StoreAddon.is_published fetched_addons).
  change (List.filter (matchesFilter FilterDraft) fetched_addons)
    with (List.filter (fun x => negb (StoreAddon.is_published x)) fetched_addons).
  lia.
Qed.

End StatisticsAndViews.
